(** * topic-mediactl: graph assembly and activation of a media pipeline

    A shallow embedding of [topic-mediactl.c].  The driver keeps a registry
    of graph entities (the notifier's [asd_list]), binds V4L2 subdevices to
    them as they arrive, creates the pad-to-pad links once all of them are
    bound, and powers and starts every subdevice on request.

    Pointers are addresses ([nat]); a [struct v4l2_subdev] lives in a heap
    indexed by its address, and the [struct media_entity] embedded in it is
    addressed by the address of the enclosing subdevice ([container_of] is
    the identity).  An entity of the registry is addressed by its position in
    [asd_list].  Reading through a null or dangling pointer stops the
    execution with [Oops]. *)

From Stdlib Require Import ZArith String Ascii Lia.
From stdpp Require Import base option list gmap.

Local Open Scope Z_scope.

(** ** Error numbers *)

Module Errno.
Definition ENODEV : Z := 19.
Definition EINVAL : Z := 22.
Definition ENOIOCTLCMD : Z := 515.
Definition MAX_ERRNO : Z := 4095.
End Errno.
Import Errno.

(** [IS_ERR] on a pointer seen as a signed long. *)
Definition IS_ERR (p : Z) : bool := (- MAX_ERRNO <=? p) && (p <? 0).

(** ** Data model *)

Abbreviation fwnode_handle := nat (only parsing).
Abbreviation subdev_ptr := nat (only parsing).

Definition MEDIA_PAD_FL_SINK : Z := 1.
Definition MEDIA_LNK_FL_ENABLED : Z := 1.

Record media_pad := mk_pad {
  index : nat;
  flags : Z
}.

Record media_entity := mk_entity {
  name : string;
  pads : list media_pad
}.

Definition num_pads (e : media_entity) : nat := length (pads e).

Record v4l2_subdev := mk_subdev {
  sd_fwnode : fwnode_handle;
  sd_name : string;
  sd_entity : media_entity
}.

Record v4l2_fwnode_link := mk_fwlink {
  local_node : fwnode_handle;
  local_port : nat;
  remote_node : fwnode_handle;
  remote_port : nat
}.

(** One endpoint of the firmware graph: what
    [fwnode_graph_get_remote_port_parent] and [v4l2_fwnode_parse_link]
    answer for it. *)
Record endpoint := mk_endpoint {
  remote_port_parent : option fwnode_handle;
  parse_link_ret : Z;
  parsed_link : v4l2_fwnode_link
}.

Record media_link := mk_link {
  source : subdev_ptr;
  source_pad : nat;
  sink : subdev_ptr;
  sink_pad : nat;
  link_flags : Z
}.

(** The operations the driver invokes through [v4l2_subdev_call]. *)
Inductive subdev_op :=
| s_power (on : Z)
| s_frame_interval (numerator denominator : Z)
| s_stream (enable : Z).

Global Instance subdev_op_eq_dec : EqDecision subdev_op.
Proof. solve_decision. Defined.

Record xvip_graph_entity := mk_graph_entity {
  asd_match_fwnode : fwnode_handle;
  entity : option subdev_ptr;
  subdev : option subdev_ptr;
  streaming : bool
}.

Record xvip_composite_device := mk_xdev {
  dev_of_node : fwnode_handle;
  asd_list : list xvip_graph_entity;
  notifier_registered : bool;
  subdev_nodes_registered : bool;
  media_dev_registered : bool;
  is_streaming : bool
}.

Definition set_asd_list (l : list xvip_graph_entity)
    (x : xvip_composite_device) : xvip_composite_device :=
  mk_xdev (dev_of_node x) l (notifier_registered x)
          (subdev_nodes_registered x) (media_dev_registered x) (is_streaming x).

Definition set_notifier_registered (b : bool)
    (x : xvip_composite_device) : xvip_composite_device :=
  mk_xdev (dev_of_node x) (asd_list x) b
          (subdev_nodes_registered x) (media_dev_registered x) (is_streaming x).

Definition set_subdev_nodes_registered (b : bool)
    (x : xvip_composite_device) : xvip_composite_device :=
  mk_xdev (dev_of_node x) (asd_list x) (notifier_registered x)
          b (media_dev_registered x) (is_streaming x).

Definition set_media_dev_registered (b : bool)
    (x : xvip_composite_device) : xvip_composite_device :=
  mk_xdev (dev_of_node x) (asd_list x) (notifier_registered x)
          (subdev_nodes_registered x) b (is_streaming x).

Definition set_is_streaming (b : bool)
    (x : xvip_composite_device) : xvip_composite_device :=
  mk_xdev (dev_of_node x) (asd_list x) (notifier_registered x)
          (subdev_nodes_registered x) (media_dev_registered x) b.

(** Everything outside the driver: the firmware graph and the results of the
    kernel services and of the subdevice operations.  The result of a
    subdevice operation may depend on the operations issued before it. *)
Record platform := mk_platform {
  of_graph : gmap fwnode_handle (list endpoint);
  add_fwnode_subdev_result : fwnode_handle -> Z;
  notifier_register_result : Z;
  create_pad_link_result : media_link -> Z;
  register_subdev_nodes_result : Z;
  media_device_register_result : Z;
  subdev_call_result : subdev_ptr -> subdev_op -> list (subdev_ptr * subdev_op) -> Z
}.

(** The mutable state: the device behind [g_xdev], the counter
    [indication], the live subdevices, the links created so far and the log
    of subdevice operations issued so far (oldest first). *)
Record kstate := mk_kstate {
  g_xdev : xvip_composite_device;
  indication : Z;
  subdevs : gmap subdev_ptr v4l2_subdev;
  links : list media_link;
  calls : list (subdev_ptr * subdev_op)
}.

Definition set_g_xdev (x : xvip_composite_device) (k : kstate) : kstate :=
  mk_kstate x (indication k) (subdevs k) (links k) (calls k).
Definition set_indication (n : Z) (k : kstate) : kstate :=
  mk_kstate (g_xdev k) n (subdevs k) (links k) (calls k).
Definition set_subdevs (h : gmap subdev_ptr v4l2_subdev) (k : kstate) : kstate :=
  mk_kstate (g_xdev k) (indication k) h (links k) (calls k).
Definition set_links (l : list media_link) (k : kstate) : kstate :=
  mk_kstate (g_xdev k) (indication k) (subdevs k) l (calls k).
Definition set_calls (c : list (subdev_ptr * subdev_op)) (k : kstate) : kstate :=
  mk_kstate (g_xdev k) (indication k) (subdevs k) (links k) c.

(** ** The execution monad *)

Inductive outcome (A : Type) :=
| Done (a : A) (k : kstate)
| Oops.
Arguments Done {A} a k.
Arguments Oops {A}.

Definition kernel (A : Type) := kstate -> outcome A.

Definition kret {A} (a : A) : kernel A := fun k => Done a k.
Definition kbind {A B} (m : kernel A) (f : A -> kernel B) : kernel B :=
  fun k => match m k with
           | Done a k' => f a k'
           | Oops => Oops
           end.
Definition oops {A} : kernel A := fun _ => Oops.
Definition kget : kernel kstate := fun k => Done k k.
Definition kmodify (f : kstate -> kstate) : kernel unit := fun k => Done tt (f k).

Notation "'do' x <- m ; f" := (kbind m (fun x => f))
  (at level 10, x name, m at level 100, f at level 200).
Notation "m ;; f" := (kbind m (fun _ => f))
  (at level 100, f at level 200, right associativity).

(** Wrap-around of a C [int]. *)
Definition wrap_int (z : Z) : Z := (z + 2 ^ 31) mod 2 ^ 32 - 2 ^ 31.

(** Dereferencing. *)
Definition entity_at (i : nat) : kernel xvip_graph_entity :=
  fun k => match asd_list (g_xdev k) !! i with
           | Some e => Done e k
           | None => Oops
           end.

Definition deref_subdev (p : option subdev_ptr) : kernel v4l2_subdev :=
  fun k => match p with
           | Some a => match subdevs k !! a with
                       | Some sd => Done sd k
                       | None => Oops
                       end
           | None => Oops
           end.

Definition deref_entity (p : option subdev_ptr) : kernel media_entity :=
  do sd <- deref_subdev p; kret (sd_entity sd).

Definition store_entity (i : nat) (e : xvip_graph_entity) : kernel unit :=
  kmodify (fun k => set_g_xdev (set_asd_list (<[i := e]> (asd_list (g_xdev k))) (g_xdev k)) k).

Section Driver.

Variable P : platform.

(** ** Activation *)

(** [media_entity_to_v4l2_subdev]: the subdevice that embeds the media
    entity, at the same address; a null entity gives a null subdevice. *)
Definition media_entity_to_v4l2_subdev (ent : option subdev_ptr)
    : option subdev_ptr :=
  match ent with
  | Some p => Some p
  | None => None
  end.

(** [v4l2_subdev_call]: on a null subdevice the macro answers [- ENODEV]
    and calls nothing; otherwise the operation is logged and answers what
    the platform says ([- ENOIOCTLCMD] when the subdevice does not
    implement it). *)
Definition v4l2_subdev_call (sd : option subdev_ptr) (op : subdev_op) : kernel Z :=
  match sd with
  | None => kret (- ENODEV)
  | Some p =>
    fun k => Done (subdev_call_result P p op (calls k))
                  (set_calls (calls k ++ [(p, op)]) k)
  end.

Definition with_streaming (b : bool) (e : xvip_graph_entity) : xvip_graph_entity :=
  mk_graph_entity (asd_match_fwnode e) (entity e) (subdev e) b.

Definition xvip_graph_entity_set_streaming (i : nat) (enable : bool) : kernel bool :=
  do e <- entity_at i;
  store_entity i (with_streaming enable e);;
  kret (streaming e).

(** [ret < 0 && ret != -ENOIOCTLCMD] *)
Definition hard_error (r : Z) : bool := (r <? 0) && negb (r =? - ENOIOCTLCMD).

Definition IMX274 : string := "IMX274".

(** The tail of the start branch: "stream-on subdevice". *)
Definition stream_on (i : nat) (sd : option subdev_ptr) : kernel Z :=
  do r <- v4l2_subdev_call sd (s_stream 1);
  if hard_error r then
    v4l2_subdev_call sd (s_power 0);;
    xvip_graph_entity_set_streaming i false;;
    kret r
  else kret r.

(** The branch [on && !is_streaming]; [subdev->name] is read once power-on
    has not failed. *)
Definition start_subdev (i : nat) (sd : option subdev_ptr) : kernel Z :=
  do r <- v4l2_subdev_call sd (s_power 1);
  if hard_error r then
    xvip_graph_entity_set_streaming i false;; kret r
  else
    do s <- deref_subdev sd;
    if String.eqb (sd_name s) IMX274 then
      do r <- v4l2_subdev_call sd (s_frame_interval 1 60);
      if r <? 0 then
        xvip_graph_entity_set_streaming i false;; kret r
      else stream_on i sd
    else stream_on i sd.

(** The branch [!on && is_streaming]. *)
Definition stop_subdev (i : nat) (sd : option subdev_ptr) : kernel Z :=
  do r <- v4l2_subdev_call sd (s_stream 0);
  (if hard_error r
   then xvip_graph_entity_set_streaming i true;; kret tt
   else kret tt);;
  do r <- v4l2_subdev_call sd (s_power 0);
  kret r.

(** The [dev_dbg] statements are compiled out (the driver is built without
    DEBUG and no dynamic debug site is switched on), so their arguments,
    [entity->entity->name] among them, are not evaluated.  The subdevice of
    an entry whose handle has not arrived is null, and every
    [v4l2_subdev_call] on it answers [- ENODEV]. *)
Definition xvip_entity_start_stop (i : nat) (on : bool) : kernel Z :=
  do e <- entity_at i;
  let subdev := media_entity_to_v4l2_subdev (entity e) in
  do is_streaming <- xvip_graph_entity_set_streaming i on;
  if on && negb is_streaming then start_subdev i subdev
  else if negb on && is_streaming then stop_subdev i subdev
  else kret 0.

(** ** Whole-device activation and the [stream_start] attribute *)

(** [list_for_each_entry] over the registry, from entry [i], [n] entries
    left; the body neither adds nor removes entries. *)
Fixpoint start_entities (i n : nat) : kernel unit :=
  match n with
  | O => kret tt
  | S n' => xvip_entity_start_stop i true;; start_entities (S i) n'
  end.

Definition xvip_start_stream : kernel unit :=
  do k <- kget;
  start_entities 0 (length (asd_list (g_xdev k)));;
  kmodify (fun k => set_g_xdev (set_is_streaming true (g_xdev k)) k).

Definition newline : string := String (ascii_of_nat 10) EmptyString.

(** [snprintf(buf, PAGE_SIZE, "%d\n", g_xdev->is_streaming)]: the text
    written to [buf]. *)
Definition xvip_start_stream_show (k : kstate) : string :=
  ((if is_streaming (g_xdev k) then "1" else "0") ++ newline)%string.

Definition xvip_start_stream_store (count : Z) : kernel Z :=
  xvip_start_stream;; kret count.

(** ** Binding *)

Definition bind_subdev (sd : subdev_ptr) (e : xvip_graph_entity) : xvip_graph_entity :=
  mk_graph_entity (asd_match_fwnode e) (Some sd) (Some sd) (streaming e).

Fixpoint bound_scan (sd : subdev_ptr) (fw : fwnode_handle) (i n : nat) : kernel Z :=
  match n with
  | O => kret (- EINVAL)
  | S n' =>
    do e <- entity_at i;
    if negb (asd_match_fwnode e =? fw)%nat then bound_scan sd fw (S i) n'
    else match subdev e with
         | Some _ => kret (- EINVAL)
         | None => store_entity i (bind_subdev sd e);; kret 0
         end
  end.

Definition xvip_graph_notify_bound (sd : subdev_ptr) : kernel Z :=
  do s <- deref_subdev (Some sd);
  do k <- kget;
  bound_scan sd (sd_fwnode s) 0 (length (asd_list (g_xdev k))).

(** ** Link assembly *)

(** The position of the first entity of the registry matching [fw]. *)
Definition xvip_graph_find_entity (xdev : xvip_composite_device)
    (fw : fwnode_handle) : option nat :=
  fst <$> list_find (fun e => asd_match_fwnode e = fw) (asd_list xdev).

Definition endpoints_of (fw : fwnode_handle) : list endpoint :=
  default [] (of_graph P !! fw).

Definition rename_entity (n : string) (sd : v4l2_subdev) : v4l2_subdev :=
  mk_subdev (sd_fwnode sd) (sd_name sd) (mk_entity n (pads (sd_entity sd))).

(** [local->name = n] *)
Definition set_entity_name (p : subdev_ptr) (n : string) : kernel unit :=
  do sd <- deref_subdev (Some p);
  kmodify (fun k => set_subdevs (<[p := rename_entity n sd]> (subdevs k)) k).

Definition media_create_pad_link (src : subdev_ptr) (spad : nat)
    (snk : subdev_ptr) (kpad : nat) (fl : Z) : kernel Z :=
  let l := mk_link src spad snk kpad fl in
  let r := create_pad_link_result P l in
  if r <? 0 then kret r
  else kmodify (fun k => set_links (links k ++ [l]) k);; kret r.

(** The [while (1)] loop of [xvip_graph_build_one] over the endpoints left;
    [ret] is the value of the variable [ret] on entry.  An endpoint whose
    link does not parse is skipped, but its error stays in [ret] and is
    what the function returns if no later endpoint overwrites it. *)
Fixpoint build_links (lp : subdev_ptr) (eps : list endpoint) (ret : Z) : kernel Z :=
  match eps with
  | [] => kret ret
  | ep :: eps' =>
    let ret := parse_link_ret ep in
    if ret <? 0 then build_links lp eps' ret
    else
      let link := parsed_link ep in
      do local <- deref_entity (Some lp);
      if (num_pads local <=? local_port link)%nat then kret (- EINVAL)
      else
        match pads local !! local_port link with
        | None => oops
        | Some local_pad =>
          if negb (Z.land (flags local_pad) MEDIA_PAD_FL_SINK =? 0)
          then build_links lp eps' ret
          else
            do k <- kget;
            if (remote_node link =? dev_of_node (g_xdev k))%nat
            then build_links lp eps' ret
            else
              match xvip_graph_find_entity (g_xdev k) (remote_node link) with
              | None => kret (- ENODEV)
              | Some j =>
                do ent <- entity_at j;
                do remote <- deref_entity (entity ent);
                match entity ent with
                | None => oops
                | Some rp =>
                  if (num_pads remote <=? remote_port link)%nat then kret (- EINVAL)
                  else
                    match pads remote !! remote_port link with
                    | None => oops
                    | Some remote_pad =>
                      do ret <- media_create_pad_link lp (index local_pad)
                                  rp (index remote_pad) MEDIA_LNK_FL_ENABLED;
                      if ret <? 0 then kret ret
                      else build_links lp eps' ret
                    end
                end
              end
        end
  end.

Definition IMX274_0 : string := "IMX274_0".
Definition IMX274_1 : string := "IMX274_1".

Definition xvip_graph_build_one (i : nat) : kernel Z :=
  do e <- entity_at i;
  do local <- deref_entity (entity e);
  match entity e with
  | None => oops
  | Some lp =>
    (if String.eqb (name local) IMX274 then
       do k <- kget;
       set_entity_name lp (if indication k =? 0 then IMX274_0 else IMX274_1);;
       kmodify (fun k => set_indication (wrap_int (indication k + 1)) k)
     else kret tt);;
    build_links lp (endpoints_of (asd_match_fwnode e)) 0
  end.

(** The loop of [xvip_graph_notify_complete]: [Some ret] when a
    [xvip_graph_build_one] failed and the function returns [ret] at once. *)
Fixpoint build_entities (i n : nat) : kernel (option Z) :=
  match n with
  | O => kret None
  | S n' =>
    do ret <- xvip_graph_build_one i;
    if ret <? 0 then kret (Some ret) else build_entities (S i) n'
  end.

Definition v4l2_device_register_subdev_nodes : kernel Z :=
  let r := register_subdev_nodes_result P in
  kmodify (fun k => set_g_xdev
             (set_subdev_nodes_registered (0 <=? r) (g_xdev k)) k);;
  kret r.

Definition media_device_register : kernel Z :=
  let r := media_device_register_result P in
  kmodify (fun k => set_g_xdev
             (set_media_dev_registered (0 <=? r) (g_xdev k)) k);;
  kret r.

Definition xvip_graph_notify_complete : kernel Z :=
  do k <- kget;
  do early <- build_entities 0 (length (asd_list (g_xdev k)));
  match early with
  | Some ret => kret ret
  | None =>
    v4l2_device_register_subdev_nodes;;
    media_device_register
  end.

(** ** Graph discovery

    These functions work on the device they are handed and on nothing
    else, so they pass the device explicitly. *)

Definition v4l2_async_notifier_cleanup (xdev : xvip_composite_device)
    : xvip_composite_device :=
  set_asd_list [] xdev.

Definition v4l2_async_notifier_unregister (xdev : xvip_composite_device)
    : xvip_composite_device :=
  set_notifier_registered false xdev.

(** The zeroed entity [v4l2_async_notifier_add_fwnode_subdev] allocates. *)
Definition new_entity (fw : fwnode_handle) : xvip_graph_entity :=
  mk_graph_entity fw None None false.

(** The [while (1)] loop of [xvip_graph_parse_one] over the endpoints left. *)
Fixpoint parse_endpoints (eps : list endpoint) (xdev : xvip_composite_device)
    : Z * xvip_composite_device :=
  match eps with
  | [] => (0, xdev)
  | ep :: eps' =>
    match remote_port_parent ep with
    | None => (- EINVAL, v4l2_async_notifier_cleanup xdev)
    | Some remote =>
      if (remote =? dev_of_node xdev)%nat
         || bool_decide (is_Some (xvip_graph_find_entity xdev remote))
      then parse_endpoints eps' xdev
      else
        let asd := add_fwnode_subdev_result P remote in
        if IS_ERR asd then (asd, v4l2_async_notifier_cleanup xdev)
        else parse_endpoints eps'
               (set_asd_list (asd_list xdev ++ [new_entity remote]) xdev)
    end
  end.

Definition xvip_graph_parse_one (xdev : xvip_composite_device)
    (fw : fwnode_handle) : Z * xvip_composite_device :=
  parse_endpoints (endpoints_of fw) xdev.

(** The [list_for_each_entry] loop of [xvip_graph_parse], which sees the
    entries appended while it runs; [None] when [fuel] iterations were not
    enough. *)
Fixpoint parse_entities (fuel i : nat) (ret : Z) (xdev : xvip_composite_device)
    : option (Z * xvip_composite_device) :=
  match fuel with
  | O => None
  | S fuel' =>
    match asd_list xdev !! i with
    | None => Some (ret, xdev)
    | Some e =>
      let '(ret, xdev) := xvip_graph_parse_one xdev (asd_match_fwnode e) in
      if ret <? 0 then Some (ret, v4l2_async_notifier_cleanup xdev)
      else parse_entities fuel' (S i) ret xdev
    end
  end.

Definition xvip_graph_parse_fuel (fuel : nat) (xdev : xvip_composite_device)
    : option (Z * xvip_composite_device) :=
  let '(ret, xdev) := xvip_graph_parse_one xdev (dev_of_node xdev) in
  if ret <? 0 then Some (0, xdev)
  else parse_entities fuel 0 ret xdev.

(** Every endpoint of the firmware graph. *)
Definition all_endpoints : list endpoint :=
  concat (snd <$> map_to_list (of_graph P)).

(** The loop visits each entry once and every new entry comes from an
    endpoint of the graph, so this many iterations always suffice
    ([xvip_graph_parse_total] below). *)
Definition parse_fuel (xdev : xvip_composite_device) : nat :=
  S (length (asd_list xdev) + length all_endpoints).

Definition xvip_graph_parse (xdev : xvip_composite_device)
    : option (Z * xvip_composite_device) :=
  xvip_graph_parse_fuel (parse_fuel xdev) xdev.

Definition xvip_graph_cleanup (xdev : xvip_composite_device)
    : xvip_composite_device :=
  v4l2_async_notifier_cleanup (v4l2_async_notifier_unregister xdev).

Definition xvip_graph_init (xdev : xvip_composite_device)
    : option (Z * xvip_composite_device) :=
  match xvip_graph_parse xdev with
  | None => None
  | Some (ret, xdev) =>
    if ret <? 0 then Some (ret, xvip_graph_cleanup xdev)
    else if bool_decide (asd_list xdev = []) then Some (ret, xdev)
    else
      let ret := notifier_register_result P in
      if ret <? 0 then Some (ret, xvip_graph_cleanup xdev)
      else Some (0, set_notifier_registered true xdev)
  end.

End Driver.

(** ** Lookup by media entity *)

(** The position of the first entity of the registry whose [entity] pointer
    is [ent]; the comparison is on pointers, so a null [ent] matches an
    entry that is not bound yet. *)
Definition xvip_graph_find_entity_from_media (xdev : xvip_composite_device)
    (ent : option subdev_ptr) : option nat :=
  fst <$> list_find (fun e => entity e = ent) (asd_list xdev).

(** ** Probe and remove

    The driver instance: the composite device together with what the
    V4L2 and media cores and sysfs hold for it. *)









(** * Vocabulary of the properties *)

(** The state after [entity->streaming = b] on entry [i]. *)
Definition streaming_set (i : nat) (b : bool) (k : kstate) : kstate :=
  set_g_xdev
    (set_asd_list (alter (with_streaming b) i (asd_list (g_xdev k))) (g_xdev k)) k.

(** A registry entry bound to a live subdevice. *)
Definition bound_at (k : kstate) (i : nat) (e : xvip_graph_entity) (sd : subdev_ptr)
    (s : v4l2_subdev) : Prop :=
  asd_list (g_xdev k) !! i = Some e /\ entity e = Some sd /\ subdevs k !! sd = Some s.

(** The entry has an entity, and it is a live subdevice. *)
Definition entity_bound (k : kstate) (e : xvip_graph_entity) : bool :=
  match entity e with
  | Some sd => bool_decide (is_Some (subdevs k !! sd))
  | None => false
  end.

(** Every entry of the registry is bound to a live subdevice. *)
Definition all_bound (k : kstate) : bool :=
  forallb (entity_bound k) (asd_list (g_xdev k)).

(** No entry holds a dangling pointer: the entity of an entry is null (its
    handle has not arrived) or a live subdevice. *)
Definition entity_live (k : kstate) (e : xvip_graph_entity) : bool :=
  match entity e with
  | Some sd => bool_decide (is_Some (subdevs k !! sd))
  | None => true
  end.

Definition entities_live (k : kstate) : bool :=
  forallb (entity_live k) (asd_list (g_xdev k)).

(** The same, entry by entry. *)
Definition live_everywhere (k : kstate) : Prop :=
  forall i e sd, asd_list (g_xdev k) !! i = Some e -> entity e = Some sd ->
    is_Some (subdevs k !! sd).

(** The operations [c] that one activation of the entry [e] may issue: on
    an entry with a subdevice they all go to that subdevice and, when the
    entry was idle, the first one is power-on; on an entry without
    subdevice there is none. *)
Definition activation_block (e : xvip_graph_entity)
    (c : list (subdev_ptr * subdev_op)) : Prop :=
  match entity e with
  | Some sd => Forall (fun o => fst o = sd) c /\
               (streaming e = false -> head c = Some (sd, s_power 1))
  | None => c = []
  end.

(** [assembles P i n k k']: the entries from [i] up to [n], [n] excluded, are
    assembled one after the other from the state [k], none with a negative
    result, and [k'] is the state after the last one. *)
Inductive assembles (P : platform) : nat -> nat -> kstate -> kstate -> Prop :=
| assembles_none n k : assembles P n n k k
| assembles_next i n k r k1 k' :
    xvip_graph_build_one P i k = Done r k1 -> 0 <= r ->
    assembles P (S i) n k1 k' ->
    assembles P i n k k'.

(** The same, entry by entry. *)
Definition bound_everywhere (k : kstate) : Prop :=
  forall i e, asd_list (g_xdev k) !! i = Some e ->
    exists sd s, entity e = Some sd /\ subdevs k !! sd = Some s.

(** The registry holds each firmware node once. *)
Definition unique_identities (k : kstate) : Prop :=
  NoDup (asd_match_fwnode <$> asd_list (g_xdev k)).

(** What the head of [xvip_graph_build_one] does to an entity named
    IMX274, and to the counter. *)
Definition rename_step (sd : subdev_ptr) (s : v4l2_subdev) (k : kstate) : kstate :=
  if String.eqb (name (sd_entity s)) IMX274 then
    set_indication (wrap_int (indication k + 1))
      (set_subdevs
         (<[sd := rename_entity (if indication k =? 0 then IMX274_0 else IMX274_1) s]>
            (subdevs k)) k)
  else k.

(** The entry is bound to an entity named IMX274. *)
Definition is_imx274 (k : kstate) (e : xvip_graph_entity) : bool :=
  match entity e with
  | Some sd =>
    match subdevs k !! sd with
    | Some s => String.eqb (name (sd_entity s)) IMX274
    | None => false
    end
  | None => false
  end.

(** How many of the first [i] entries are bound to an entity named IMX274. *)
Definition imx274_before (k : kstate) (i : nat) : nat :=
  length (List.filter (is_imx274 k) (take i (asd_list (g_xdev k)))).

(** The name the entity of entry [i] carries after a complete pass that
    started with the counter at 0. *)
Definition assembled_name (k : kstate) (i : nat) (s : v4l2_subdev) : string :=
  if String.eqb (name (sd_entity s)) IMX274
  then if (imx274_before k i =? 0)%nat then IMX274_0 else IMX274_1
  else name (sd_entity s).

(** The state once the first [i] entries of [k0] are assembled. *)
Definition assembled_upto (k0 : kstate) (i : nat) (k : kstate) : Prop :=
  g_xdev k = g_xdev k0 /\
  indication k = Z.of_nat (imx274_before k0 i) /\
  forall j e sd s,
    asd_list (g_xdev k0) !! j = Some e -> entity e = Some sd ->
    subdevs k0 !! sd = Some s ->
    exists s', subdevs k !! sd = Some s' /\
      if (j <? i)%nat then name (sd_entity s') = assembled_name k0 j s
      else s' = s.

(** The firmware nodes of the registry, in registry order. *)
Definition fwnodes (xdev : xvip_composite_device) : list nat :=
  asd_match_fwnode <$> asd_list xdev.

(** Some endpoint of [fw] has no remote port parent. *)
Definition has_dangling (P : platform) (fw : fwnode_handle) : bool :=
  existsb (fun ep => bool_decide (remote_port_parent ep = None)) (endpoints_of P fw).

(** Some endpoint of [a] has [b] as its remote port parent. *)
Definition linked (P : platform) (a b : fwnode_handle) : bool :=
  existsb (fun ep => bool_decide (remote_port_parent ep = Some b)) (endpoints_of P a).

(** [p] is a chain of links that leads from [a] to [n]. *)
Fixpoint reaches (P : platform) (a : fwnode_handle) (p : list nat)
    (n : fwnode_handle) : bool :=
  match p with
  | [] => bool_decide (a = n)
  | b :: p' => linked P a b && reaches P b p' n
  end.

(** Every endpoint of [fw] resolves to the root or to a node of the
    registry. *)
Definition closed_in (P : platform) (xdev : xvip_composite_device)
    (fw : fwnode_handle) : Prop :=
  forall ep, In ep (endpoints_of P fw) ->
    exists r, remote_port_parent ep = Some r /\
              (r = dev_of_node xdev \/ In r (fwnodes xdev)).

(** The remote port parents of the whole firmware graph. *)
Definition all_remotes (P : platform) : list nat :=
  omap remote_port_parent (all_endpoints P).

(** The state after entry [i], which was [e], is bound to the handle [sd]. *)
Definition entry_bound (i : nat) (sd : subdev_ptr) (e : xvip_graph_entity)
    (k : kstate) : kstate :=
  set_g_xdev
    (set_asd_list (<[i := bind_subdev sd e]> (asd_list (g_xdev k))) (g_xdev k)) k.

(** [l] is the link that the endpoint [ep] of the entity [lp] asks for: the
    endpoint parses, its local port is a pad of [lp] that is not a sink,
    its remote node is not the root and is registered, bound to an entity
    that has the remote port as a pad; the link goes from the one pad to
    the other and is enabled. *)
Definition link_of_endpoint (k : kstate) (lp : subdev_ptr) (ep : endpoint)
    (l : media_link) : Prop :=
  0 <= parse_link_ret ep /\
  remote_node (parsed_link ep) <> dev_of_node (g_xdev k) /\
  exists s local_pad j ent rp rs remote_pad,
    subdevs k !! lp = Some s /\
    pads (sd_entity s) !! local_port (parsed_link ep) = Some local_pad /\
    Z.land (flags local_pad) MEDIA_PAD_FL_SINK = 0 /\
    xvip_graph_find_entity (g_xdev k) (remote_node (parsed_link ep)) = Some j /\
    asd_list (g_xdev k) !! j = Some ent /\ entity ent = Some rp /\
    subdevs k !! rp = Some rs /\
    pads (sd_entity rs) !! remote_port (parsed_link ep) = Some remote_pad /\
    l = mk_link lp (index local_pad) rp (index remote_pad) MEDIA_LNK_FL_ENABLED.

(** The endpoint [ep] of the entity [lp] is passed over: it does not parse,
    or its local port is a sink pad, or it leads to the root. *)
Definition skips_endpoint (k : kstate) (lp : subdev_ptr) (ep : endpoint) : bool :=
  (parse_link_ret ep <? 0) ||
  match subdevs k !! lp with
  | Some s =>
    match pads (sd_entity s) !! local_port (parsed_link ep) with
    | Some pad =>
      negb (Z.land (flags pad) MEDIA_PAD_FL_SINK =? 0) ||
      (remote_node (parsed_link ep) =? dev_of_node (g_xdev k))%nat
    | None => false
    end
  | None => false
  end.

(** The value of [ret] after a pass over endpoints that are all passed
    over: the parse status of the last one. *)
Definition last_parse_status (ret : Z) (eps : list endpoint) : Z :=
  default ret (parse_link_ret <$> last eps).

(** A registry as discovery builds it from the root [root]: no identity
    twice, the root not in it, every node at the end of a chain of links
    from the root, and every entry unbound and idle. *)
Definition discovered (P : platform) (root : fwnode_handle)
    (xdev : xvip_composite_device) : Prop :=
  NoDup (fwnodes xdev) /\
  ~ In root (fwnodes xdev) /\
  (forall n, In n (fwnodes xdev) -> exists p, reaches P root p n = true) /\
  asd_list xdev = new_entity <$> fwnodes xdev.

(** No endpoint of the firmware graph lacks its remote port parent. *)
Definition graph_resolved (P : platform) : bool :=
  forallb (fun ep => negb (bool_decide (remote_port_parent ep = None)))
          (all_endpoints P).

(** Every endpoint of the node leads back to the root. *)
Definition only_self_links (P : platform) (root : fwnode_handle) : bool :=
  forallb (fun ep => bool_decide (remote_port_parent ep = Some root))
          (endpoints_of P root).

(** * Scenarios *)

Definition MEDIA_PAD_FL_SOURCE : Z := 2.

Definition sample_pads : list media_pad :=
  [mk_pad 0 MEDIA_PAD_FL_SINK; mk_pad 1 MEDIA_PAD_FL_SOURCE].

Definition sample_subdev (fw : fwnode_handle) (n : string) : v4l2_subdev :=
  mk_subdev fw n (mk_entity n sample_pads).

Definition bound_entity (fw : fwnode_handle) (sd : subdev_ptr) (st : bool)
    : xvip_graph_entity :=
  mk_graph_entity fw (Some sd) (Some sd) st.

(** A platform with the firmware graph [g] on which every kernel service
    succeeds and the subdevice operations answer [f]. *)
Definition sample_platform (g : gmap nat (list endpoint))
    (f : nat -> subdev_op -> list (nat * subdev_op) -> Z) : platform :=
  mk_platform g (fun _ => 4096) 0 (fun _ => 0) 0 0 f.

Definition sample_state (l : list xvip_graph_entity)
    (h : list (nat * v4l2_subdev)) : kstate :=
  mk_kstate (mk_xdev 0 l true false false false) 0 (list_to_map h) [] [].

(** Three bound idle nodes; the second one fails to start streaming. *)
Definition three_nodes : kstate :=
  sample_state
    [bound_entity 1 10 false; bound_entity 2 20 false; bound_entity 3 30 false]
    [(10%nat, sample_subdev 1 "bridge"); (20%nat, sample_subdev 2 "scaler");
     (30%nat, sample_subdev 3 "csi")].

Definition second_stream_on_fails : platform :=
  sample_platform ∅
    (fun sd op _ => if bool_decide (sd = 20%nat /\ op = s_stream 1) then -5 else 0).

(** One streaming node whose stream-off fails. *)
Definition one_streaming : kstate :=
  sample_state [bound_entity 1 10 true] [(10%nat, sample_subdev 1 "bridge")].

Definition stream_off_fails : platform :=
  sample_platform ∅
    (fun sd op _ => if bool_decide (op = s_stream 0) then -5 else 0).

(** One idle sensor named IMX274 that refuses the frame interval. *)
Definition one_sensor : kstate :=
  sample_state [bound_entity 1 10 false] [(10%nat, sample_subdev 1 "IMX274")].

Definition frame_interval_fails : platform :=
  sample_platform ∅
    (fun sd op _ => if bool_decide (op = s_frame_interval 1 60) then -22 else 0).

(** A bound node and a registered node whose handle has not arrived. *)
Definition one_unbound : kstate :=
  sample_state [bound_entity 1 10 false; new_entity 2]
    [(10%nat, sample_subdev 1 "bridge"); (20%nat, sample_subdev 2 "scaler");
     (30%nat, sample_subdev 3 "csi")].

(** A registered node whose handle has not arrived, ahead of two bound
    idle nodes. *)
Definition unbound_first : kstate :=
  sample_state [new_entity 1; bound_entity 2 20 false; bound_entity 3 30 false]
    [(20%nat, sample_subdev 2 "scaler"); (30%nat, sample_subdev 3 "csi")].

Definition quiet_platform : platform := sample_platform ∅ (fun _ _ _ => 0).

(** Two and three sensors with the same name. *)
Definition two_ov5640 : kstate :=
  sample_state [bound_entity 1 10 false; bound_entity 2 20 false]
    [(10%nat, sample_subdev 1 "OV5640"); (20%nat, sample_subdev 2 "OV5640")].

Definition two_imx274 : kstate :=
  sample_state [bound_entity 1 10 false; bound_entity 2 20 false]
    [(10%nat, sample_subdev 1 "IMX274"); (20%nat, sample_subdev 2 "IMX274")].

Definition three_imx274 : kstate :=
  sample_state
    [bound_entity 1 10 false; bound_entity 2 20 false; bound_entity 3 30 false]
    [(10%nat, sample_subdev 1 "IMX274"); (20%nat, sample_subdev 2 "IMX274");
     (30%nat, sample_subdev 3 "IMX274")].

(** [two_imx274] after a complete assembly pass. *)
Definition renamed_subdev (fw : fwnode_handle) (n m : string) : v4l2_subdev :=
  mk_subdev fw n (mk_entity m sample_pads).

Definition two_imx274_assembled : kstate :=
  mk_kstate (g_xdev two_imx274) 2
    (list_to_map [(10%nat, renamed_subdev 1 "IMX274" "IMX274_0");
                  (20%nat, renamed_subdev 2 "IMX274" "IMX274_1")]) [] [].

(** Firmware graphs: the root is node 0. *)
Definition resolved (n : fwnode_handle) : endpoint :=
  mk_endpoint (Some n) 0 (mk_fwlink 0 0 n 0).
Definition unresolved : endpoint :=
  mk_endpoint None (-67) (mk_fwlink 0 0 0 0).

Definition fresh_device : xvip_composite_device :=
  mk_xdev 0 [] false false false false.

(** The root has an endpoint that leads nowhere. *)
Definition root_dangling : platform :=
  sample_platform (list_to_map [(0%nat, [resolved 1; unresolved])]) (fun _ _ _ => 0).

(** The root leads to node 1, node 1 to node 2, and node 2 has an endpoint
    that leads nowhere. *)
Definition leaf_dangling : platform :=
  sample_platform
    (list_to_map [(0%nat, [resolved 1]); (1%nat, [resolved 0; resolved 2]);
                  (2%nat, [resolved 1; unresolved])])
    (fun _ _ _ => 0).

(** Subdevices that implement none of the operations. *)
Definition unimplemented_ops : platform :=
  sample_platform ∅ (fun _ _ _ => - ENOIOCTLCMD).

(** Power-on fails. *)
Definition power_on_fails : platform :=
  sample_platform ∅
    (fun sd op _ => if bool_decide (op = s_power 1) then -5 else 0).

(** Stream-on fails, on every subdevice. *)
Definition stream_on_fails : platform :=
  sample_platform ∅
    (fun sd op _ => if bool_decide (op = s_stream 1) then -5 else 0).

(** Power-off fails. *)
Definition power_off_fails : platform :=
  sample_platform ∅
    (fun sd op _ => if bool_decide (op = s_power 0) then -5 else 0).

(** A sensor (node 1, subdevice 10) whose source pad 1 feeds the sink pad
    0 of a bridge (node 2, subdevice 20); the source pad 1 of the bridge
    leads to the root. *)
Definition pipeline_graph : gmap nat (list endpoint) :=
  list_to_map
    [(0%nat, [mk_endpoint (Some 2%nat) 0 (mk_fwlink 0 0 2 1)]);
     (1%nat, [mk_endpoint (Some 2%nat) 0 (mk_fwlink 1 1 2 0)]);
     (2%nat, [mk_endpoint (Some 1%nat) 0 (mk_fwlink 2 0 1 1);
              mk_endpoint (Some 0%nat) 0 (mk_fwlink 2 1 0 0)])].

Definition pipeline : platform := sample_platform pipeline_graph (fun _ _ _ => 0).

Definition pipeline_bound : kstate :=
  sample_state [bound_entity 2 20 false; bound_entity 1 10 false]
    [(10%nat, sample_subdev 1 "sensor"); (20%nat, sample_subdev 2 "bridge")].

(** The same bridge, with a last endpoint that does not parse. *)
Definition trailing_unparsable : platform :=
  sample_platform
    (list_to_map
       [(2%nat, [mk_endpoint (Some 1%nat) 0 (mk_fwlink 2 0 1 1);
                 mk_endpoint (Some 0%nat) (-67) (mk_fwlink 2 1 0 0)])])
    (fun _ _ _ => 0).

(** A root whose only endpoint leads back to itself. *)
Definition self_linked_root : platform :=
  sample_platform (list_to_map [(0%nat, [resolved 0])]) (fun _ _ _ => 0).

(** The discovered registry of [pipeline]. *)
Definition pipeline_discovered : xvip_composite_device :=
  mk_xdev 0 [new_entity 2; new_entity 1] false false false false.


(** Two registered nodes, neither of which has its subdevice yet. *)
Definition none_bound : kstate :=
  sample_state [new_entity 1; new_entity 2] [].

(** A node without subdevice that is recorded as streaming. *)
Definition streaming_unbound : kstate :=
  sample_state [mk_graph_entity 1 None None true] [].

(** * Properties *)

(** ** Stepping the monad *)

Lemma kbind_done {A B} (m : kernel A) (f : A -> kernel B) k a k' :
  m k = Done a k' -> kbind m f k = f a k'.
Proof. intros H. unfold kbind. now rewrite H. Qed.

Lemma kbind_oops {A B} (m : kernel A) (f : A -> kernel B) k :
  m k = Oops -> kbind m f k = Oops.
Proof. intros H. unfold kbind. now rewrite H. Qed.

Lemma entity_at_done k i e :
  asd_list (g_xdev k) !! i = Some e -> entity_at i k = Done e k.
Proof. intros H. unfold entity_at. now rewrite H. Qed.

Lemma deref_subdev_done k p sd :
  subdevs k !! p = Some sd -> deref_subdev (Some p) k = Done sd k.
Proof. intros H. unfold deref_subdev. now rewrite H. Qed.

Lemma deref_entity_done k p sd :
  subdevs k !! p = Some sd -> deref_entity (Some p) k = Done (sd_entity sd) k.
Proof.
  intros H. unfold deref_entity.
  now rewrite (kbind_done _ _ _ _ _ (deref_subdev_done _ _ _ H)).
Qed.

Lemma with_streaming_id e : with_streaming (streaming e) e = e.
Proof. now destruct e. Qed.

Lemma streaming_set_id k i e :
  asd_list (g_xdev k) !! i = Some e -> streaming_set i (streaming e) k = k.
Proof.
  intros H. unfold streaming_set.
  replace (alter (with_streaming (streaming e)) i (asd_list (g_xdev k)))
    with (asd_list (g_xdev k)).
  - destruct k as [x ? ? ? ?]. now destruct x.
  - apply list_eq. intros j. destruct (decide (i = j)) as [->|Hne].
    + rewrite list_lookup_alter_eq, H. simpl. now rewrite with_streaming_id.
    + now rewrite list_lookup_alter_ne.
Qed.

Lemma streaming_set_same k i e b :
  asd_list (g_xdev k) !! i = Some e -> streaming e = b -> streaming_set i b k = k.
Proof. intros H <-. now apply streaming_set_id. Qed.

Lemma streaming_set_lookup k i b e :
  asd_list (g_xdev k) !! i = Some e ->
  asd_list (g_xdev (streaming_set i b k)) !! i = Some (with_streaming b e).
Proof.
  intros H. unfold streaming_set. simpl.
  now rewrite list_lookup_alter_eq, H.
Qed.

Lemma streaming_set_twice k i b b' :
  streaming_set i b' (streaming_set i b k) = streaming_set i b' k.
Proof.
  destruct k as [[? l ? ? ? ?] ? ? ? ?]. unfold streaming_set. simpl.
  unfold set_g_xdev, set_asd_list. simpl.
  rewrite list_alter_alter_eq.
  assert (E : alter (with_streaming b' ∘ with_streaming b) i l
              = alter (with_streaming b') i l)
    by (apply list_alter_ext; [intros x _|]; reflexivity).
  now rewrite E.
Qed.

Lemma set_streaming_done k i b e :
  asd_list (g_xdev k) !! i = Some e ->
  xvip_graph_entity_set_streaming i b k = Done (streaming e) (streaming_set i b k).
Proof.
  intros H. unfold xvip_graph_entity_set_streaming.
  rewrite (kbind_done _ _ _ _ _ (entity_at_done _ _ _ H)).
  unfold store_entity, kmodify, kbind, kret, streaming_set. simpl.
  do 3 f_equal. apply list_eq. intros j.
  destruct (decide (i = j)) as [->|Hne].
  - rewrite list_lookup_alter_eq, H. simpl.
    apply list_lookup_insert_eq. now apply lookup_lt_Some in H.
  - now rewrite list_lookup_alter_ne, list_lookup_insert_ne.
Qed.


(** ** Per-node activation *)

Lemma start_stop_entry P k i on e sd s :
  bound_at k i e sd s ->
  xvip_entity_start_stop P i on k =
    (if on && negb (streaming e) then start_subdev P i (Some sd)
     else if negb on && streaming e then stop_subdev P i (Some sd)
     else kret 0) (streaming_set i on k).
Proof.
  intros (He & Hent & Hs). unfold xvip_entity_start_stop.
  rewrite (kbind_done _ _ _ _ _ (entity_at_done _ _ _ He)). cbv zeta.
  rewrite Hent. cbn [media_entity_to_v4l2_subdev].
  now rewrite (kbind_done _ _ _ _ _ (set_streaming_done _ _ on _ He)).
Qed.

Arguments v4l2_subdev_call : simpl never.

Lemma v4l2_subdev_call_done P sd op k :
  v4l2_subdev_call P (Some sd) op k =
    Done (subdev_call_result P sd op (calls k)) (set_calls (calls k ++ [(sd, op)]) k).
Proof. reflexivity. Qed.

Lemma streaming_set_calls i b c k :
  streaming_set i b (set_calls c k) = set_calls c (streaming_set i b k).
Proof. reflexivity. Qed.

Lemma set_calls_twice c c' k : set_calls c' (set_calls c k) = set_calls c' k.
Proof. reflexivity. Qed.

(** The activation of any registered entry, with or without subdevice. *)
Lemma start_stop_unfold P k i on e :
  asd_list (g_xdev k) !! i = Some e ->
  xvip_entity_start_stop P i on k =
    (if on && negb (streaming e)
     then start_subdev P i (media_entity_to_v4l2_subdev (entity e))
     else if negb on && streaming e
     then stop_subdev P i (media_entity_to_v4l2_subdev (entity e))
     else kret 0) (streaming_set i on k).
Proof.
  intros He. unfold xvip_entity_start_stop.
  rewrite (kbind_done _ _ _ _ _ (entity_at_done _ _ _ He)). cbv zeta.
  now rewrite (kbind_done _ _ _ _ _ (set_streaming_done _ _ on _ He)).
Qed.

(** C4. For every registered node, with or without subdevice: activating
    it when it is already streaming, and deactivating it when it is idle,
    returns 0, issues no subdevice operation and leaves the whole state,
    the node's flag included, as it was. *)
Theorem start_stop_idempotent P k i e :
  asd_list (g_xdev k) !! i = Some e ->
  (streaming e = true -> xvip_entity_start_stop P i true k = Done 0 k) /\
  (streaming e = false -> xvip_entity_start_stop P i false k = Done 0 k).
Proof.
  intros He.
  split; intros Hst; rewrite (start_stop_unfold _ _ _ _ _ He), Hst; simpl;
    unfold kret; f_equal; rewrite <- Hst; now apply streaming_set_id.
Qed.

Lemma set_streaming_after k i b b0 e c :
  asd_list (g_xdev k) !! i = Some e ->
  xvip_graph_entity_set_streaming i b (set_calls c (streaming_set i b0 k)) =
    Done b0 (set_calls c (streaming_set i b k)).
Proof.
  intros He.
  rewrite (set_streaming_done _ _ b (with_streaming b0 e)).
  - simpl. now rewrite streaming_set_calls, streaming_set_twice.
  - apply (streaming_set_lookup _ _ b0) in He. exact He.
Qed.

(** One [v4l2_subdev_call] at the head of the computation. *)
Ltac call_step :=
  unfold kbind at 1; rewrite v4l2_subdev_call_done; simpl;
  rewrite ?set_calls_twice.

Section PerNode.

Variable P : platform.
Variables (k : kstate) (i : nat) (e : xvip_graph_entity) (sd : subdev_ptr)
          (s : v4l2_subdev).
Hypothesis He : asd_list (g_xdev k) !! i = Some e.
Hypothesis Hs : subdevs k !! sd = Some s.

(** The three phases on a state that differs from [k] by the flag of entry
    [i] and by the log. *)

Lemma stream_on_run b0 c :
  stream_on P i (Some sd) (set_calls c (streaming_set i b0 k)) =
    let r := subdev_call_result P sd (s_stream 1) c in
    if hard_error r
    then Done r (set_calls (c ++ [(sd, s_stream 1); (sd, s_power 0)])
                           (streaming_set i false k))
    else Done r (set_calls (c ++ [(sd, s_stream 1)]) (streaming_set i b0 k)).
Proof.
  unfold stream_on. call_step.
  destruct (hard_error _); [|reflexivity].
  call_step.
  unfold kbind. rewrite (set_streaming_after _ _ _ _ _ _ He).
  unfold kret. now rewrite <- app_assoc.
Qed.

Lemma start_subdev_run b0 c :
  start_subdev P i (Some sd) (set_calls c (streaming_set i b0 k)) =
    let r := subdev_call_result P sd (s_power 1) c in
    if hard_error r
    then Done r (set_calls (c ++ [(sd, s_power 1)]) (streaming_set i false k))
    else if String.eqb (sd_name s) IMX274 then
      let r' := subdev_call_result P sd (s_frame_interval 1 60)
                  (c ++ [(sd, s_power 1)]) in
      if r' <? 0
      then Done r' (set_calls (c ++ [(sd, s_power 1); (sd, s_frame_interval 1 60)])
                              (streaming_set i false k))
      else stream_on P i (Some sd)
             (set_calls (c ++ [(sd, s_power 1); (sd, s_frame_interval 1 60)])
                        (streaming_set i b0 k))
    else stream_on P i (Some sd)
           (set_calls (c ++ [(sd, s_power 1)]) (streaming_set i b0 k)).
Proof.
  unfold start_subdev. call_step.
  destruct (hard_error _).
  - unfold kbind. now rewrite (set_streaming_after _ _ _ _ _ _ He).
  - unfold kbind at 1. unfold deref_subdev. simpl. rewrite Hs.
    destruct (String.eqb _ _); [|reflexivity].
    call_step.
    rewrite <- app_assoc. simpl.
    destruct (_ <? 0); [|reflexivity].
    unfold kbind. now rewrite (set_streaming_after _ _ _ _ _ _ He).
Qed.

Lemma stop_subdev_run b0 c :
  stop_subdev P i (Some sd) (set_calls c (streaming_set i b0 k)) =
    Done (subdev_call_result P sd (s_power 0) (c ++ [(sd, s_stream 0)]))
         (set_calls (c ++ [(sd, s_stream 0); (sd, s_power 0)])
            (streaming_set i
               (if hard_error (subdev_call_result P sd (s_stream 0) c)
                then true else b0) k)).
Proof.
  unfold stop_subdev. call_step.
  destruct (hard_error _).
  - unfold kbind at 1. unfold kbind at 1.
    rewrite (set_streaming_after _ _ _ _ _ _ He). unfold kret at 1.
    unfold kbind, kret. rewrite v4l2_subdev_call_done. simpl. rewrite ?set_calls_twice.
    now rewrite <- app_assoc.
  - unfold kbind, kret. rewrite v4l2_subdev_call_done. simpl. rewrite ?set_calls_twice.
    now rewrite <- app_assoc.
Qed.

End PerNode.

(** The phases on a null subdevice: every call answers [- ENODEV], which
    is a hard error, and nothing is issued. *)
Lemma v4l2_subdev_call_null P op k :
  v4l2_subdev_call P None op k = Done (- ENODEV) k.
Proof. reflexivity. Qed.

Lemma start_subdev_null P k i e :
  asd_list (g_xdev k) !! i = Some e ->
  start_subdev P i None (streaming_set i true k) =
    Done (- ENODEV) (streaming_set i false k).
Proof.
  intros He. unfold start_subdev.
  unfold kbind at 1. rewrite v4l2_subdev_call_null.
  change (hard_error (- ENODEV)) with true. cbv iota.
  unfold kbind.
  rewrite (set_streaming_done _ _ false (with_streaming true e)).
  - unfold kret. now rewrite streaming_set_twice.
  - now apply streaming_set_lookup.
Qed.

Lemma stop_subdev_null P k i e :
  asd_list (g_xdev k) !! i = Some e ->
  stop_subdev P i None (streaming_set i false k) =
    Done (- ENODEV) (streaming_set i true k).
Proof.
  intros He. unfold stop_subdev.
  unfold kbind at 1. rewrite v4l2_subdev_call_null.
  change (hard_error (- ENODEV)) with true. cbv iota.
  unfold kbind at 1. unfold kbind at 1.
  rewrite (set_streaming_done _ _ true (with_streaming false e)).
  - unfold kret at 1. unfold kbind. rewrite v4l2_subdev_call_null.
    unfold kret. now rewrite streaming_set_twice.
  - now apply streaming_set_lookup.
Qed.

(** An entry without subdevice can be neither started nor stopped: the
    call returns [- ENODEV] and the state is as it was. *)
Lemma start_stop_null P k i e :
  asd_list (g_xdev k) !! i = Some e -> entity e = None ->
  (streaming e = false -> xvip_entity_start_stop P i true k = Done (- ENODEV) k) /\
  (streaming e = true -> xvip_entity_start_stop P i false k = Done (- ENODEV) k).
Proof.
  intros He Hent.
  split; intros Hst; rewrite (start_stop_unfold _ _ _ _ _ He), Hst, Hent;
    cbn [media_entity_to_v4l2_subdev andb negb].
  - rewrite (start_subdev_null _ _ _ _ He).
    now rewrite (streaming_set_same _ _ _ _ He Hst).
  - rewrite (stop_subdev_null _ _ _ _ He).
    now rewrite (streaming_set_same _ _ _ _ He Hst).
Qed.

Lemma start_stop_run P k i on e sd s :
  bound_at k i e sd s ->
  xvip_entity_start_stop P i on k =
    (if on && negb (streaming e) then start_subdev P i (Some sd)
     else if negb on && streaming e then stop_subdev P i (Some sd)
     else kret 0) (set_calls (calls k) (streaming_set i on k)).
Proof. apply start_stop_entry. Qed.

(** C5. Activation rollback: on an idle node that needs no frame-interval
    override, when power-on is not a hard error and stream-on is one, the
    call returns the stream-on error, the operations issued are power-on,
    stream-on and exactly one power-off, and the node is idle (the state
    differs from the initial one by the log only). *)
Theorem stream_on_failure_rollback P k i e sd s :
  bound_at k i e sd s -> streaming e = false -> sd_name s <> IMX274 ->
  hard_error (subdev_call_result P sd (s_power 1) (calls k)) = false ->
  hard_error (subdev_call_result P sd (s_stream 1) (calls k ++ [(sd, s_power 1)])) = true ->
  xvip_entity_start_stop P i true k =
    Done (subdev_call_result P sd (s_stream 1) (calls k ++ [(sd, s_power 1)]))
         (set_calls (calls k ++ [(sd, s_power 1); (sd, s_stream 1); (sd, s_power 0)]) k).
Proof.
  intros Hb Hst Hname Hpow Hstr. pose proof Hb as (He & Hent & Hs).
  rewrite (start_stop_run _ _ _ _ _ _ _ Hb), Hst. simpl andb. cbv iota.
  rewrite (start_subdev_run P k i e sd s He Hs). cbv zeta.
  rewrite Hpow. apply String.eqb_neq in Hname. rewrite Hname.
  rewrite (stream_on_run P k i e sd He). cbv zeta. rewrite Hstr.
  rewrite <- app_assoc. simpl app.
  now rewrite (streaming_set_same _ _ _ _ He Hst).
Qed.

(** C9. On an idle node whose subdevice is named IMX274, when power-on is
    not a hard error and the frame-interval operation returns a negative
    value, the call returns that value, the node is idle, and the operations
    issued are power-on and the frame interval only: no power-off. *)
Theorem frame_interval_failure_leaves_power_on P k i e sd s :
  bound_at k i e sd s -> streaming e = false -> sd_name s = IMX274 ->
  hard_error (subdev_call_result P sd (s_power 1) (calls k)) = false ->
  subdev_call_result P sd (s_frame_interval 1 60) (calls k ++ [(sd, s_power 1)]) < 0 ->
  xvip_entity_start_stop P i true k =
    Done (subdev_call_result P sd (s_frame_interval 1 60) (calls k ++ [(sd, s_power 1)]))
         (set_calls (calls k ++ [(sd, s_power 1); (sd, s_frame_interval 1 60)]) k).
Proof.
  intros Hb Hst Hname Hpow Hfi. pose proof Hb as (He & Hent & Hs).
  rewrite (start_stop_run _ _ _ _ _ _ _ Hb), Hst. simpl andb. cbv iota.
  rewrite (start_subdev_run P k i e sd s He Hs). cbv zeta.
  rewrite Hpow, Hname. rewrite String.eqb_refl.
  apply Z.ltb_lt in Hfi. rewrite Hfi.
  now rewrite (streaming_set_same _ _ _ _ He Hst).
Qed.

(** C2, as the code has it.  On a streaming node whose stream-off is a hard
    error the node stays streaming, but power-off is issued all the same
    and the call returns the result of that power-off. *)
Theorem stream_off_failure_still_powers_off P k i e sd s :
  bound_at k i e sd s -> streaming e = true ->
  hard_error (subdev_call_result P sd (s_stream 0) (calls k)) = true ->
  xvip_entity_start_stop P i false k =
    Done (subdev_call_result P sd (s_power 0) (calls k ++ [(sd, s_stream 0)]))
         (set_calls (calls k ++ [(sd, s_stream 0); (sd, s_power 0)]) k).
Proof.
  intros Hb Hst Hoff. pose proof Hb as (He & Hent & Hs).
  rewrite (start_stop_run _ _ _ _ _ _ _ Hb), Hst. simpl andb. cbv iota.
  rewrite (stop_subdev_run P k i e sd He). rewrite Hoff.
  now rewrite (streaming_set_same _ _ _ _ He Hst).
Qed.

(** ** Whole-device activation *)

Lemma all_bound_everywhere k : all_bound k = true -> bound_everywhere k.
Proof.
  unfold all_bound. rewrite forallb_forall. intros H i e Hi.
  assert (Hin : In e (asd_list (g_xdev k))).
  { apply list_elem_of_In. apply list_elem_of_lookup. now exists i. }
  specialize (H e Hin). unfold entity_bound in H.
  destruct (entity e) as [sd|]; [|discriminate].
  apply bool_decide_eq_true in H. destruct H as [s Hs]. now exists sd, s.
Qed.

Lemma all_bound_streaming_set k i b c :
  bound_everywhere k -> bound_everywhere (set_calls c (streaming_set i b k)).
Proof.
  intros Hall j e. simpl. intros Hj.
  destruct (decide (i = j)) as [->|Hne].
  - rewrite list_lookup_alter_eq in Hj.
    destruct (asd_list (g_xdev k) !! j) as [e0|] eqn:E; [|discriminate].
    simpl in Hj. injection Hj as <-. exact (Hall j e0 E).
  - rewrite list_lookup_alter_ne in Hj by exact Hne. exact (Hall j e Hj).
Qed.

Lemma entities_live_everywhere k : entities_live k = true -> live_everywhere k.
Proof.
  unfold entities_live. rewrite forallb_forall. intros H i e sd Hi Hent.
  assert (Hin : In e (asd_list (g_xdev k))).
  { apply list_elem_of_In. apply list_elem_of_lookup. now exists i. }
  specialize (H e Hin). unfold entity_live in H. rewrite Hent in H.
  now apply bool_decide_eq_true in H.
Qed.

Lemma all_bound_live k : all_bound k = true -> entities_live k = true.
Proof.
  unfold all_bound, entities_live. rewrite !forallb_forall.
  intros H e Hin. specialize (H e Hin). unfold entity_bound in H.
  unfold entity_live. now destruct (entity e).
Qed.

Lemma live_streaming_set k i b c :
  live_everywhere k -> live_everywhere (set_calls c (streaming_set i b k)).
Proof.
  intros Hall j e sd. simpl. intros Hj Hent.
  destruct (decide (i = j)) as [->|Hne].
  - rewrite list_lookup_alter_eq in Hj.
    destruct (asd_list (g_xdev k) !! j) as [e0|] eqn:E; [|discriminate].
    simpl in Hj. injection Hj as <-. exact (Hall j e0 sd E Hent).
  - rewrite list_lookup_alter_ne in Hj by exact Hne. exact (Hall j e sd Hj Hent).
Qed.

(** What one activation of a node with a subdevice does to the state: the
    flag of its entry and the log change, every operation issued goes to
    the subdevice of the entry, and an idle node is first sent power-on. *)
Lemma start_stop_frame P k i e sd s :
  bound_at k i e sd s ->
  exists r b c,
    xvip_entity_start_stop P i true k =
      Done r (set_calls (calls k ++ c) (streaming_set i b k)) /\
    Forall (fun o => fst o = sd) c /\
    (streaming e = false -> head c = Some (sd, s_power 1)).
Proof.
  intros Hb. pose proof Hb as (He & Hent & Hs).
  rewrite (start_stop_run _ _ _ _ _ _ _ Hb).
  destruct (streaming e) eqn:Hst; simpl andb; cbv iota.
  - exists 0, true, []. split; [|split; [constructor|discriminate]].
    unfold kret. now rewrite app_nil_r.
  - rewrite (start_subdev_run P k i e sd s He Hs). cbv zeta.
    destruct (hard_error _).
    { eexists _, false, [_]. split; [reflexivity|]. split; [|reflexivity].
      now repeat constructor. }
    destruct (String.eqb _ _).
    + destruct (_ <? 0).
      { eexists _, false, [_; _]. split; [reflexivity|]. split; [|reflexivity].
        now repeat constructor. }
      rewrite (stream_on_run P k i e sd He). cbv zeta.
      destruct (hard_error _).
      * eexists _, false, [_; _; _; _]. rewrite <- app_assoc.
        split; [reflexivity|]. split; [|reflexivity]. now repeat constructor.
      * eexists _, true, [_; _; _]. rewrite <- app_assoc.
        split; [reflexivity|]. split; [|reflexivity]. now repeat constructor.
    + rewrite (stream_on_run P k i e sd He). cbv zeta.
      destruct (hard_error _).
      * eexists _, false, [_; _; _]. rewrite <- app_assoc.
        split; [reflexivity|]. split; [|reflexivity]. now repeat constructor.
      * eexists _, true, [_; _]. rewrite <- app_assoc.
        split; [reflexivity|]. split; [|reflexivity]. now repeat constructor.
Qed.

(** The same for any entry that holds no dangling pointer: the activation
    of an entry without subdevice issues nothing. *)
Lemma start_stop_block P k i e :
  asd_list (g_xdev k) !! i = Some e ->
  (forall sd, entity e = Some sd -> is_Some (subdevs k !! sd)) ->
  exists r b c,
    xvip_entity_start_stop P i true k =
      Done r (set_calls (calls k ++ c) (streaming_set i b k)) /\
    activation_block e c.
Proof.
  intros He Hlive. unfold activation_block.
  destruct (entity e) as [sd|] eqn:Hent.
  - destruct (Hlive sd eq_refl) as [s Hs].
    destruct (start_stop_frame P k i e sd s (conj He (conj Hent Hs)))
      as (r & b & c & Hrun & Hc).
    now exists r, b, c.
  - destruct (streaming e) eqn:Hst.
    + exists 0, true, []. split; [|reflexivity].
      rewrite (start_stop_unfold _ _ _ _ _ He), Hst. simpl. unfold kret.
      f_equal. now rewrite app_nil_r.
    + exists (- ENODEV), false, []. split; [|reflexivity].
      rewrite (proj1 (start_stop_null P k i e He Hent) Hst).
      f_equal. rewrite app_nil_r.
      rewrite (streaming_set_same _ _ _ _ He Hst). now destruct k.
Qed.

(** The loop runs to its end whatever the activations return.  The
    operations it issues come in one block per entry, in registry order;
    the block of an entry goes to the subdevice of that entry and, when
    the entry was idle, starts with power-on; the block of an entry
    without subdevice is empty. *)
Lemma start_entities_run P n : forall i k,
  live_everywhere k -> (i + n)%nat = length (asd_list (g_xdev k)) ->
  exists k' cs,
    start_entities P i n k = Done tt k' /\
    calls k' = calls k ++ concat cs /\
    length cs = n /\
    is_streaming (g_xdev k') = is_streaming (g_xdev k) /\
    (forall j e, asd_list (g_xdev k) !! (i + j)%nat = Some e ->
       exists cj, cs !! j = Some cj /\ activation_block e cj).
Proof.
  induction n as [|n IH]; intros i k Hall Hlen.
  - exists k, []. simpl. unfold kret. rewrite app_nil_r.
    repeat split; try reflexivity.
    intros j e Hj. apply lookup_lt_Some in Hj. lia.
  - assert (Hi : (i < length (asd_list (g_xdev k)))%nat) by lia.
    destruct (lookup_lt_is_Some_2 _ _ Hi) as [e He].
    destruct (start_stop_block P k i e He (fun sd => Hall i e sd He))
      as (r & b & c1 & Hrun & Hblock).
    simpl. unfold kbind at 1. rewrite Hrun.
    set (k1 := set_calls (calls k ++ c1) (streaming_set i b k)).
    destruct (IH (S i) k1) as (k' & cs & Hrest & Hcalls & Hcs & Hflag & Hblocks).
    { now apply live_streaming_set. }
    { subst k1. simpl. rewrite length_alter. lia. }
    exists k', (c1 :: cs). split; [exact Hrest|]. split; [|split; [|split]].
    + rewrite Hcalls. subst k1. simpl. now rewrite app_assoc.
    + simpl. now rewrite Hcs.
    + rewrite Hflag. reflexivity.
    + intros [|j] e' Hj.
      * rewrite Nat.add_0_r, He in Hj. injection Hj as <-.
        exists c1. now split.
      * apply (Hblocks j e').
        subst k1. simpl. rewrite list_lookup_alter_ne by lia.
        rewrite <- Hj. f_equal. lia.
Qed.

Lemma start_stream_run P k :
  live_everywhere k ->
  exists k' cs,
    xvip_start_stream P k = Done tt k' /\
    calls k' = calls k ++ concat cs /\
    length cs = length (asd_list (g_xdev k)) /\
    is_streaming (g_xdev k') = true /\
    (forall j e, asd_list (g_xdev k) !! j = Some e ->
       exists cj, cs !! j = Some cj /\ activation_block e cj).
Proof.
  intros Hall.
  destruct (start_entities_run P (length (asd_list (g_xdev k))) 0 k Hall eq_refl)
    as (k1 & cs & Hrun & Hcalls & Hcs & _ & Hblocks).
  exists (set_g_xdev (set_is_streaming true (g_xdev k1)) k1), cs.
  unfold xvip_start_stream, kbind, kget, kmodify. rewrite Hrun.
  repeat split; try assumption.
Qed.

(** C1, as the code has it.  The whole-device activation has no status
    to return and never stops early.  On any registry, with nodes whose
    subdevice has arrived and nodes whose subdevice has not, it runs to
    its end whatever the activations return; the operations it issues come
    in one block per registered node, in registry order.  The block of a
    node with a subdevice goes to that subdevice and, when the node was
    idle, starts with power-on; the block of a node without subdevice is
    empty.  The one thing asked of the state is that no entry holds a
    dangling pointer. *)
Theorem start_stream_attempts_every_node P k :
  entities_live k = true ->
  exists k' cs,
    xvip_start_stream P k = Done tt k' /\
    calls k' = calls k ++ concat cs /\
    length cs = length (asd_list (g_xdev k)) /\
    (forall j e, asd_list (g_xdev k) !! j = Some e ->
       exists cj, cs !! j = Some cj /\ activation_block e cj).
Proof.
  intros Hall. apply entities_live_everywhere in Hall.
  destruct (start_stream_run P k Hall) as (k' & cs & Hrun & Hcalls & Hcs & _ & Hb).
  now exists k', cs.
Qed.

(** C10. A write to [stream_start] sets the device flag whatever the
    activations returned and whether or not the subdevices have arrived,
    and a read of the attribute then gives 1.  The one thing asked of the
    state is that no entry holds a dangling pointer. *)
Theorem store_sets_is_streaming P k count :
  entities_live k = true ->
  exists k',
    xvip_start_stream_store P count k = Done count k' /\
    is_streaming (g_xdev k') = true /\
    xvip_start_stream_show k' = ("1" ++ newline)%string.
Proof.
  intros Hall. apply entities_live_everywhere in Hall.
  destruct (start_stream_run P k Hall) as (k' & cs & Hrun & _ & _ & Hflag & _).
  exists k'. unfold xvip_start_stream_store, kbind. rewrite Hrun.
  unfold xvip_start_stream_show. rewrite Hflag. now split.
Qed.

(** ** Binding *)

Lemma bound_scan_skip sd fw k m : forall n i,
  (i + m <= length (asd_list (g_xdev k)))%nat ->
  (forall j e, (i <= j < i + m)%nat -> asd_list (g_xdev k) !! j = Some e ->
     asd_match_fwnode e <> fw) ->
  bound_scan sd fw i (m + n) k = bound_scan sd fw (i + m) n k.
Proof.
  induction m as [|m IH]; intros n i Hlen Hskip.
  - now rewrite Nat.add_0_r.
  - assert (Hi : (i < length (asd_list (g_xdev k)))%nat) by lia.
    destruct (lookup_lt_is_Some_2 _ _ Hi) as [e He].
    simpl. rewrite (kbind_done _ _ _ _ _ (entity_at_done _ _ _ He)).
    assert (Hne : asd_match_fwnode e <> fw) by (apply (Hskip i); [lia|exact He]).
    apply Nat.eqb_neq in Hne. rewrite Hne. simpl.
    rewrite IH.
    + f_equal. lia.
    + lia.
    + intros j e' Hj. apply Hskip. lia.
Qed.

(** C6. A handle whose firmware node is the one of an entry that already
    has a subdevice, and a handle whose firmware node is the one of no
    entry, are both refused with [- EINVAL], and the state, every binding
    included, is left as it was. *)
Theorem notify_bound_rejects k sd s :
  subdevs k !! sd = Some s ->
  (unique_identities k ->
   (exists i e, asd_list (g_xdev k) !! i = Some e /\
                asd_match_fwnode e = sd_fwnode s /\ is_Some (subdev e)) ->
   xvip_graph_notify_bound sd k = Done (- EINVAL) k) /\
  ((forall e, In e (asd_list (g_xdev k)) -> asd_match_fwnode e <> sd_fwnode s) ->
   xvip_graph_notify_bound sd k = Done (- EINVAL) k).
Proof.
  intros Hs.
  assert (Hentry : xvip_graph_notify_bound sd k =
                   bound_scan sd (sd_fwnode s) 0 (length (asd_list (g_xdev k))) k).
  { unfold xvip_graph_notify_bound.
    now rewrite (kbind_done _ _ _ _ _ (deref_subdev_done _ _ _ Hs)). }
  rewrite Hentry. split.
  - intros Hnd (i & e & He & Hfw & [p Hp]).
    pose proof (lookup_lt_Some _ _ _ He) as Hi.
    replace (length (asd_list (g_xdev k)))
      with (i + S (length (asd_list (g_xdev k)) - S i))%nat by lia.
    rewrite bound_scan_skip.
    + simpl. rewrite (kbind_done _ _ _ _ _ (entity_at_done _ _ _ He)).
      rewrite Hfw, Nat.eqb_refl. simpl. now rewrite Hp.
    + lia.
    + intros j e' Hj He' Heq.
      assert (j = i); [|lia].
      apply (NoDup_lookup _ j i (sd_fwnode s) Hnd);
        rewrite list_lookup_fmap; [rewrite He'|rewrite He]; simpl; congruence.
  - intros Hnone.
    replace (length (asd_list (g_xdev k)))
      with (length (asd_list (g_xdev k)) + 0)%nat at 1 by lia.
    rewrite bound_scan_skip.
    + reflexivity.
    + lia.
    + intros j e' _ He'. apply Hnone.
      apply list_elem_of_In, list_elem_of_lookup. now exists j.
Qed.

(** ** Link assembly *)

Lemma set_links_id k : set_links (links k) k = k.
Proof. now destruct k. Qed.

Lemma find_entity_Some xdev fw j :
  xvip_graph_find_entity xdev fw = Some j ->
  exists e, asd_list xdev !! j = Some e /\ asd_match_fwnode e = fw.
Proof.
  unfold xvip_graph_find_entity. intros H.
  destruct (list_find _ _) as [[j' e]|] eqn:E; [|discriminate].
  simpl in H. injection H as ->.
  apply list_find_Some in E as (He & Hfw & _). now exists e.
Qed.

(** With every entry bound, the endpoint loop of an entity never reads
    through an absent entity; it returns, and only adds links. *)
Lemma build_links_run P lp s eps : forall ret k,
  bound_everywhere k -> subdevs k !! lp = Some s ->
  exists r l', build_links P lp eps ret k = Done r (set_links (links k ++ l') k).
Proof.
  induction eps as [|ep eps IH]; intros ret k Hall Hlp.
  - exists ret, []. simpl. unfold kret. now rewrite app_nil_r, set_links_id.
  - simpl. destruct (parse_link_ret ep <? 0); [now apply IH|].
    rewrite (kbind_done _ _ _ _ _ (deref_entity_done _ _ _ Hlp)).
    destruct (num_pads (sd_entity s) <=? local_port (parsed_link ep))%nat eqn:Hport.
    { exists (- EINVAL), []. unfold kret. now rewrite app_nil_r, set_links_id. }
    apply Nat.leb_gt in Hport.
    destruct (lookup_lt_is_Some_2 _ _ Hport) as [local_pad Hpad].
    rewrite Hpad.
    destruct (negb _); [now apply IH|].
    unfold kbind at 1, kget.
    destruct (_ =? dev_of_node _)%nat; [now apply IH|].
    destruct (xvip_graph_find_entity _ _) as [j|] eqn:Hfind.
    2:{ exists (- ENODEV), []. unfold kret. now rewrite app_nil_r, set_links_id. }
    destruct (find_entity_Some _ _ _ Hfind) as (ent & Hent & _).
    rewrite (kbind_done _ _ _ _ _ (entity_at_done _ _ _ Hent)).
    destruct (Hall j ent Hent) as (rp & rs & Hrp & Hrs).
    rewrite Hrp. rewrite (kbind_done _ _ _ _ _ (deref_entity_done _ _ _ Hrs)).
    destruct (num_pads (sd_entity rs) <=? remote_port (parsed_link ep))%nat eqn:Hrport.
    { exists (- EINVAL), []. unfold kret. now rewrite app_nil_r, set_links_id. }
    apply Nat.leb_gt in Hrport.
    destruct (lookup_lt_is_Some_2 _ _ Hrport) as [remote_pad Hrpad].
    rewrite Hrpad.
    unfold media_create_pad_link.
    destruct (create_pad_link_result P _ <? 0) eqn:Hcreate.
    + unfold kbind, kret. rewrite Hcreate.
      eexists _, []. now rewrite app_nil_r, set_links_id.
    + unfold kbind at 1. unfold kbind at 1. unfold kmodify, kret at 1.
      rewrite Hcreate.
      match goal with
      | |- context [build_links P lp eps ?r ?k1] =>
        destruct (IH r k1) as (r' & l' & Hrun); [exact Hall|exact Hlp|]
      end.
      rewrite Hrun. simpl. eexists r', (_ :: l').
      now rewrite <- app_assoc.
Qed.

Lemma rename_step_xdev sd s k : g_xdev (rename_step sd s k) = g_xdev k.
Proof. unfold rename_step. now destruct (String.eqb _ _). Qed.

Lemma rename_step_lookup sd s k :
  subdevs k !! sd = Some s ->
  forall p, is_Some (subdevs k !! p) -> is_Some (subdevs (rename_step sd s k) !! p).
Proof.
  intros Hs p Hp. unfold rename_step. destruct (String.eqb _ _); [|exact Hp].
  simpl. destruct (decide (sd = p)) as [->|Hne].
  - rewrite lookup_insert_eq. now eexists.
  - now rewrite lookup_insert_ne.
Qed.

Lemma rename_step_bound sd s k :
  subdevs k !! sd = Some s -> bound_everywhere k ->
  bound_everywhere (rename_step sd s k).
Proof.
  intros Hs Hall j e. rewrite rename_step_xdev. intros Hj.
  destruct (Hall j e Hj) as (p & sp & Hp & Hsp).
  destruct (rename_step_lookup sd s k Hs p) as [sp' Hsp']; [now exists sp|].
  now exists p, sp'.
Qed.

Lemma build_one_run P k i e sd s :
  bound_at k i e sd s -> bound_everywhere k ->
  exists r l',
    xvip_graph_build_one P i k =
      Done r (set_links (links (rename_step sd s k) ++ l') (rename_step sd s k)).
Proof.
  intros (He & Hent & Hs) Hall. unfold xvip_graph_build_one.
  rewrite (kbind_done _ _ _ _ _ (entity_at_done _ _ _ He)), Hent.
  rewrite (kbind_done _ _ _ _ _ (deref_entity_done _ _ _ Hs)).
  destruct (rename_step_lookup sd s k Hs sd) as [s' Hs']; [now exists s|].
  destruct (build_links_run P sd s' (endpoints_of P (asd_match_fwnode e)) 0
              (rename_step sd s k)) as (r & l' & Hrun);
    [now apply rename_step_bound|exact Hs'|].
  exists r, l'. rewrite <- Hrun. unfold rename_step.
  destruct (String.eqb _ _); [|reflexivity].
  unfold kbind at 1. unfold kbind at 1. unfold kget at 1.
  unfold kbind at 1. unfold set_entity_name.
  rewrite (kbind_done _ _ _ _ _ (deref_subdev_done _ _ _ Hs)).
  reflexivity.
Qed.

(** Assembling an entry that has no entity reads its name through the
    null pointer. *)
Lemma build_one_unbound P k i e :
  asd_list (g_xdev k) !! i = Some e -> entity e = None ->
  xvip_graph_build_one P i k = Oops.
Proof.
  intros He Hent. unfold xvip_graph_build_one.
  now rewrite (kbind_done _ _ _ _ _ (entity_at_done _ _ _ He)), Hent.
Qed.

Lemma build_entities_run P n : forall i k,
  bound_everywhere k -> (i + n)%nat = length (asd_list (g_xdev k)) ->
  exists o k', build_entities P i n k = Done o k'.
Proof.
  induction n as [|n IH]; intros i k Hall Hlen.
  - now exists None, k.
  - assert (Hi : (i < length (asd_list (g_xdev k)))%nat) by lia.
    destruct (lookup_lt_is_Some_2 _ _ Hi) as [e He].
    destruct (Hall i e He) as (sd & s & Hent & Hs).
    destruct (build_one_run P k i e sd s (conj He (conj Hent Hs)) Hall)
      as (r & l' & Hrun).
    simpl. rewrite (kbind_done _ _ _ _ _ Hrun).
    destruct (r <? 0); [now eexists _, _|].
    apply IH.
    + intros j e'. simpl. intros Hj.
      exact (rename_step_bound sd s k Hs Hall j e' Hj).
    + simpl. rewrite rename_step_xdev. lia.
Qed.

(** C7, as the code has it.  The assembler does not check that the nodes
    are bound.  When every registered node is bound to a live subdevice it
    runs without reading through an absent entity and returns a status;
    on a node that is not bound it reads the name of the absent entity,
    which is an oops and not an error return. *)
Theorem assembly_needs_bound_nodes P k :
  (all_bound k = true ->
   exists r k', xvip_graph_notify_complete P k = Done r k') /\
  (forall i e, asd_list (g_xdev k) !! i = Some e -> entity e = None ->
     xvip_graph_build_one P i k = Oops).
Proof.
  split.
  - intros Hall. apply all_bound_everywhere in Hall.
    destruct (build_entities_run P (length (asd_list (g_xdev k))) 0 k Hall eq_refl)
      as (o & k' & Hrun).
    unfold xvip_graph_notify_complete, kbind, kget. rewrite Hrun.
    destruct o; now eexists _, _.
  - intros i e. apply build_one_unbound.
Qed.

(** *** Names after assembly *)

Lemma imx274_before_le k i : (imx274_before k i <= i)%nat.
Proof.
  unfold imx274_before.
  etransitivity; [apply List.filter_length_le|].
  rewrite length_take. lia.
Qed.

Lemma imx274_before_S k i e :
  asd_list (g_xdev k) !! i = Some e ->
  imx274_before k (S i) =
    (imx274_before k i + if is_imx274 k e then 1 else 0)%nat.
Proof.
  intros He. unfold imx274_before.
  rewrite (take_S_r _ _ _ He), List.filter_app, length_app. simpl.
  now destruct (is_imx274 k e).
Qed.

Lemma wrap_int_small z : - 2 ^ 31 <= z < 2 ^ 31 -> wrap_int z = z.
Proof. intros H. unfold wrap_int. rewrite Z.mod_small; lia. Qed.

Section Naming.

Variable P : platform.
Variable k0 : kstate.
Hypothesis Hall : bound_everywhere k0.
Hypothesis Hnd : NoDup (entity <$> asd_list (g_xdev k0)).
Hypothesis Hind : indication k0 = 0.
Hypothesis Hlen : Z.of_nat (length (asd_list (g_xdev k0))) < 2 ^ 31.

Lemma assembled_upto_0 : assembled_upto k0 0 k0.
Proof.
  split; [reflexivity|]. split; [now rewrite Hind|].
  intros j e sd s _ _ Hs. now exists s.
Qed.

Lemma assembled_upto_bound i k : assembled_upto k0 i k -> bound_everywhere k.
Proof.
  intros (Hx & _ & Hsub) j e. rewrite Hx. intros Hj.
  destruct (Hall j e Hj) as (sd & s & Hent & Hs).
  destruct (Hsub j e sd s Hj Hent Hs) as (s' & Hs' & _).
  now exists sd, s'.
Qed.

Lemma assembled_upto_step i k e sd s l :
  assembled_upto k0 i k ->
  asd_list (g_xdev k0) !! i = Some e -> entity e = Some sd ->
  subdevs k0 !! sd = Some s ->
  assembled_upto k0 (S i) (set_links l (rename_step sd s k)).
Proof.
  intros (Hx & Hcnt & Hsub) He Hent Hs.
  assert (Himx : is_imx274 k0 e = String.eqb (name (sd_entity s)) IMX274).
  { unfold is_imx274. now rewrite Hent, Hs. }
  pose proof (imx274_before_le k0 i) as Hle.
  pose proof (lookup_lt_Some _ _ _ He) as Hi.
  split; [|split].
  - simpl. now rewrite rename_step_xdev.
  - simpl. rewrite (imx274_before_S _ _ _ He), Himx. unfold rename_step.
    destruct (String.eqb _ _); simpl.
    + rewrite Hcnt, wrap_int_small by lia. lia.
    + rewrite Hcnt. f_equal. lia.
  - intros j e' sd' s0 He' Hent' Hs0.
    destruct (Hsub j e' sd' s0 He' Hent' Hs0) as (s' & Hs' & Hname).
    destruct (decide (j = i)) as [->|Hne].
    + rewrite He in He'. injection He' as <-.
      rewrite Hent in Hent'. injection Hent' as <-.
      rewrite Hs in Hs0. injection Hs0 as <-.
      rewrite Nat.ltb_irrefl in Hname. subst s'.
      assert (Hlt : (i <? S i)%nat = true) by (apply Nat.ltb_lt; lia).
      rewrite Hlt. unfold rename_step, assembled_name. simpl.
      destruct (String.eqb (name (sd_entity s)) IMX274) eqn:Hn.
      * simpl. rewrite lookup_insert_eq. eexists. split; [reflexivity|].
        simpl. rewrite Hcnt.
        now destruct (imx274_before k0 i).
      * exists s. now split.
    + assert (Hsd : sd <> sd').
      { intros <-. apply Hne.
        apply (NoDup_lookup _ j i (Some sd) Hnd);
          rewrite list_lookup_fmap; [rewrite He'|rewrite He]; simpl; congruence. }
      assert (Hsame : subdevs (set_links l (rename_step sd s k)) !! sd' = Some s').
      { unfold rename_step. destruct (String.eqb _ _); simpl; [|exact Hs'].
        now rewrite lookup_insert_ne. }
      exists s'. split; [exact Hsame|].
      destruct (j <? i)%nat eqn:Hji.
      * assert (Hlt : (j <? S i)%nat = true).
        { apply Nat.ltb_lt. apply Nat.ltb_lt in Hji. lia. }
        now rewrite Hlt.
      * assert (Hlt : (j <? S i)%nat = false).
        { apply Nat.ltb_ge. apply Nat.ltb_ge in Hji. lia. }
        now rewrite Hlt.
Qed.

Lemma build_entities_names n : forall i k k',
  assembled_upto k0 i k -> (i + n)%nat = length (asd_list (g_xdev k0)) ->
  build_entities P i n k = Done None k' ->
  assembled_upto k0 (i + n) k'.
Proof.
  induction n as [|n IH]; intros i k k' Hinv Hn Hrun.
  - simpl in Hrun. injection Hrun as <-. now rewrite Nat.add_0_r.
  - assert (Hi : (i < length (asd_list (g_xdev k0)))%nat) by lia.
    destruct (lookup_lt_is_Some_2 _ _ Hi) as [e He].
    destruct (Hall i e He) as (sd & s & Hent & Hs).
    pose proof Hinv as (Hx & _ & Hsub).
    destruct (Hsub i e sd s He Hent Hs) as (s' & Hs' & Heq).
    rewrite Nat.ltb_irrefl in Heq. subst s'.
    assert (Hb : bound_at k i e sd s).
    { repeat split; [now rewrite Hx|exact Hent|exact Hs']. }
    destruct (build_one_run P k i e sd s Hb (assembled_upto_bound _ _ Hinv))
      as (r & l' & Hone).
    simpl in Hrun. rewrite (kbind_done _ _ _ _ _ Hone) in Hrun.
    destruct (r <? 0); [discriminate|].
    replace (i + S n)%nat with (S i + n)%nat by lia.
    refine (IH (S i) _ k' _ _ Hrun); [|lia].
    now apply assembled_upto_step with (e := e).
Qed.

End Naming.

(** C8, as the code has it.  Only the name IMX274 is disambiguated, and
    with two suffixes.  After a pass over bound nodes with distinct
    entities that started with the counter at 0 and stopped on no error,
    an entity named IMX274 is named IMX274_0 if no earlier entry had that
    name and IMX274_1 otherwise; an entity with any other name keeps it. *)
Theorem assembly_renames_IMX274_only P k k' :
  all_bound k = true ->
  NoDup (entity <$> asd_list (g_xdev k)) ->
  indication k = 0 ->
  Z.of_nat (length (asd_list (g_xdev k))) < 2 ^ 31 ->
  build_entities P 0 (length (asd_list (g_xdev k))) k = Done None k' ->
  forall i e sd s,
    asd_list (g_xdev k) !! i = Some e -> entity e = Some sd ->
    subdevs k !! sd = Some s ->
    exists s', subdevs k' !! sd = Some s' /\
               name (sd_entity s') = assembled_name k i s.
Proof.
  intros Hall Hnd Hind Hlen Hrun i e sd s He Hent Hs.
  apply all_bound_everywhere in Hall.
  pose proof (build_entities_names P k Hall Hnd Hlen _ 0 k k'
                (assembled_upto_0 k Hind) eq_refl Hrun) as (_ & _ & Hsub).
  destruct (Hsub i e sd s He Hent Hs) as (s' & Hs' & Hname).
  assert (Hlt : (i <? 0 + length (asd_list (g_xdev k)))%nat = true).
  { apply Nat.ltb_lt. apply lookup_lt_Some in He. lia. }
  rewrite Hlt in Hname. now exists s'.
Qed.

(** ** Graph discovery *)

Lemma find_entity_is_Some xdev fw :
  is_Some (xvip_graph_find_entity xdev fw) <-> In fw (fwnodes xdev).
Proof.
  unfold xvip_graph_find_entity, fwnodes. split.
  - intros [j Hj]. destruct (find_entity_Some _ _ _ Hj) as (e & He & Hfw).
    apply list_elem_of_In, list_elem_of_fmap. exists e. split; [easy|].
    apply list_elem_of_lookup. now exists j.
  - intros Hin. apply list_elem_of_In, list_elem_of_fmap in Hin as (e & -> & He).
    destruct (list_find (fun e0 => asd_match_fwnode e0 = asd_match_fwnode e)
                (asd_list xdev)) as [[j e']|] eqn:E.
    + now exists j.
    + exfalso. rewrite list_find_None in E. rewrite Forall_forall in E.
      now apply (E e He).
Qed.

Section Discovery.

Variable P : platform.

(** A failed pass empties the registry and touches nothing else; a pass
    never returns a positive value. *)
Lemma parse_endpoints_failure eps : forall xdev r xdev',
  parse_endpoints P eps xdev = (r, xdev') -> r <= 0 /\
  (r < 0 -> xdev' = v4l2_async_notifier_cleanup xdev).
Proof.
  induction eps as [|ep eps IH]; intros xdev r xdev' H; simpl in H.
  - injection H as <- <-. lia.
  - destruct (remote_port_parent ep) as [remote|].
    2:{ injection H as <- <-. unfold EINVAL. split; [lia|reflexivity]. }
    destruct (_ || _).
    { now apply IH. }
    destruct (IS_ERR _) eqn:Herr.
    + injection H as <- <-. unfold IS_ERR in Herr.
      apply andb_true_iff in Herr as [_ Hneg]. apply Z.ltb_lt in Hneg.
      split; [lia|reflexivity].
    + apply IH in H as [Hle Hneg]. split; [exact Hle|].
      intros Hr. now rewrite (Hneg Hr).
Qed.

(** An endpoint without remote port parent makes the pass fail. *)
Lemma parse_endpoints_dangling eps : forall xdev,
  existsb (fun ep => bool_decide (remote_port_parent ep = None)) eps = true ->
  fst (parse_endpoints P eps xdev) < 0.
Proof.
  induction eps as [|ep eps IH]; intros xdev H; simpl in H; [discriminate|].
  simpl. destruct (remote_port_parent ep) as [remote|].
  2:{ simpl. unfold EINVAL. lia. }
  rewrite bool_decide_eq_false_2 in H by discriminate. simpl in H.
  destruct (_ || _); [now apply IH|].
  destruct (IS_ERR _) eqn:Herr; [|now apply IH].
  simpl. unfold IS_ERR in Herr.
  apply andb_true_iff in Herr as [_ Hneg]. now apply Z.ltb_lt in Hneg.
Qed.

(** A pass that does not fail returns 0, appends to the registry, and
    leaves every endpoint resolved to the root or to a registered node. *)
Lemma parse_endpoints_success eps : forall xdev r xdev',
  parse_endpoints P eps xdev = (r, xdev') -> ~ r < 0 ->
  r = 0 /\
  dev_of_node xdev' = dev_of_node xdev /\
  (exists news, asd_list xdev' = asd_list xdev ++ (new_entity <$> news) /\
     NoDup news /\
     (forall n, In n news -> ~ In n (fwnodes xdev) /\
        exists ep, In ep eps /\ remote_port_parent ep = Some n)) /\
  (forall ep, In ep eps ->
     exists n, remote_port_parent ep = Some n /\
               (n = dev_of_node xdev \/ In n (fwnodes xdev'))).
Proof.
  induction eps as [|ep eps IH]; intros xdev r xdev' H Hr; simpl in H.
  - injection H as <- <-. split; [reflexivity|]. split; [reflexivity|]. split.
    + exists []. simpl. rewrite app_nil_r. split; [reflexivity|].
      split; [apply NoDup_nil_2|]. intros n [].
    + intros ep [].
  - destruct (remote_port_parent ep) as [remote|] eqn:Hremote.
    2:{ injection H as <- <-. unfold EINVAL in Hr. lia. }
    destruct (_ || _) eqn:Hseen.
    + destruct (IH _ _ _ H Hr) as (-> & Hroot & (news & Hl & Hnd & Hnew) & Hres).
      split; [reflexivity|]. split; [exact Hroot|]. split.
      * exists news. split; [exact Hl|]. split; [exact Hnd|].
        intros n Hn. destruct (Hnew n Hn) as (Hnin & ep' & Hin & Hep').
        split; [exact Hnin|]. exists ep'. split; [now right|exact Hep'].
      * intros ep' [<-|Hin]; [|now apply Hres].
        exists remote. split; [exact Hremote|].
        apply orb_true_iff in Hseen as [Heq|Hfound].
        { left. now apply Nat.eqb_eq in Heq. }
        right. apply bool_decide_eq_true in Hfound.
        apply find_entity_is_Some in Hfound.
        unfold fwnodes in *. rewrite Hl, fmap_app. apply in_or_app. now left.
    + destruct (IS_ERR _) eqn:Herr.
      { injection H as <- <-. unfold IS_ERR in Herr.
        apply andb_true_iff in Herr as [_ Hneg]. apply Z.ltb_lt in Hneg. lia. }
      apply orb_false_iff in Hseen as [Hnroot Hnfound].
      apply bool_decide_eq_false in Hnfound.
      rewrite find_entity_is_Some in Hnfound.
      destruct (IH _ _ _ H Hr) as (-> & Hroot & (news & Hl & Hnd & Hnew) & Hres).
      simpl in Hl, Hroot.
      assert (Hfw : fwnodes (set_asd_list (asd_list xdev ++ [new_entity remote]) xdev)
                    = fwnodes xdev ++ [remote]).
      { unfold fwnodes. simpl. now rewrite fmap_app. }
      rewrite Hfw in Hnew.
      split; [reflexivity|]. split; [exact Hroot|]. split.
      * exists (remote :: news). split; [|split].
        -- rewrite Hl, <- app_assoc. reflexivity.
        -- apply NoDup_cons. split; [|exact Hnd].
           intros Hin. apply list_elem_of_In in Hin.
           destruct (Hnew _ Hin) as (Hnin & _). apply Hnin.
           apply in_or_app. right. now left.
        -- intros n [<-|Hin].
           ++ split; [exact Hnfound|]. exists ep. split; [now left|exact Hremote].
           ++ destruct (Hnew _ Hin) as (Hnin & ep' & Hin' & Hep').
              split.
              ** intros Hn. apply Hnin. apply in_or_app. now left.
              ** exists ep'. split; [now right|exact Hep'].
      * intros ep' [<-|Hin].
        -- exists remote. split; [exact Hremote|]. right.
           unfold fwnodes. rewrite Hl, fmap_app. apply in_or_app. left.
           rewrite fmap_app. apply in_or_app. right. now left.
        -- destruct (Hres _ Hin) as (n & Hn & Hor). exists n. split; [exact Hn|].
           simpl in Hor. exact Hor.
Qed.

Lemma closed_in_mono xdev xdev' fw news :
  dev_of_node xdev' = dev_of_node xdev ->
  asd_list xdev' = asd_list xdev ++ news ->
  closed_in P xdev fw -> closed_in P xdev' fw.
Proof.
  intros Hroot Hl Hc ep Hep. destruct (Hc ep Hep) as (r & Hr & [->|Hin]).
  - exists (dev_of_node xdev). split; [exact Hr|]. left. now rewrite Hroot.
  - exists r. split; [exact Hr|]. right. unfold fwnodes in *.
    rewrite Hl, fmap_app. apply in_or_app. now left.
Qed.

Lemma closed_in_no_dangling xdev fw :
  closed_in P xdev fw -> has_dangling P fw = false.
Proof.
  intros Hc. unfold has_dangling.
  destruct (existsb _ _) eqn:E; [|reflexivity].
  apply existsb_exists in E as (ep & Hep & Hnone).
  apply bool_decide_eq_true in Hnone.
  destruct (Hc ep Hep) as (r & Hr & _). congruence.
Qed.

(** The loop over the registry: it either fails, with a negative value
    and an empty registry, or ends with a registry that extends the
    initial one and in which every entry from [i] on is closed. *)
Lemma parse_entities_result fuel : forall i r xdev ret xdev',
  ~ r < 0 ->
  parse_entities P fuel i r xdev = Some (ret, xdev') ->
  (ret < 0 /\ asd_list xdev' = []) \/
  (~ ret < 0 /\
   dev_of_node xdev' = dev_of_node xdev /\
   (exists news, asd_list xdev' = asd_list xdev ++ news) /\
   (forall j e, (i <= j)%nat -> asd_list xdev' !! j = Some e ->
      closed_in P xdev' (asd_match_fwnode e))).
Proof.
  induction fuel as [|fuel IH]; intros i r xdev ret xdev' Hr H; [discriminate|].
  simpl in H. destruct (asd_list xdev !! i) as [e|] eqn:He.
  2:{ injection H as <- <-. right. split; [exact Hr|]. split; [reflexivity|].
      split; [exists []; now rewrite app_nil_r|].
      intros j e Hij Hj. apply lookup_lt_Some in Hj.
      apply lookup_ge_None in He. lia. }
  unfold xvip_graph_parse_one in H.
  destruct (parse_endpoints P _ xdev) as [r1 x1] eqn:Hone.
  destruct (r1 <? 0) eqn:Hneg.
  { injection H as <- <-. left. apply Z.ltb_lt in Hneg. now split. }
  apply Z.ltb_ge in Hneg.
  destruct (parse_endpoints_success _ _ _ _ Hone) as
    (_ & Hroot1 & (news1 & Hl1 & _ & _) & Hres1); [lia|].
  destruct (IH (S i) r1 x1 ret xdev') as [Hfail|(Hret & Hroot & (news & Hl) & Hclosed)];
    [lia|exact H|now left|].
  right. split; [exact Hret|]. split; [congruence|]. split.
  { exists ((new_entity <$> news1) ++ news). now rewrite Hl, Hl1, <- app_assoc. }
  intros j e' Hij Hj. destruct (decide (j = i)) as [->|Hne].
  - assert (He' : asd_list xdev' !! i = Some e).
    { rewrite Hl, Hl1. now do 2 apply lookup_app_l_Some. }
    rewrite He' in Hj. injection Hj as <-.
    apply (closed_in_mono x1 xdev' _ news Hroot Hl).
    intros ep Hep. destruct (Hres1 ep Hep) as (n & Hn & Hor).
    exists n. split; [exact Hn|]. rewrite Hroot1. exact Hor.
  - apply (Hclosed j e'); [lia|exact Hj].
Qed.

Lemma all_remotes_length : (length (all_remotes P) <= length (all_endpoints P))%nat.
Proof.
  unfold all_remotes. induction (all_endpoints P) as [|ep l IH]; [simpl; lia|].
  change (omap remote_port_parent (ep :: l))
    with (match remote_port_parent ep with
          | Some n => n :: omap remote_port_parent l
          | None => omap remote_port_parent l
          end).
  destruct (remote_port_parent ep); simpl length; lia.
Qed.

Lemma endpoint_in_graph fw ep :
  In ep (endpoints_of P fw) -> In ep (all_endpoints P).
Proof.
  unfold endpoints_of, all_endpoints. intros Hep.
  destruct (of_graph P !! fw) as [eps|] eqn:E; [|destruct Hep].
  apply in_concat. exists eps. split; [|exact Hep].
  apply list_elem_of_In, list_elem_of_fmap. exists (fw, eps). split; [reflexivity|].
  now apply elem_of_map_to_list.
Qed.

Lemma remote_in_graph fw ep n :
  In ep (endpoints_of P fw) -> remote_port_parent ep = Some n ->
  n ∈ (all_remotes P).
Proof.
  intros Hep Hn. apply list_elem_of_omap. exists ep. split; [|exact Hn].
  apply list_elem_of_In. now apply (endpoint_in_graph fw).
Qed.

(** The registry only ever grows by distinct nodes of the graph, so the
    loop ends within the fuel. *)
Lemma parse_entities_total l0 fuel : forall i r xdev news,
  asd_list xdev = l0 ++ (new_entity <$> news) ->
  NoDup news -> (forall n, n ∈ news -> n ∈ (all_remotes P)) ->
  (i <= length (asd_list xdev))%nat ->
  (length l0 + length (all_remotes P) < fuel + i)%nat ->
  is_Some (parse_entities P fuel i r xdev).
Proof.
  induction fuel as [|fuel IH]; intros i r xdev news Hl Hnd Hsub Hi Hfuel.
  - exfalso.
    pose proof (submseteq_length _ _ (NoDup_submseteq _ _ Hnd Hsub)) as Hle.
    assert (Hlen : (length (asd_list xdev) = length l0 + length news)%nat)
      by (now rewrite Hl, length_app, length_fmap).
    lia.
  - simpl. destruct (asd_list xdev !! i) as [e|] eqn:He; [|now eexists].
    unfold xvip_graph_parse_one.
    destruct (parse_endpoints P _ xdev) as [r1 x1] eqn:Hone.
    destruct (r1 <? 0) eqn:Hneg; [now eexists|].
    apply Z.ltb_ge in Hneg.
    destruct (parse_endpoints_success _ _ _ _ Hone) as
      (_ & _ & (news1 & Hl1 & Hnd1 & Hnew1) & _); [lia|].
    apply (IH (S i) r1 x1 (news ++ news1)).
    + now rewrite Hl1, Hl, fmap_app, app_assoc.
    + apply NoDup_app. split; [exact Hnd|]. split; [|exact Hnd1].
      intros n Hn Hn1. apply list_elem_of_In in Hn1.
      destruct (Hnew1 n Hn1) as (Hnin & _). apply Hnin.
      unfold fwnodes. rewrite Hl, fmap_app. apply in_or_app. right.
      rewrite <- list_fmap_compose. simpl.
      apply list_elem_of_In. now rewrite list_fmap_id.
    + intros n Hn. apply elem_of_app in Hn as [Hn|Hn]; [now apply Hsub|].
      apply list_elem_of_In in Hn.
      destruct (Hnew1 n Hn) as (_ & ep & Hep & Hrem).
      now apply (remote_in_graph (asd_match_fwnode e) ep).
    + apply lookup_lt_Some in He. rewrite Hl1, length_app. lia.
    + lia.
Qed.

(** [xvip_graph_parse] never runs out of fuel. *)
Lemma xvip_graph_parse_total xdev : is_Some (xvip_graph_parse P xdev).
Proof.
  unfold xvip_graph_parse, xvip_graph_parse_fuel, xvip_graph_parse_one.
  destruct (parse_endpoints P _ xdev) as [r0 x1] eqn:Hroot.
  destruct (r0 <? 0) eqn:Hneg; [now eexists|].
  apply Z.ltb_ge in Hneg.
  destruct (parse_endpoints_success _ _ _ _ Hroot) as
    (_ & _ & (news & Hl & Hnd & Hnew) & _); [lia|].
  apply (parse_entities_total (asd_list xdev) _ 0 r0 x1 news Hl Hnd).
  - intros n Hn. apply list_elem_of_In in Hn.
    destruct (Hnew n Hn) as (_ & ep & Hep & Hrem).
    now apply (remote_in_graph (dev_of_node xdev) ep).
  - lia.
  - unfold parse_fuel. pose proof all_remotes_length. lia.
Qed.

(** In a registry where the root and every entry are closed, a chain of
    links never leaves the registry. *)
Lemma reaches_closed xdev :
  closed_in P xdev (dev_of_node xdev) ->
  (forall j e, asd_list xdev !! j = Some e -> closed_in P xdev (asd_match_fwnode e)) ->
  forall p a n,
    a = dev_of_node xdev \/ In a (fwnodes xdev) ->
    reaches P a p n = true ->
    closed_in P xdev n.
Proof.
  intros Hroot Hall.
  assert (Hclosed : forall a, a = dev_of_node xdev \/ In a (fwnodes xdev) ->
                              closed_in P xdev a).
  { intros a [->|Hin]; [exact Hroot|].
    apply list_elem_of_In, list_elem_of_fmap in Hin as (e & -> & He).
    apply list_elem_of_lookup in He as [j Hj]. exact (Hall j e Hj). }
  induction p as [|b p IH]; intros a n Ha Hreach; simpl in Hreach.
  - apply bool_decide_eq_true in Hreach as <-. now apply Hclosed.
  - apply andb_true_iff in Hreach as [Hlink Hrest].
    apply (IH b n); [|exact Hrest].
    unfold linked in Hlink. apply existsb_exists in Hlink as (ep & Hep & Hb).
    apply bool_decide_eq_true in Hb.
    destruct (Hclosed a Ha ep Hep) as (r & Hr & Hor).
    rewrite Hb in Hr. injection Hr as <-. exact Hor.
Qed.

(** Discovery keeps the identities of the registry unique. *)
Lemma parse_endpoints_unique eps xdev r xdev' :
  parse_endpoints P eps xdev = (r, xdev') ->
  NoDup (fwnodes xdev) -> NoDup (fwnodes xdev').
Proof.
  intros H Hnd. destruct (decide (r < 0)) as [Hneg|Hok].
  - destruct (parse_endpoints_failure _ _ _ _ H) as (_ & Hclean).
    rewrite (Hclean Hneg). apply NoDup_nil_2.
  - destruct (parse_endpoints_success _ _ _ _ H Hok) as
      (_ & _ & (news & Hl & Hnews & Hnew) & _).
    unfold fwnodes. rewrite Hl, fmap_app, <- list_fmap_compose.
    replace (asd_match_fwnode ∘ new_entity) with (@id nat) by reflexivity.
    rewrite list_fmap_id. apply NoDup_app. split; [exact Hnd|]. split; [|exact Hnews].
    intros n Hn Hn'. apply list_elem_of_In in Hn, Hn'.
    destruct (Hnew n Hn') as (Hnin & _). now apply Hnin.
Qed.

Lemma parse_entities_unique fuel : forall i r xdev ret xdev',
  parse_entities P fuel i r xdev = Some (ret, xdev') ->
  NoDup (fwnodes xdev) -> NoDup (fwnodes xdev').
Proof.
  induction fuel as [|fuel IH]; intros i r xdev ret xdev' H Hnd; [discriminate|].
  simpl in H. destruct (asd_list xdev !! i) as [e|].
  2:{ now injection H as <- <-. }
  unfold xvip_graph_parse_one in H.
  destruct (parse_endpoints P _ xdev) as [r1 x1] eqn:Hone.
  apply parse_endpoints_unique in Hone; [|exact Hnd].
  destruct (r1 <? 0).
  - injection H as <- <-. apply NoDup_nil_2.
  - exact (IH _ _ _ _ _ H Hone).
Qed.

Lemma xvip_graph_init_unique xdev ret xdev' :
  xvip_graph_init P xdev = Some (ret, xdev') ->
  NoDup (fwnodes xdev) -> NoDup (fwnodes xdev').
Proof.
  unfold xvip_graph_init, xvip_graph_parse, xvip_graph_parse_fuel,
    xvip_graph_parse_one.
  intros H Hnd.
  destruct (parse_endpoints P _ xdev) as [r0 x1] eqn:Hroot.
  apply parse_endpoints_unique in Hroot; [|exact Hnd].
  assert (Hparsed : forall o, o = (if r0 <? 0 then Some (0, x1)
                              else parse_entities P (parse_fuel P xdev) 0 r0 x1) ->
            forall r x, o = Some (r, x) -> NoDup (fwnodes x)).
  { intros o -> r x Ho. destruct (r0 <? 0).
    - now injection Ho as <- <-.
    - exact (parse_entities_unique _ _ _ _ _ _ Ho Hroot). }
  destruct (if r0 <? 0 then _ else _) as [[r x]|] eqn:E; [|discriminate].
  specialize (Hparsed _ eq_refl r x eq_refl).
  destruct (r <? 0); [injection H as _ <-; apply NoDup_nil_2|].
  destruct (bool_decide _); [now injection H as _ <-|].
  cbv zeta in H.
  destruct (notifier_register_result P <? 0); injection H as _ <-;
    [apply NoDup_nil_2|exact Hparsed].
Qed.

End Discovery.

(** C3, as the code has it.  On a fresh device, an endpoint without
    remote port parent always ends the build with an empty registry, but it
    is reported as an error only when a discovered node carries it: when
    the root itself carries it, the build returns 0 and leaves the device
    as it was; when the pass over the root succeeds and a node reachable
    from the root carries it, the build returns a negative value with the
    registry emptied and the notifier not registered. *)
Theorem discovery_failure_reporting P xdev :
  asd_list xdev = [] ->
  (has_dangling P (dev_of_node xdev) = true ->
   xvip_graph_init P xdev = Some (0, xdev)) /\
  (forall p n,
     fst (xvip_graph_parse_one P xdev (dev_of_node xdev)) = 0 ->
     reaches P (dev_of_node xdev) p n = true ->
     has_dangling P n = true ->
     exists ret xdev',
       xvip_graph_init P xdev = Some (ret, xdev') /\ ret < 0 /\
       asd_list xdev' = [] /\ notifier_registered xdev' = false).
Proof.
  intros Hfresh. split.
  - intros Hdang.
    pose proof (parse_endpoints_dangling P _ xdev Hdang) as Hneg.
    unfold xvip_graph_init, xvip_graph_parse, xvip_graph_parse_fuel,
      xvip_graph_parse_one.
    destruct (parse_endpoints P _ xdev) as [r0 x1] eqn:Hroot. simpl in Hneg.
    destruct (parse_endpoints_failure _ _ _ _ _ Hroot) as (_ & Hclean).
    rewrite (Hclean Hneg). apply Z.ltb_lt in Hneg. rewrite Hneg. simpl.
    destruct xdev as [root l ? ? ? ?]. simpl in Hfresh. now subst l.
  - intros p n Hroot0 Hreach Hdang.
    destruct (xvip_graph_parse_total P xdev) as [[ret x'] Hparse].
    unfold xvip_graph_init. rewrite Hparse.
    unfold xvip_graph_parse, xvip_graph_parse_fuel, xvip_graph_parse_one in *.
    destruct (parse_endpoints P _ xdev) as [r0 x1] eqn:Hroot.
    simpl in Hroot0. subst r0.
    change (0 <? 0) with false in Hparse. cbv iota in Hparse.
    destruct (parse_endpoints_success _ _ _ _ _ Hroot) as
      (_ & Hroot1 & (news1 & Hl1 & _ & _) & Hres1); [lia|].
    destruct (parse_entities_result P _ _ _ _ _ _ (Z.lt_irrefl 0) Hparse)
      as [(Hneg & Hempty)|(Hret & Hrootx & (news & Hl) & Hclosed)].
    + exists ret, (xvip_graph_cleanup x'). apply Z.ltb_lt in Hneg as Hneg'.
      rewrite Hneg'. now repeat split.
    + exfalso.
      assert (Hrc : closed_in P x' (dev_of_node x')).
      { rewrite Hrootx. apply (closed_in_mono P x1 x' _ news Hrootx Hl).
        intros ep Hep. rewrite Hroot1 in Hep.
        destruct (Hres1 ep Hep) as (m & Hm & Hor).
        exists m. split; [exact Hm|]. rewrite Hroot1. exact Hor. }
      assert (Hn : closed_in P x' n).
      { apply (reaches_closed P x' Hrc) with (p := p) (a := dev_of_node x').
        - intros j e. apply Hclosed. lia.
        - now left.
        - now rewrite Hrootx, Hroot1. }
      apply closed_in_no_dangling in Hn. congruence.
Qed.

(** ** The registry holds no dangling pointer

    Discovery registers entries without entity, and binding stores a
    handle only after reading through it: a registry that holds no
    dangling pointer stays so. *)

Lemma live_everywhere_entities k : live_everywhere k -> entities_live k = true.
Proof.
  intros H. unfold entities_live. apply forallb_forall. intros e Hin.
  apply list_elem_of_In, list_elem_of_lookup in Hin. destruct Hin as [i Hi].
  unfold entity_live. destruct (entity e) as [sd|] eqn:Hent; [|reflexivity].
  apply bool_decide_eq_true. exact (H i e sd Hi Hent).
Qed.

Lemma parse_endpoints_unbound P eps : forall xdev r xdev',
  parse_endpoints P eps xdev = (r, xdev') ->
  Forall (fun e => entity e = None) (asd_list xdev) ->
  Forall (fun e => entity e = None) (asd_list xdev').
Proof.
  induction eps as [|ep eps IH]; intros xdev r xdev' H Hall; simpl in H.
  - now injection H as <- <-.
  - destruct (remote_port_parent ep) as [remote|].
    2:{ injection H as <- <-. constructor. }
    destruct (_ || _); [exact (IH _ _ _ H Hall)|].
    destruct (IS_ERR _).
    + injection H as <- <-. constructor.
    + apply (IH _ _ _ H). simpl. apply Forall_app. split; [exact Hall|].
      now repeat constructor.
Qed.

Lemma parse_entities_unbound P fuel : forall i r xdev ret xdev',
  parse_entities P fuel i r xdev = Some (ret, xdev') ->
  Forall (fun e => entity e = None) (asd_list xdev) ->
  Forall (fun e => entity e = None) (asd_list xdev').
Proof.
  induction fuel as [|fuel IH]; intros i r xdev ret xdev' H Hall; [discriminate|].
  simpl in H. destruct (asd_list xdev !! i) as [e|].
  2:{ now injection H as <- <-. }
  unfold xvip_graph_parse_one in H.
  destruct (parse_endpoints P _ xdev) as [r1 x1] eqn:Hone.
  apply parse_endpoints_unbound in Hone; [|exact Hall].
  destruct (r1 <? 0).
  - injection H as <- <-. constructor.
  - exact (IH _ _ _ _ _ H Hone).
Qed.

(** Every entry that [xvip_graph_init] leaves in the registry of a fresh
    device is without entity. *)
Lemma xvip_graph_init_unbound P xdev ret xdev' :
  xvip_graph_init P xdev = Some (ret, xdev') ->
  asd_list xdev = [] ->
  Forall (fun e => entity e = None) (asd_list xdev').
Proof.
  unfold xvip_graph_init, xvip_graph_parse, xvip_graph_parse_fuel,
    xvip_graph_parse_one.
  intros H Hfresh.
  destruct (parse_endpoints P _ xdev) as [r0 x1] eqn:Hroot.
  apply parse_endpoints_unbound in Hroot; [|rewrite Hfresh; constructor].
  destruct (if r0 <? 0 then Some (0, x1)
            else parse_entities P (parse_fuel P xdev) 0 r0 x1)
    as [[r x]|] eqn:Hparse; [|discriminate].
  assert (Hx : Forall (fun e => entity e = None) (asd_list x)).
  { destruct (r0 <? 0).
    - now injection Hparse as _ <-.
    - exact (parse_entities_unbound _ _ _ _ _ _ _ Hparse Hroot). }
  destruct (r <? 0); [injection H as _ <-; constructor|].
  destruct (bool_decide _); [now injection H as _ <-|].
  destruct (notifier_register_result P <? 0); injection H as _ <-;
    [constructor|exact Hx].
Qed.

Lemma unbound_entities_live k :
  Forall (fun e => entity e = None) (asd_list (g_xdev k)) ->
  entities_live k = true.
Proof.
  intros H. unfold entities_live. apply forallb_forall. intros e Hin.
  apply list_elem_of_In in Hin. rewrite Forall_forall in H.
  unfold entity_live. now rewrite (H e Hin).
Qed.

Lemma bound_scan_live sd fw n : forall i k r k',
  is_Some (subdevs k !! sd) -> live_everywhere k ->
  bound_scan sd fw i n k = Done r k' -> live_everywhere k'.
Proof.
  induction n as [|n IH]; intros i k r k' Hsd Hall H; simpl in H.
  - unfold kret in H. now injection H as _ <-.
  - unfold kbind at 1, entity_at in H.
    destruct (asd_list (g_xdev k) !! i) as [e|] eqn:He; [|discriminate].
    destruct (negb _); [exact (IH _ _ _ _ Hsd Hall H)|].
    destruct (subdev e).
    + unfold kret in H. now injection H as _ <-.
    + unfold kbind, store_entity, kmodify, kret in H. injection H as _ <-.
      intros j e' p. simpl. intros Hj Hent.
      destruct (decide (i = j)) as [->|Hne].
      * rewrite list_lookup_insert_eq in Hj by now apply lookup_lt_Some in He.
        injection Hj as <-. simpl in Hent. now injection Hent as <-.
      * rewrite list_lookup_insert_ne in Hj by exact Hne.
        exact (Hall j e' p Hj Hent).
Qed.

(** Whatever [xvip_graph_notify_bound] answers, it leaves no dangling
    pointer in the registry. *)
Lemma notify_bound_live sd k r k' :
  entities_live k = true ->
  xvip_graph_notify_bound sd k = Done r k' ->
  entities_live k' = true.
Proof.
  intros Hall H. apply entities_live_everywhere in Hall.
  apply live_everywhere_entities.
  unfold xvip_graph_notify_bound, kbind at 1, deref_subdev in H.
  destruct (subdevs k !! sd) as [s|] eqn:Hs; [|discriminate].
  unfold kbind, kget in H.
  apply (bound_scan_live _ _ _ _ _ _ _ (mk_is_Some _ _ Hs) Hall H).
Qed.

(** * The properties on the scenarios *)

Ltac bound_here := unfold bound_at; repeat split; reflexivity.

(** C1: on three idle nodes whose second one fails to start streaming,
    the activation of the second node returns -5, and yet the third node
    is powered and started, and ends up streaming. *)
Lemma start_stream_continues_past_failure :
  xvip_entity_start_stop second_stream_on_fails 1 true three_nodes =
    Done (-5) (set_calls [(20%nat, s_power 1); (20%nat, s_stream 1);
                          (20%nat, s_power 0)] three_nodes) /\
  exists k',
    xvip_start_stream second_stream_on_fails three_nodes = Done tt k' /\
    calls k' = [(10%nat, s_power 1); (10%nat, s_stream 1);
                (20%nat, s_power 1); (20%nat, s_stream 1); (20%nat, s_power 0);
                (30%nat, s_power 1); (30%nat, s_stream 1)] /\
    streaming <$> asd_list (g_xdev k') = [true; false; true].
Proof.
  split; [vm_compute; reflexivity|].
  eexists. split; [vm_compute; reflexivity|]. split; reflexivity.
Qed.

Lemma start_stream_attempts_every_node_witness :
  (exists k' cs,
     xvip_start_stream second_stream_on_fails three_nodes = Done tt k' /\
     calls k' = calls three_nodes ++ concat cs /\
     length cs = length (asd_list (g_xdev three_nodes)) /\
     (forall j e, asd_list (g_xdev three_nodes) !! j = Some e ->
        exists cj, cs !! j = Some cj /\ activation_block e cj)) /\
  (exists k' cs,
     xvip_start_stream second_stream_on_fails unbound_first = Done tt k' /\
     calls k' = calls unbound_first ++ concat cs /\
     length cs = length (asd_list (g_xdev unbound_first)) /\
     (forall j e, asd_list (g_xdev unbound_first) !! j = Some e ->
        exists cj, cs !! j = Some cj /\ activation_block e cj)).
Proof.
  split.
  - apply (start_stream_attempts_every_node second_stream_on_fails three_nodes).
    reflexivity.
  - apply (start_stream_attempts_every_node second_stream_on_fails unbound_first).
    reflexivity.
Defined.

(** C2: the stream-off of a streaming node fails with -5; power-off is
    issued after it and the call returns 0, the result of power-off. *)
Lemma stream_off_failure_counterexample :
  subdev_call_result stream_off_fails 10 (s_stream 0) (calls one_streaming) = -5 /\
  hard_error (-5) = true /\
  xvip_entity_start_stop stream_off_fails 0 false one_streaming =
    Done 0 (set_calls [(10%nat, s_stream 0); (10%nat, s_power 0)] one_streaming).
Proof. repeat split; vm_compute; reflexivity. Qed.

Lemma stream_off_failure_still_powers_off_witness :
  xvip_entity_start_stop stream_off_fails 0 false one_streaming =
    Done (subdev_call_result stream_off_fails 10 (s_power 0)
            (calls one_streaming ++ [(10%nat, s_stream 0)]))
         (set_calls (calls one_streaming ++ [(10%nat, s_stream 0); (10%nat, s_power 0)])
                    one_streaming).
Proof.
  apply (stream_off_failure_still_powers_off stream_off_fails one_streaming 0
           (bound_entity 1 10 true) 10 (sample_subdev 1 "bridge"));
    [bound_here|reflexivity|reflexivity].
Defined.

(** C3: the root has an endpoint without remote port parent, and the
    build returns 0. *)
Lemma root_failure_reported_as_success :
  has_dangling root_dangling (dev_of_node fresh_device) = true /\
  xvip_graph_init root_dangling fresh_device = Some (0, fresh_device).
Proof. split; vm_compute; reflexivity. Qed.

Lemma discovery_failure_reporting_witness :
  xvip_graph_init root_dangling fresh_device = Some (0, fresh_device) /\
  exists ret xdev',
    xvip_graph_init leaf_dangling fresh_device = Some (ret, xdev') /\ ret < 0 /\
    asd_list xdev' = [] /\ notifier_registered xdev' = false.
Proof.
  split.
  - apply (proj1 (discovery_failure_reporting root_dangling fresh_device eq_refl)).
    reflexivity.
  - apply (proj2 (discovery_failure_reporting leaf_dangling fresh_device eq_refl)
             [1%nat; 2%nat] 2%nat); reflexivity.
Defined.

Lemma start_stop_idempotent_witness :
  xvip_entity_start_stop stream_off_fails 0 true one_streaming = Done 0 one_streaming /\
  xvip_entity_start_stop second_stream_on_fails 1 false three_nodes = Done 0 three_nodes /\
  xvip_entity_start_stop quiet_platform 1 false one_unbound = Done 0 one_unbound.
Proof.
  split; [|split].
  - apply (proj1 (start_stop_idempotent stream_off_fails one_streaming 0
                    (bound_entity 1 10 true) eq_refl)).
    reflexivity.
  - apply (proj2 (start_stop_idempotent second_stream_on_fails three_nodes 1
                    (bound_entity 2 20 false) eq_refl)).
    reflexivity.
  - apply (proj2 (start_stop_idempotent quiet_platform one_unbound 1
                    (new_entity 2) eq_refl)).
    reflexivity.
Defined.

Lemma stream_on_failure_rollback_witness :
  xvip_entity_start_stop second_stream_on_fails 1 true three_nodes =
    Done (subdev_call_result second_stream_on_fails 20 (s_stream 1)
            (calls three_nodes ++ [(20%nat, s_power 1)]))
         (set_calls (calls three_nodes ++
                     [(20%nat, s_power 1); (20%nat, s_stream 1); (20%nat, s_power 0)])
                    three_nodes).
Proof.
  apply (stream_on_failure_rollback second_stream_on_fails three_nodes 1
           (bound_entity 2 20 false) 20 (sample_subdev 2 "scaler"));
    [bound_here|reflexivity|discriminate|reflexivity|reflexivity].
Defined.

Lemma frame_interval_failure_leaves_power_on_witness :
  xvip_entity_start_stop frame_interval_fails 0 true one_sensor =
    Done (subdev_call_result frame_interval_fails 10 (s_frame_interval 1 60)
            (calls one_sensor ++ [(10%nat, s_power 1)]))
         (set_calls (calls one_sensor ++
                     [(10%nat, s_power 1); (10%nat, s_frame_interval 1 60)])
                    one_sensor).
Proof.
  apply (frame_interval_failure_leaves_power_on frame_interval_fails one_sensor 0
           (bound_entity 1 10 false) 10 (sample_subdev 1 "IMX274"));
    [bound_here|reflexivity|reflexivity|reflexivity|reflexivity].
Defined.

Lemma notify_bound_rejects_witness :
  xvip_graph_notify_bound 10 one_unbound = Done (- EINVAL) one_unbound /\
  xvip_graph_notify_bound 30 one_unbound = Done (- EINVAL) one_unbound.
Proof.
  split.
  - apply (proj1 (notify_bound_rejects one_unbound 10 (sample_subdev 1 "bridge")
                    eq_refl)).
    + unfold unique_identities. simpl.
      apply NoDup_cons. split; [|apply NoDup_singleton].
      intros H. apply list_elem_of_In in H. simpl in H. destruct H as [H|[]].
      discriminate H.
    + exists 0%nat, (bound_entity 1 10 false).
      split; [reflexivity|]. split; [reflexivity|]. now exists 10%nat.
  - apply (proj2 (notify_bound_rejects one_unbound 30 (sample_subdev 3 "csi")
                    eq_refl)).
    intros e [<-|[<-|[]]]; discriminate.
Defined.

(** C7: with a registered node whose handle has not arrived, the
    assembler does not return an error: it stops on the null entity. *)
Lemma assembly_of_unbound_node_oops :
  all_bound one_unbound = false /\
  xvip_graph_notify_complete quiet_platform one_unbound = Oops.
Proof. split; vm_compute; reflexivity. Qed.

Lemma assembly_needs_bound_nodes_witness :
  (exists r k', xvip_graph_notify_complete quiet_platform three_nodes = Done r k') /\
  xvip_graph_build_one quiet_platform 1 one_unbound = Oops.
Proof.
  split.
  - apply (proj1 (assembly_needs_bound_nodes quiet_platform three_nodes)).
    reflexivity.
  - apply (proj2 (assembly_needs_bound_nodes quiet_platform one_unbound)
             1%nat (new_entity 2)); reflexivity.
Defined.

(** C8: two nodes named OV5640 carry the same name after assembly, and of
    three nodes named IMX274 the last two both end up as IMX274_1. *)
Lemma duplicate_names_remain :
  (exists k',
     xvip_graph_notify_complete quiet_platform two_ov5640 = Done 0 k' /\
     name <$> (sd_entity <$> subdevs k' !! 10%nat) = Some "OV5640"%string /\
     name <$> (sd_entity <$> subdevs k' !! 20%nat) = Some "OV5640"%string) /\
  (exists k',
     xvip_graph_notify_complete quiet_platform three_imx274 = Done 0 k' /\
     name <$> (sd_entity <$> subdevs k' !! 20%nat) = Some IMX274_1 /\
     name <$> (sd_entity <$> subdevs k' !! 30%nat) = Some IMX274_1).
Proof.
  split; eexists; (split; [vm_compute; reflexivity|]); split; reflexivity.
Qed.

Lemma assembly_renames_IMX274_only_witness :
  (exists s', subdevs two_imx274_assembled !! 10%nat = Some s' /\
              name (sd_entity s') = assembled_name two_imx274 0 (sample_subdev 1 "IMX274")) /\
  (exists s', subdevs two_imx274_assembled !! 20%nat = Some s' /\
              name (sd_entity s') = assembled_name two_imx274 1 (sample_subdev 2 "IMX274")) /\
  assembled_name two_imx274 0 (sample_subdev 1 "IMX274") = IMX274_0 /\
  assembled_name two_imx274 1 (sample_subdev 2 "IMX274") = IMX274_1.
Proof.
  assert (Hnd : NoDup (entity <$> asd_list (g_xdev two_imx274))).
  { simpl. apply NoDup_cons. split; [|apply NoDup_singleton].
    intros H. apply list_elem_of_In in H. simpl in H. destruct H as [H|[]].
    discriminate H. }
  assert (Hrun : build_entities quiet_platform 0
                   (length (asd_list (g_xdev two_imx274))) two_imx274
                 = Done None two_imx274_assembled) by (vm_compute; reflexivity).
  split; [|split; [|split; reflexivity]].
  - apply (assembly_renames_IMX274_only quiet_platform two_imx274
             two_imx274_assembled eq_refl Hnd eq_refl eq_refl Hrun
             0%nat (bound_entity 1 10 false) 10%nat); reflexivity.
  - apply (assembly_renames_IMX274_only quiet_platform two_imx274
             two_imx274_assembled eq_refl Hnd eq_refl eq_refl Hrun
             1%nat (bound_entity 2 20 false) 20%nat); reflexivity.
Defined.

Lemma store_sets_is_streaming_witness :
  (exists k',
     xvip_start_stream_store second_stream_on_fails 7 three_nodes = Done 7 k' /\
     is_streaming (g_xdev k') = true /\
     xvip_start_stream_show k' = ("1" ++ newline)%string) /\
  (exists k',
     xvip_start_stream_store second_stream_on_fails 7 unbound_first = Done 7 k' /\
     is_streaming (g_xdev k') = true /\
     xvip_start_stream_show k' = ("1" ++ newline)%string) /\
  (exists k',
     xvip_start_stream_store quiet_platform 7 (sample_state [] []) = Done 7 k' /\
     is_streaming (g_xdev k') = true /\
     xvip_start_stream_show k' = ("1" ++ newline)%string).
Proof.
  split; [|split].
  - apply (store_sets_is_streaming second_stream_on_fails three_nodes 7).
    reflexivity.
  - apply (store_sets_is_streaming second_stream_on_fails unbound_first 7).
    reflexivity.
  - apply (store_sets_is_streaming quiet_platform (sample_state [] []) 7).
    reflexivity.
Defined.

(** * Further properties *)

(** ** Per-node activation: the other paths *)

(** X1. Starting an idle node that needs no frame-interval override, when
    neither power-on nor stream-on is a hard error: the operations issued
    are power-on and stream-on, the node is recorded as streaming, and the
    value returned is the result of stream-on. *)
Theorem activate_starts_streaming P k i e sd s :
  bound_at k i e sd s -> streaming e = false -> sd_name s <> IMX274 ->
  hard_error (subdev_call_result P sd (s_power 1) (calls k)) = false ->
  hard_error (subdev_call_result P sd (s_stream 1) (calls k ++ [(sd, s_power 1)])) = false ->
  xvip_entity_start_stop P i true k =
    Done (subdev_call_result P sd (s_stream 1) (calls k ++ [(sd, s_power 1)]))
         (set_calls (calls k ++ [(sd, s_power 1); (sd, s_stream 1)])
                    (streaming_set i true k)).
Proof.
  intros Hb Hst Hname Hpow Hstr. pose proof Hb as (He & Hent & Hs).
  rewrite (start_stop_run _ _ _ _ _ _ _ Hb), Hst. simpl andb. cbv iota.
  rewrite (start_subdev_run P k i e sd s He Hs). cbv zeta.
  rewrite Hpow. apply String.eqb_neq in Hname. rewrite Hname.
  rewrite (stream_on_run P k i e sd He). cbv zeta. rewrite Hstr.
  now rewrite <- app_assoc.
Qed.

(** X2. Starting an idle node whose subdevice implements none of the
    operations, so that every call answers [- ENOIOCTLCMD].  When the
    subdevice is not named IMX274 the node is started all the same:
    power-on and stream-on are attempted and the node is recorded as
    streaming, although the value returned is [- ENOIOCTLCMD], a negative
    one.  When the subdevice is named IMX274 the missing frame-interval
    operation fails the activation: power-on and the frame interval are
    attempted, the node stays idle and [- ENOIOCTLCMD] is returned, without
    stream-on and without power-off. *)
Theorem activate_without_ops P k i e sd s :
  bound_at k i e sd s -> streaming e = false ->
  (forall op h, subdev_call_result P sd op h = - ENOIOCTLCMD) ->
  xvip_entity_start_stop P i true k =
    if String.eqb (sd_name s) IMX274
    then Done (- ENOIOCTLCMD)
              (set_calls (calls k ++ [(sd, s_power 1); (sd, s_frame_interval 1 60)]) k)
    else Done (- ENOIOCTLCMD)
              (set_calls (calls k ++ [(sd, s_power 1); (sd, s_stream 1)])
                         (streaming_set i true k)).
Proof.
  intros Hb Hst Hno. pose proof Hb as (He & Hent & Hs).
  rewrite (start_stop_run _ _ _ _ _ _ _ Hb), Hst. simpl andb. cbv iota.
  rewrite (start_subdev_run P k i e sd s He Hs). cbv zeta.
  rewrite !Hno.
  change (hard_error (- ENOIOCTLCMD)) with false. cbv iota.
  destruct (String.eqb (sd_name s) IMX274).
  - change (- ENOIOCTLCMD <? 0) with true. cbv iota.
    now rewrite (streaming_set_same _ _ _ _ He Hst).
  - rewrite (stream_on_run P k i e sd He). cbv zeta. rewrite Hno.
    change (hard_error (- ENOIOCTLCMD)) with false. cbv iota.
    now rewrite <- app_assoc.
Qed.

(** X3. A hard error of power-on ends the activation at once: the error is
    returned, the node is idle, and power-on is the only operation issued
    (no power-off, no stream-on). *)
Theorem power_on_failure_stops_activation P k i e sd s :
  bound_at k i e sd s -> streaming e = false ->
  hard_error (subdev_call_result P sd (s_power 1) (calls k)) = true ->
  xvip_entity_start_stop P i true k =
    Done (subdev_call_result P sd (s_power 1) (calls k))
         (set_calls (calls k ++ [(sd, s_power 1)]) k).
Proof.
  intros Hb Hst Hpow. pose proof Hb as (He & Hent & Hs).
  rewrite (start_stop_run _ _ _ _ _ _ _ Hb), Hst. simpl andb. cbv iota.
  rewrite (start_subdev_run P k i e sd s He Hs). cbv zeta. rewrite Hpow.
  now rewrite (streaming_set_same _ _ _ _ He Hst).
Qed.

(** X4. On a subdevice named IMX274 the frame interval 1/60 is set between
    power-on and stream-on. *)
Theorem activate_sets_frame_interval P k i e sd s :
  bound_at k i e sd s -> streaming e = false -> sd_name s = IMX274 ->
  hard_error (subdev_call_result P sd (s_power 1) (calls k)) = false ->
  0 <= subdev_call_result P sd (s_frame_interval 1 60) (calls k ++ [(sd, s_power 1)]) ->
  hard_error (subdev_call_result P sd (s_stream 1)
                (calls k ++ [(sd, s_power 1); (sd, s_frame_interval 1 60)])) = false ->
  xvip_entity_start_stop P i true k =
    Done (subdev_call_result P sd (s_stream 1)
            (calls k ++ [(sd, s_power 1); (sd, s_frame_interval 1 60)]))
         (set_calls (calls k ++ [(sd, s_power 1); (sd, s_frame_interval 1 60);
                                 (sd, s_stream 1)])
                    (streaming_set i true k)).
Proof.
  intros Hb Hst Hname Hpow Hfi Hstr. pose proof Hb as (He & Hent & Hs).
  rewrite (start_stop_run _ _ _ _ _ _ _ Hb), Hst. simpl andb. cbv iota.
  rewrite (start_subdev_run P k i e sd s He Hs). cbv zeta.
  rewrite Hpow, Hname, String.eqb_refl.
  apply Z.ltb_ge in Hfi. rewrite Hfi.
  rewrite (stream_on_run P k i e sd He). cbv zeta. rewrite Hstr.
  now rewrite <- app_assoc.
Qed.

(** X5. When the frame interval was accepted and stream-on then fails, power
    is reverted as on the path without override: the operations issued are
    power-on, frame interval, stream-on, power-off; the node is idle and
    the stream-on error is returned. *)
Theorem stream_on_failure_after_override_rollback P k i e sd s :
  bound_at k i e sd s -> streaming e = false -> sd_name s = IMX274 ->
  hard_error (subdev_call_result P sd (s_power 1) (calls k)) = false ->
  0 <= subdev_call_result P sd (s_frame_interval 1 60) (calls k ++ [(sd, s_power 1)]) ->
  hard_error (subdev_call_result P sd (s_stream 1)
                (calls k ++ [(sd, s_power 1); (sd, s_frame_interval 1 60)])) = true ->
  xvip_entity_start_stop P i true k =
    Done (subdev_call_result P sd (s_stream 1)
            (calls k ++ [(sd, s_power 1); (sd, s_frame_interval 1 60)]))
         (set_calls (calls k ++ [(sd, s_power 1); (sd, s_frame_interval 1 60);
                                 (sd, s_stream 1); (sd, s_power 0)]) k).
Proof.
  intros Hb Hst Hname Hpow Hfi Hstr. pose proof Hb as (He & Hent & Hs).
  rewrite (start_stop_run _ _ _ _ _ _ _ Hb), Hst. simpl andb. cbv iota.
  rewrite (start_subdev_run P k i e sd s He Hs). cbv zeta.
  rewrite Hpow, Hname, String.eqb_refl.
  apply Z.ltb_ge in Hfi. rewrite Hfi.
  rewrite (stream_on_run P k i e sd He). cbv zeta. rewrite Hstr.
  rewrite <- app_assoc. simpl app.
  now rewrite (streaming_set_same _ _ _ _ He Hst).
Qed.

(** X6. Stopping a streaming node whose stream-off is not a hard error: the
    operations issued are stream-off and power-off, the node is recorded
    as idle whatever power-off returns, and the value returned is the
    result of power-off. *)
Theorem deactivate_stops_streaming P k i e sd s :
  bound_at k i e sd s -> streaming e = true ->
  hard_error (subdev_call_result P sd (s_stream 0) (calls k)) = false ->
  xvip_entity_start_stop P i false k =
    Done (subdev_call_result P sd (s_power 0) (calls k ++ [(sd, s_stream 0)]))
         (set_calls (calls k ++ [(sd, s_stream 0); (sd, s_power 0)])
                    (streaming_set i false k)).
Proof.
  intros Hb Hst Hoff. pose proof Hb as (He & Hent & Hs).
  rewrite (start_stop_run _ _ _ _ _ _ _ Hb), Hst. simpl andb. cbv iota.
  rewrite (stop_subdev_run P k i e sd He). now rewrite Hoff.
Qed.

(** X7. Starting and then stopping an idle node, when no operation is a hard
    error: the node is idle again, nothing but the log has changed, and
    the log has grown by power-on, stream-on, stream-off, power-off. *)
Theorem start_then_stop_round_trip P k i e sd s :
  bound_at k i e sd s -> streaming e = false -> sd_name s <> IMX274 ->
  hard_error (subdev_call_result P sd (s_power 1) (calls k)) = false ->
  hard_error (subdev_call_result P sd (s_stream 1) (calls k ++ [(sd, s_power 1)])) = false ->
  hard_error (subdev_call_result P sd (s_stream 0)
                (calls k ++ [(sd, s_power 1); (sd, s_stream 1)])) = false ->
  (xvip_entity_start_stop P i true;; xvip_entity_start_stop P i false) k =
    Done (subdev_call_result P sd (s_power 0)
            (calls k ++ [(sd, s_power 1); (sd, s_stream 1); (sd, s_stream 0)]))
         (set_calls (calls k ++ [(sd, s_power 1); (sd, s_stream 1);
                                 (sd, s_stream 0); (sd, s_power 0)]) k).
Proof.
  intros Hb Hst Hname Hpow Hstr Hoff. pose proof Hb as (He & Hent & Hs).
  assert (Hstart : xvip_entity_start_stop P i true k =
            Done (subdev_call_result P sd (s_stream 1) (calls k ++ [(sd, s_power 1)]))
                 (set_calls (calls k ++ [(sd, s_power 1); (sd, s_stream 1)])
                            (streaming_set i true k))).
  { rewrite (start_stop_run _ _ _ _ _ _ _ Hb), Hst. simpl andb. cbv iota.
    rewrite (start_subdev_run P k i e sd s He Hs). cbv zeta.
    rewrite Hpow. apply String.eqb_neq in Hname. rewrite Hname.
    rewrite (stream_on_run P k i e sd He). cbv zeta. rewrite Hstr.
    now rewrite <- app_assoc. }
  rewrite (kbind_done _ _ _ _ _ Hstart).
  set (c1 := calls k ++ [(sd, s_power 1); (sd, s_stream 1)]).
  assert (Hb1 : bound_at (set_calls c1 (streaming_set i true k)) i
                  (with_streaming true e) sd s).
  { split; [|split; [exact Hent|exact Hs]].
    exact (streaming_set_lookup _ _ true _ He). }
  rewrite (start_stop_run _ _ _ _ _ _ _ Hb1).
  change (streaming (with_streaming true e)) with true. simpl andb. cbv iota.
  simpl calls. rewrite streaming_set_calls, streaming_set_twice, set_calls_twice.
  rewrite (stop_subdev_run P k i e sd He). subst c1. rewrite Hoff.
  rewrite <- !app_assoc. simpl app.
  now rewrite (streaming_set_same _ _ _ _ He Hst).
Qed.

(** What a stop does to the state, whatever the operations return. *)
Lemma start_stop_frame_off P k i e sd s :
  bound_at k i e sd s ->
  exists r b c,
    xvip_entity_start_stop P i false k =
      Done r (set_calls (calls k ++ c) (streaming_set i b k)) /\
    Forall (fun o => fst o = sd) c /\ (length c <= 2)%nat.
Proof.
  intros Hb. pose proof Hb as (He & Hent & Hs).
  rewrite (start_stop_run _ _ _ _ _ _ _ Hb).
  destruct (streaming e) eqn:Hst; simpl andb; cbv iota.
  - rewrite (stop_subdev_run P k i e sd He).
    eexists _, _, [_; _]. split; [reflexivity|]. split; [|simpl; lia].
    now repeat constructor.
  - exists 0, false, []. split; [|split; [constructor|simpl; lia]].
    unfold kret. now rewrite app_nil_r.
Qed.

Lemma start_stop_frame_on_length P k i e sd s :
  bound_at k i e sd s ->
  exists r b c,
    xvip_entity_start_stop P i true k =
      Done r (set_calls (calls k ++ c) (streaming_set i b k)) /\
    Forall (fun o => fst o = sd) c /\ (length c <= 4)%nat.
Proof.
  intros Hb. pose proof Hb as (He & Hent & Hs).
  rewrite (start_stop_run _ _ _ _ _ _ _ Hb).
  destruct (streaming e) eqn:Hst; simpl andb; cbv iota.
  - exists 0, true, []. split; [|split; [constructor|simpl; lia]].
    unfold kret. now rewrite app_nil_r.
  - rewrite (start_subdev_run P k i e sd s He Hs). cbv zeta.
    destruct (hard_error _).
    { eexists _, false, [_]. split; [reflexivity|]. split; [|simpl; lia].
      now repeat constructor. }
    destruct (String.eqb _ _).
    + destruct (_ <? 0).
      { eexists _, false, [_; _]. split; [reflexivity|]. split; [|simpl; lia].
        now repeat constructor. }
      rewrite (stream_on_run P k i e sd He). cbv zeta.
      destruct (hard_error _).
      * eexists _, false, [_; _; _; _]. rewrite <- app_assoc.
        split; [reflexivity|]. split; [|simpl; lia]. now repeat constructor.
      * eexists _, true, [_; _; _]. rewrite <- app_assoc.
        split; [reflexivity|]. split; [|simpl; lia]. now repeat constructor.
    + rewrite (stream_on_run P k i e sd He). cbv zeta.
      destruct (hard_error _).
      * eexists _, false, [_; _; _]. rewrite <- app_assoc.
        split; [reflexivity|]. split; [|simpl; lia]. now repeat constructor.
      * eexists _, true, [_; _]. rewrite <- app_assoc.
        split; [reflexivity|]. split; [|simpl; lia]. now repeat constructor.
Qed.

(** X8. Starting or stopping a node touches nothing but that node: whatever
    the operations return, the call returns, at most four operations are
    issued and all of them go to the subdevice of the node; in the
    registry only the streaming flag of the node may change; the
    subdevices, the links, the counter and the device flag are left as
    they were. *)
Theorem start_stop_touches_one_node P k i on e sd s :
  bound_at k i e sd s ->
  exists r k' b c,
    xvip_entity_start_stop P i on k = Done r k' /\
    calls k' = calls k ++ c /\
    Forall (fun o => fst o = sd) c /\ (length c <= 4)%nat /\
    asd_list (g_xdev k') = <[i := with_streaming b e]> (asd_list (g_xdev k)) /\
    is_streaming (g_xdev k') = is_streaming (g_xdev k) /\
    subdevs k' = subdevs k /\ links k' = links k /\
    indication k' = indication k.
Proof.
  intros Hb. pose proof Hb as (He & _ & _).
  assert (Hshape : exists r b c,
            xvip_entity_start_stop P i on k =
              Done r (set_calls (calls k ++ c) (streaming_set i b k)) /\
            Forall (fun o => fst o = sd) c /\ (length c <= 4)%nat).
  { destruct on.
    - exact (start_stop_frame_on_length P k i e sd s Hb).
    - destruct (start_stop_frame_off P k i e sd s Hb) as (r & b & c & H1 & H2 & H3).
      exists r, b, c. split; [exact H1|]. split; [exact H2|lia]. }
  destruct Hshape as (r & b & c & Hrun & Hsd & Hlen).
  exists r, (set_calls (calls k ++ c) (streaming_set i b k)), b, c.
  split; [exact Hrun|]. repeat split; try assumption.
  simpl. apply list_eq. intros j. destruct (decide (i = j)) as [->|Hne].
  - rewrite list_lookup_alter_eq, He. simpl. symmetry.
    apply list_lookup_insert_eq. now apply lookup_lt_Some in He.
  - now rewrite list_lookup_alter_ne, list_lookup_insert_ne.
Qed.

(** ** Whole-device activation when every operation succeeds *)

Section AllSucceed.

Variable P : platform.
Hypothesis Hok : forall sd op h, hard_error (subdev_call_result P sd op h) = false.
Hypothesis Hfi : forall sd h, 0 <= subdev_call_result P sd (s_frame_interval 1 60) h.

Lemma start_stop_succeeds k i e sd s :
  bound_at k i e sd s ->
  exists r c,
    xvip_entity_start_stop P i true k =
      Done r (set_calls (calls k ++ c) (streaming_set i true k)).
Proof.
  intros Hb. pose proof Hb as (He & Hent & Hs).
  rewrite (start_stop_run _ _ _ _ _ _ _ Hb).
  destruct (streaming e) eqn:Hst; simpl andb; cbv iota.
  - exists 0, []. unfold kret. now rewrite app_nil_r.
  - rewrite (start_subdev_run P k i e sd s He Hs). cbv zeta.
    rewrite Hok. destruct (String.eqb _ _).
    + specialize (Hfi sd (calls k ++ [(sd, s_power 1)])).
      apply Z.ltb_ge in Hfi. rewrite Hfi.
      rewrite (stream_on_run P k i e sd He). cbv zeta. rewrite Hok.
      eexists _, [_; _; _]. now rewrite <- app_assoc.
    + rewrite (stream_on_run P k i e sd He). cbv zeta. rewrite Hok.
      eexists _, [_; _]. now rewrite <- app_assoc.
Qed.

Lemma start_entities_all_streaming n : forall i k,
  bound_everywhere k -> (i + n)%nat = length (asd_list (g_xdev k)) ->
  exists k',
    start_entities P i n k = Done tt k' /\
    subdevs k' = subdevs k /\
    (forall j e, asd_list (g_xdev k) !! j = Some e ->
       asd_list (g_xdev k') !! j =
         Some (if decide (i <= j)%nat then with_streaming true e else e)) /\
    length (asd_list (g_xdev k')) = length (asd_list (g_xdev k)).
Proof.
  induction n as [|n IH]; intros i k Hall Hlen.
  - exists k. simpl. unfold kret. repeat split.
    intros j e Hj. pose proof (lookup_lt_Some _ _ _ Hj).
    destruct (decide (i <= j)%nat); [lia|exact Hj].
  - assert (Hi : (i < length (asd_list (g_xdev k)))%nat) by lia.
    destruct (lookup_lt_is_Some_2 _ _ Hi) as [e He].
    destruct (Hall i e He) as (sd & s & Hent & Hs).
    destruct (start_stop_succeeds k i e sd s (conj He (conj Hent Hs)))
      as (r & c1 & Hrun).
    simpl. unfold kbind at 1. rewrite Hrun.
    set (k1 := set_calls (calls k ++ c1) (streaming_set i true k)).
    destruct (IH (S i) k1) as (k' & Hrest & Hsub & Hflags & Hlen').
    { now apply all_bound_streaming_set. }
    { subst k1. simpl. rewrite length_alter. lia. }
    exists k'. split; [exact Hrest|]. split; [exact Hsub|]. split.
    + intros j e' Hj. destruct (decide (i = j)) as [->|Hne].
      * rewrite He in Hj. injection Hj as <-.
        rewrite (Hflags j (with_streaming true e)).
        -- destruct (decide (S j <= j)%nat); [lia|].
           destruct (decide (j <= j)%nat); [reflexivity|lia].
        -- subst k1. simpl. now rewrite list_lookup_alter_eq, He.
      * rewrite (Hflags j e').
        -- destruct (decide (S i <= j)%nat), (decide (i <= j)%nat);
             try reflexivity; lia.
        -- subst k1. simpl. now rewrite list_lookup_alter_ne.
    + rewrite Hlen'. subst k1. simpl. now rewrite length_alter.
Qed.

Lemma start_entities_noop n : forall i k,
  bound_everywhere k -> (i + n)%nat = length (asd_list (g_xdev k)) ->
  (forall j e, asd_list (g_xdev k) !! j = Some e -> streaming e = true) ->
  start_entities P i n k = Done tt k.
Proof.
  induction n as [|n IH]; intros i k Hall Hlen Hstr; [reflexivity|].
  assert (Hi : (i < length (asd_list (g_xdev k)))%nat) by lia.
  destruct (lookup_lt_is_Some_2 _ _ Hi) as [e He].
  destruct (Hall i e He) as (sd & s & Hent & Hs).
  simpl. unfold kbind at 1.
  rewrite (start_stop_run _ _ _ _ _ _ _ (conj He (conj Hent Hs))).
  rewrite (Hstr i e He). simpl andb. cbv iota. unfold kret.
  replace (set_calls (calls k) (streaming_set i true k)) with k.
  - apply IH; [exact Hall|lia|exact Hstr].
  - change (set_calls (calls k) (streaming_set i true k))
      with (streaming_set i true k).
    symmetry. exact (streaming_set_same _ _ _ _ He (Hstr i e He)).
Qed.

End AllSucceed.

(** X9. When no operation fails, the whole-device activation leaves every
    node streaming, and a second activation issues no operation and
    changes nothing. *)
Theorem start_stream_twice P k :
  all_bound k = true ->
  (forall sd op h, hard_error (subdev_call_result P sd op h) = false) ->
  (forall sd h, 0 <= subdev_call_result P sd (s_frame_interval 1 60) h) ->
  exists k',
    xvip_start_stream P k = Done tt k' /\
    (forall e, In e (asd_list (g_xdev k')) -> streaming e = true) /\
    xvip_start_stream P k' = Done tt k'.
Proof.
  intros Hall Hok Hfi. apply all_bound_everywhere in Hall.
  destruct (start_entities_all_streaming P Hok Hfi
              (length (asd_list (g_xdev k))) 0 k Hall eq_refl)
    as (k1 & Hrun & Hsub & Hflags & Hlen).
  set (k' := set_g_xdev (set_is_streaming true (g_xdev k1)) k1).
  assert (Hstr : forall j e, asd_list (g_xdev k') !! j = Some e -> streaming e = true).
  { intros j e Hj. subst k'. simpl in Hj.
    assert (Hlt : (j < length (asd_list (g_xdev k)))%nat)
      by (rewrite <- Hlen; now apply lookup_lt_Some in Hj).
    destruct (lookup_lt_is_Some_2 _ _ Hlt) as [e0 He0].
    rewrite (Hflags j e0 He0) in Hj.
    destruct (decide (0 <= j)%nat); [|lia]. now injection Hj as <-. }
  assert (Hall' : bound_everywhere k').
  { intros j e Hj. subst k'. simpl in Hj.
    assert (Hlt : (j < length (asd_list (g_xdev k)))%nat)
      by (rewrite <- Hlen; now apply lookup_lt_Some in Hj).
    destruct (lookup_lt_is_Some_2 _ _ Hlt) as [e0 He0].
    rewrite (Hflags j e0 He0) in Hj.
    destruct (decide (0 <= j)%nat); [|lia]. injection Hj as <-.
    destruct (Hall j e0 He0) as (sd & s & Hent & Hs).
    exists sd, s. split; [exact Hent|]. simpl. now rewrite Hsub. }
  exists k'. split; [|split].
  - unfold xvip_start_stream, kbind, kget, kmodify. now rewrite Hrun.
  - intros e Hin. apply list_elem_of_In, list_elem_of_lookup in Hin as [j Hj].
    exact (Hstr j e Hj).
  - unfold xvip_start_stream, kbind, kget, kmodify.
    rewrite (start_entities_noop P _ 0 k' Hall' eq_refl Hstr).
    reflexivity.
Qed.

(** ** Binding: the accepted handle *)

Section Bind.

Variables (k : kstate) (sd : subdev_ptr) (s : v4l2_subdev)
          (i : nat) (e : xvip_graph_entity).
Hypothesis Hs : subdevs k !! sd = Some s.
Hypothesis Hnd : unique_identities k.
Hypothesis He : asd_list (g_xdev k) !! i = Some e.
Hypothesis Hfw : asd_match_fwnode e = sd_fwnode s.

(** No other entry carries the identity of entry [i]. *)
Lemma other_entries_differ j e' :
  asd_list (g_xdev k) !! j = Some e' -> j <> i ->
  asd_match_fwnode e' <> sd_fwnode s.
Proof.
  intros He' Hne Heq. apply Hne.
  apply (NoDup_lookup _ j i (sd_fwnode s) Hnd);
    rewrite list_lookup_fmap; [rewrite He'|rewrite He]; simpl; congruence.
Qed.

Lemma notify_bound_run :
  subdev e = None ->
  xvip_graph_notify_bound sd k = Done 0 (entry_bound i sd e k).
Proof.
  intros Hfree. unfold xvip_graph_notify_bound.
  rewrite (kbind_done _ _ _ _ _ (deref_subdev_done _ _ _ Hs)).
  unfold kbind at 1, kget.
  pose proof (lookup_lt_Some _ _ _ He) as Hi.
  replace (length (asd_list (g_xdev k)))
    with (i + S (length (asd_list (g_xdev k)) - S i))%nat by lia.
  rewrite bound_scan_skip.
  - simpl. rewrite (kbind_done _ _ _ _ _ (entity_at_done _ _ _ He)).
    rewrite Hfw, Nat.eqb_refl. simpl. now rewrite Hfree.
  - lia.
  - intros j e' Hj He'. apply (other_entries_differ j e' He'). lia.
Qed.

Lemma entry_bound_lookup :
  asd_list (g_xdev (entry_bound i sd e k)) !! i = Some (bind_subdev sd e).
Proof.
  simpl. apply list_lookup_insert_eq. now apply lookup_lt_Some in He.
Qed.

Lemma entry_bound_lookup_ne j :
  j <> i ->
  asd_list (g_xdev (entry_bound i sd e k)) !! j = asd_list (g_xdev k) !! j.
Proof. intros Hne. simpl. now apply list_lookup_insert_ne. Qed.

(** After the binding, a handle with the same identity is refused. *)
Lemma notify_bound_again_run sd' s' :
  subdevs k !! sd' = Some s' -> sd_fwnode s' = sd_fwnode s ->
  xvip_graph_notify_bound sd' (entry_bound i sd e k) =
    Done (- EINVAL) (entry_bound i sd e k).
Proof.
  intros Hs' Hfw'. unfold xvip_graph_notify_bound.
  assert (Hs1 : subdevs (entry_bound i sd e k) !! sd' = Some s') by exact Hs'.
  rewrite (kbind_done _ _ _ _ _ (deref_subdev_done _ _ _ Hs1)).
  unfold kbind at 1, kget.
  pose proof (lookup_lt_Some _ _ _ He) as Hi.
  assert (Hlen : length (asd_list (g_xdev (entry_bound i sd e k)))
                 = length (asd_list (g_xdev k))) by (simpl; apply length_insert).
  rewrite Hlen.
  replace (length (asd_list (g_xdev k)))
    with (i + S (length (asd_list (g_xdev k)) - S i))%nat by lia.
  rewrite bound_scan_skip.
  - simpl bound_scan.
    rewrite (kbind_done _ _ _ _ _ (entity_at_done _ _ _ entry_bound_lookup)).
    change (asd_match_fwnode (bind_subdev sd e)) with (asd_match_fwnode e).
    rewrite Hfw', Hfw, Nat.eqb_refl. reflexivity.
  - rewrite Hlen. lia.
  - intros j e' Hj He'. rewrite entry_bound_lookup_ne in He' by lia.
    rewrite Hfw'. apply (other_entries_differ j e' He'). lia.
Qed.

End Bind.

(** X10. A handle whose firmware node is the one of an entry without subdevice
    is accepted: the call returns 0 and stores the handle as the entity
    and the subdevice of that entry; the identity and the streaming flag
    of the entry, and every other entry, are left as they were. *)
Theorem notify_bound_binds k sd s i e :
  subdevs k !! sd = Some s -> unique_identities k ->
  asd_list (g_xdev k) !! i = Some e ->
  asd_match_fwnode e = sd_fwnode s -> subdev e = None ->
  xvip_graph_notify_bound sd k = Done 0 (entry_bound i sd e k) /\
  asd_list (g_xdev (entry_bound i sd e k)) !! i =
    Some (mk_graph_entity (asd_match_fwnode e) (Some sd) (Some sd) (streaming e)) /\
  (forall j, j <> i ->
     asd_list (g_xdev (entry_bound i sd e k)) !! j = asd_list (g_xdev k) !! j).
Proof.
  intros Hs Hnd He Hfw Hfree. split; [|split].
  - exact (notify_bound_run k sd s i e Hs Hnd He Hfw Hfree).
  - exact (entry_bound_lookup k sd i e He).
  - intros j. apply entry_bound_lookup_ne.
Qed.

(** X11. Binding exclusivity over two arrivals: once a handle is bound, a
    second arrival with the same identity (the same handle or another
    one) returns [- EINVAL] and leaves the first binding in place. *)
Theorem second_arrival_rejected k sd s i e sd' s' :
  subdevs k !! sd = Some s -> unique_identities k ->
  asd_list (g_xdev k) !! i = Some e ->
  asd_match_fwnode e = sd_fwnode s -> subdev e = None ->
  subdevs k !! sd' = Some s' -> sd_fwnode s' = sd_fwnode s ->
  (xvip_graph_notify_bound sd;; xvip_graph_notify_bound sd') k =
    Done (- EINVAL) (entry_bound i sd e k).
Proof.
  intros Hs Hnd He Hfw Hfree Hs' Hfw'.
  rewrite (kbind_done _ _ _ _ _ (notify_bound_run k sd s i e Hs Hnd He Hfw Hfree)).
  exact (notify_bound_again_run k sd s i e Hnd He Hfw sd' s' Hs' Hfw').
Qed.

(** X12. Lookup after binding: once a handle that no entry carried is bound to
    entry [i], the lookup by media entity and the lookup by firmware node
    both find entry [i]. *)
Theorem lookups_after_bind k sd s i e :
  subdevs k !! sd = Some s -> unique_identities k ->
  asd_list (g_xdev k) !! i = Some e ->
  asd_match_fwnode e = sd_fwnode s -> subdev e = None ->
  (forall e', In e' (asd_list (g_xdev k)) -> entity e' <> Some sd) ->
  exists k',
    xvip_graph_notify_bound sd k = Done 0 k' /\
    xvip_graph_find_entity_from_media (g_xdev k') (Some sd) = Some i /\
    xvip_graph_find_entity (g_xdev k') (sd_fwnode s) = Some i.
Proof.
  intros Hs Hnd He Hfw Hfree Hnew.
  exists (entry_bound i sd e k).
  split; [exact (notify_bound_run k sd s i e Hs Hnd He Hfw Hfree)|].
  pose proof (entry_bound_lookup k sd i e He) as Hi.
  split.
  - unfold xvip_graph_find_entity_from_media.
    assert (Hfind : list_find (fun e0 => entity e0 = Some sd)
                      (asd_list (g_xdev (entry_bound i sd e k)))
                    = Some (i, bind_subdev sd e)).
    { apply list_find_Some. split; [exact Hi|]. split; [reflexivity|].
      intros j y Hj Hlt. rewrite entry_bound_lookup_ne in Hj by lia.
      apply Hnew. apply list_elem_of_In, list_elem_of_lookup. now exists j. }
    now rewrite Hfind.
  - unfold xvip_graph_find_entity.
    assert (Hfind : list_find (fun e0 => asd_match_fwnode e0 = sd_fwnode s)
                      (asd_list (g_xdev (entry_bound i sd e k)))
                    = Some (i, bind_subdev sd e)).
    { apply list_find_Some. split; [exact Hi|]. split; [exact Hfw|].
      intros j y Hj Hlt. rewrite entry_bound_lookup_ne in Hj by lia.
      apply (other_entries_differ k s i e Hnd He Hfw j y Hj). lia. }
    now rewrite Hfind.
Qed.

(** ** Link assembly: which links are created *)

(** The loop creates one link per endpoint that asks for one, in the order
    of the endpoints, and nothing else; when it returns a value that is
    not negative, every endpoint was either passed over or given its
    link. *)
Lemma build_links_links P lp s eps : forall ret k,
  bound_everywhere k -> subdevs k !! lp = Some s ->
  exists r l' eps',
    build_links P lp eps ret k = Done r (set_links (links k ++ l') k) /\
    sublist eps' eps /\
    Forall2 (link_of_endpoint k lp) eps' l' /\
    (0 <= r -> forall ep, In ep eps ->
       skips_endpoint k lp ep = true \/ In ep eps').
Proof.
  induction eps as [|ep eps IH]; intros ret k Hall Hlp.
  - exists ret, [], []. simpl. unfold kret. rewrite app_nil_r, set_links_id.
    split; [reflexivity|]. split; [constructor|]. split; [constructor|].
    intros _ ep [].
  - (* the endpoint is passed over: the rest of the list decides *)
    assert (Hskip : skips_endpoint k lp ep = true ->
              exists r l' eps',
                build_links P lp eps (parse_link_ret ep) k
                  = Done r (set_links (links k ++ l') k) /\
                sublist eps' (ep :: eps) /\
                Forall2 (link_of_endpoint k lp) eps' l' /\
                (0 <= r -> forall ep0, In ep0 (ep :: eps) ->
                   skips_endpoint k lp ep0 = true \/ In ep0 eps')).
    { intros Hsk.
      destruct (IH (parse_link_ret ep) k Hall Hlp)
        as (r & l' & eps' & Hrun & Hsub & Hlinks & Hall').
      exists r, l', eps'. split; [exact Hrun|].
      split; [now apply sublist_cons|]. split; [exact Hlinks|].
      intros Hr ep0 [<-|Hin]; [now left|now apply Hall']. }
    (* the loop is left with an error: no link is added *)
    assert (Habort : forall r, r < 0 ->
              exists r0 l' eps',
                Done r k = Done r0 (set_links (links k ++ l') k) /\
                sublist eps' (ep :: eps) /\
                Forall2 (link_of_endpoint k lp) eps' l' /\
                (0 <= r0 -> forall ep0, In ep0 (ep :: eps) ->
                   skips_endpoint k lp ep0 = true \/ In ep0 eps')).
    { intros r Hr. exists r, [], []. rewrite app_nil_r, set_links_id.
      split; [reflexivity|]. split; [apply sublist_nil_l|]. split; [constructor|].
      intros Hr'. lia. }
    simpl build_links.
    destruct (parse_link_ret ep <? 0) eqn:Hparse.
    { apply Hskip. unfold skips_endpoint. now rewrite Hparse. }
    rewrite (kbind_done _ _ _ _ _ (deref_entity_done _ _ _ Hlp)).
    destruct (num_pads (sd_entity s) <=? local_port (parsed_link ep))%nat eqn:Hport.
    { apply (Habort (- EINVAL)). unfold EINVAL. lia. }
    apply Nat.leb_gt in Hport.
    destruct (lookup_lt_is_Some_2 _ _ Hport) as [local_pad Hpad].
    rewrite Hpad.
    destruct (Z.land (flags local_pad) MEDIA_PAD_FL_SINK =? 0) eqn:Hsink.
    2:{ apply Hskip. unfold skips_endpoint. rewrite Hlp, Hpad, Hsink.
        apply orb_true_r. }
    change (negb true) with false. cbv iota.
    unfold kbind at 1, kget. cbv beta.
    destruct (remote_node (parsed_link ep) =? dev_of_node (g_xdev k))%nat eqn:Hroot.
    { apply Hskip. unfold skips_endpoint. rewrite Hlp, Hpad, Hroot.
      rewrite !orb_true_r. reflexivity. }
    clear Hskip.
    destruct (xvip_graph_find_entity _ _) as [j|] eqn:Hfind.
    2:{ apply (Habort (- ENODEV)). unfold ENODEV. lia. }
    destruct (find_entity_Some _ _ _ Hfind) as (ent & Hent & _).
    rewrite (kbind_done _ _ _ _ _ (entity_at_done _ _ _ Hent)).
    destruct (Hall j ent Hent) as (rp & rs & Hrp & Hrs).
    rewrite Hrp.
    rewrite (kbind_done _ _ _ _ _ (deref_entity_done _ _ _ Hrs)).
    destruct (num_pads (sd_entity rs) <=? remote_port (parsed_link ep))%nat eqn:Hrport.
    { apply (Habort (- EINVAL)). unfold EINVAL. lia. }
    apply Nat.leb_gt in Hrport.
    destruct (lookup_lt_is_Some_2 _ _ Hrport) as [remote_pad Hrpad].
    rewrite Hrpad.
    unfold media_create_pad_link.
    set (l := mk_link lp (index local_pad) rp (index remote_pad) MEDIA_LNK_FL_ENABLED).
    destruct (create_pad_link_result P l <? 0) eqn:Hcreate.
    + unfold kbind, kret. rewrite Hcreate.
      apply Habort. now apply Z.ltb_lt.
    + clear Habort.
      unfold kbind at 1. unfold kbind at 1. unfold kmodify, kret at 1.
      rewrite Hcreate.
      destruct (IH (create_pad_link_result P l) (set_links (links k ++ [l]) k))
        as (r & l' & eps' & Hrun & Hsub & Hlinks & Hall'); [exact Hall|exact Hlp|].
      rewrite Hrun. simpl. exists r, (l :: l'), (ep :: eps').
      rewrite <- app_assoc. split; [reflexivity|].
      split; [now apply sublist_skip|]. split.
      * constructor; [|exact Hlinks].
        apply Z.ltb_ge in Hparse.
        split; [exact Hparse|]. split; [now apply Nat.eqb_neq in Hroot|].
        exists s, local_pad, j, ent, rp, rs, remote_pad.
        apply Z.eqb_eq in Hsink. repeat split; assumption.
      * intros Hr ep0 [<-|Hin]; [right; now left|].
        destruct (Hall' Hr ep0 Hin) as [Hsk|Hin']; [now left|right; now right].
Qed.

Lemma rename_step_links sd s k : links (rename_step sd s k) = links k.
Proof. unfold rename_step. now destruct (String.eqb _ _). Qed.

Lemma rename_step_calls sd s k : calls (rename_step sd s k) = calls k.
Proof. unfold rename_step. now destruct (String.eqb _ _). Qed.

Lemma build_one_unfold P k i e sd s :
  bound_at k i e sd s ->
  xvip_graph_build_one P i k =
    build_links P sd (endpoints_of P (asd_match_fwnode e)) 0 (rename_step sd s k).
Proof.
  intros (He & Hent & Hs). unfold xvip_graph_build_one.
  rewrite (kbind_done _ _ _ _ _ (entity_at_done _ _ _ He)), Hent.
  rewrite (kbind_done _ _ _ _ _ (deref_entity_done _ _ _ Hs)).
  unfold rename_step. destruct (String.eqb _ _); [|reflexivity].
  unfold kbind at 1. unfold kbind at 1. unfold kget at 1.
  unfold kbind at 1. unfold set_entity_name.
  rewrite (kbind_done _ _ _ _ _ (deref_subdev_done _ _ _ Hs)).
  reflexivity.
Qed.

(** X13. The links of one entity.  With every registered node bound, the
    assembly of an entity returns; it leaves the registry and the log of
    subdevice operations as they were, and adds one enabled link per
    endpoint that asks for one, in the order of the endpoints: from a pad
    of the entity that is not a sink to a pad of the entity bound to the
    remote node, never to the root.  When the value returned is not
    negative, every endpoint of the entity was passed over or got its
    link. *)
Theorem build_one_links P k i e sd s :
  bound_at k i e sd s -> all_bound k = true ->
  exists r k' l' eps',
    xvip_graph_build_one P i k = Done r k' /\
    links k' = links k ++ l' /\
    g_xdev k' = g_xdev k /\ calls k' = calls k /\
    sublist eps' (endpoints_of P (asd_match_fwnode e)) /\
    Forall2 (link_of_endpoint k' sd) eps' l' /\
    (0 <= r -> forall ep, In ep (endpoints_of P (asd_match_fwnode e)) ->
       skips_endpoint k' sd ep = true \/ In ep eps').
Proof.
  intros Hb Hall. apply all_bound_everywhere in Hall.
  pose proof Hb as (He & Hent & Hs).
  rewrite (build_one_unfold P k i e sd s Hb).
  destruct (rename_step_lookup sd s k Hs sd) as [s' Hs']; [now exists s|].
  destruct (build_links_links P sd s' (endpoints_of P (asd_match_fwnode e)) 0
              (rename_step sd s k) (rename_step_bound sd s k Hs Hall) Hs')
    as (r & l' & eps' & Hrun & Hsub & Hlinks & Hdone).
  exists r, (set_links (links (rename_step sd s k) ++ l') (rename_step sd s k)), l', eps'.
  split; [exact Hrun|]. split; [simpl; now rewrite rename_step_links|].
  split; [simpl; apply rename_step_xdev|].
  split; [simpl; apply rename_step_calls|].
  split; [exact Hsub|]. split; [exact Hlinks|exact Hdone].
Qed.

Lemma last_parse_status_cons ret ep eps :
  last_parse_status ret (ep :: eps) = last_parse_status (parse_link_ret ep) eps.
Proof.
  unfold last_parse_status. destruct eps as [|ep' eps]; [reflexivity|].
  change (last (ep :: ep' :: eps)) with (last (ep' :: eps)).
  destruct (last (ep' :: eps)) eqn:E; [reflexivity|].
  apply last_None in E. discriminate.
Qed.

Lemma build_links_skips P lp s eps : forall ret k,
  subdevs k !! lp = Some s ->
  forallb (skips_endpoint k lp) eps = true ->
  build_links P lp eps ret k = Done (last_parse_status ret eps) k.
Proof.
  induction eps as [|ep eps IH]; intros ret k Hlp Hskips; [reflexivity|].
  simpl in Hskips. apply andb_true_iff in Hskips as [Hskip Hrest].
  rewrite last_parse_status_cons. simpl build_links.
  unfold skips_endpoint in Hskip. rewrite Hlp in Hskip.
  destruct (parse_link_ret ep <? 0); [now apply IH|].
  simpl in Hskip.
  rewrite (kbind_done _ _ _ _ _ (deref_entity_done _ _ _ Hlp)).
  destruct (pads (sd_entity s) !! local_port (parsed_link ep)) as [pad|] eqn:Hpad;
    [|discriminate].
  assert (Hport : (num_pads (sd_entity s) <=? local_port (parsed_link ep))%nat = false).
  { apply Nat.leb_gt. now apply lookup_lt_Some in Hpad. }
  rewrite Hport.
  destruct (negb _); [now apply IH|].
  simpl in Hskip. unfold kbind at 1, kget. cbv beta. rewrite Hskip.
  now apply IH.
Qed.

(** X14. An entity without link to create.  When every endpoint of an entity
    (not named IMX274) is passed over, its assembly creates no link and
    leaves the state as it was; the value returned is 0 for an entity
    without endpoints and otherwise the parse status of the last endpoint,
    so an entity whose last endpoint does not parse is reported as
    failed. *)
Theorem build_one_without_links P k i e sd s :
  bound_at k i e sd s -> name (sd_entity s) <> IMX274 ->
  forallb (skips_endpoint k sd) (endpoints_of P (asd_match_fwnode e)) = true ->
  xvip_graph_build_one P i k =
    Done (last_parse_status 0 (endpoints_of P (asd_match_fwnode e))) k.
Proof.
  intros Hb Hname Hskips. pose proof Hb as (He & Hent & Hs).
  rewrite (build_one_unfold P k i e sd s Hb).
  unfold rename_step. apply String.eqb_neq in Hname. rewrite Hname.
  now apply (build_links_skips P sd s).
Qed.

Lemma build_entities_frame P n : forall i k,
  bound_everywhere k -> (i + n)%nat = length (asd_list (g_xdev k)) ->
  exists o k',
    build_entities P i n k = Done o k' /\
    g_xdev k' = g_xdev k /\ calls k' = calls k /\
    (forall ret, o = Some ret -> ret < 0).
Proof.
  induction n as [|n IH]; intros i k Hall Hlen.
  - exists None, k. repeat split. discriminate.
  - assert (Hi : (i < length (asd_list (g_xdev k)))%nat) by lia.
    destruct (lookup_lt_is_Some_2 _ _ Hi) as [e He].
    destruct (Hall i e He) as (sd & s & Hent & Hs).
    destruct (build_one_run P k i e sd s (conj He (conj Hent Hs)) Hall)
      as (r & l' & Hrun).
    simpl. rewrite (kbind_done _ _ _ _ _ Hrun).
    destruct (r <? 0) eqn:Hr.
    + eexists _, _. split; [reflexivity|]. simpl.
      split; [apply rename_step_xdev|]. split; [apply rename_step_calls|].
      intros ret [= <-]. now apply Z.ltb_lt.
    + destruct (IH (S i) (set_links (links (rename_step sd s k) ++ l')
                                    (rename_step sd s k)))
        as (o & k' & Hrest & Hx & Hc & Ho).
      * intros j e'. simpl. intros Hj.
        exact (rename_step_bound sd s k Hs Hall j e' Hj).
      * simpl. rewrite rename_step_xdev. lia.
      * exists o, k'. split; [exact Hrest|].
        split; [rewrite Hx; simpl; apply rename_step_xdev|].
        split; [rewrite Hc; simpl; apply rename_step_calls|exact Ho].
Qed.

(** The loop of the completion, entry by entry: it stops on the first
    entry whose assembly returns a negative value, the entries before it
    having been assembled, or it assembles them all. *)
Lemma build_entities_assembles P n : forall i k,
  bound_everywhere k -> (i + n)%nat = length (asd_list (g_xdev k)) ->
  (exists j k1 r k',
     (i <= j < i + n)%nat /\ assembles P i j k k1 /\
     xvip_graph_build_one P j k1 = Done r k' /\ r < 0 /\
     build_entities P i n k = Done (Some r) k') \/
  (exists k1,
     assembles P i (i + n) k k1 /\ build_entities P i n k = Done None k1).
Proof.
  induction n as [|n IH]; intros i k Hall Hlen.
  - right. exists k. rewrite Nat.add_0_r. split; [constructor|reflexivity].
  - assert (Hi : (i < length (asd_list (g_xdev k)))%nat) by lia.
    destruct (lookup_lt_is_Some_2 _ _ Hi) as [e He].
    destruct (Hall i e He) as (sd & s & Hent & Hs).
    destruct (build_one_run P k i e sd s (conj He (conj Hent Hs)) Hall)
      as (r & l' & Hrun).
    simpl. rewrite (kbind_done _ _ _ _ _ Hrun).
    destruct (r <? 0) eqn:Hr.
    + apply Z.ltb_lt in Hr. left. eexists i, k, r, _.
      split; [lia|]. split; [constructor|]. split; [exact Hrun|].
      split; [exact Hr|reflexivity].
    + apply Z.ltb_ge in Hr.
      destruct (IH (S i) (set_links (links (rename_step sd s k) ++ l')
                                    (rename_step sd s k)))
        as [(j & k1 & r' & k' & Hj & Hpre & Hfail & Hneg & Hrest)
           |(k1 & Hpre & Hrest)].
      * intros j e'. simpl. intros Hj.
        exact (rename_step_bound sd s k Hs Hall j e' Hj).
      * simpl. rewrite rename_step_xdev. lia.
      * left. exists j, k1, r', k'. split; [lia|].
        split; [exact (assembles_next P _ _ _ _ _ _ Hrun Hr Hpre)|].
        split; [exact Hfail|]. split; [exact Hneg|exact Hrest].
      * right. exists k1.
        replace (i + S n)%nat with (S i + n)%nat by lia.
        split; [exact (assembles_next P _ _ _ _ _ _ Hrun Hr Hpre)|exact Hrest].
Qed.

(** X16. Completion.  With every registered node bound, the completion
    returns, and the registry, the streaming flags and the log of
    subdevice operations are left as they were.  Either it stops on the
    first entity whose assembly returns a negative value, the entities
    before it having been assembled without one: it returns that value,
    the state is the one that assembly left, and neither the subdevice
    nodes nor the media device are registered.  Or it assembles every
    entity, registers the subdevice nodes and then the media device on the
    state the last assembly left, and returns the result of the media
    device registration, whatever the registration of the subdevice nodes
    returned. *)
Theorem notify_complete_outcome P k :
  all_bound k = true ->
  exists r k',
    xvip_graph_notify_complete P k = Done r k' /\
    asd_list (g_xdev k') = asd_list (g_xdev k) /\
    is_streaming (g_xdev k') = is_streaming (g_xdev k) /\
    calls k' = calls k /\
    ((exists i k1,
        (i < length (asd_list (g_xdev k)))%nat /\
        assembles P 0 i k k1 /\
        xvip_graph_build_one P i k1 = Done r k' /\ r < 0 /\
        media_dev_registered (g_xdev k') = media_dev_registered (g_xdev k) /\
        subdev_nodes_registered (g_xdev k') = subdev_nodes_registered (g_xdev k)) \/
     (exists k1,
        assembles P 0 (length (asd_list (g_xdev k))) k k1 /\
        r = media_device_register_result P /\
        k' = set_g_xdev
               (set_media_dev_registered (0 <=? media_device_register_result P)
                  (set_subdev_nodes_registered (0 <=? register_subdev_nodes_result P)
                     (g_xdev k1))) k1)).
Proof.
  intros Hall. apply all_bound_everywhere in Hall.
  destruct (build_entities_frame P (length (asd_list (g_xdev k))) 0 k Hall eq_refl)
    as (o & k1 & Hrun & Hx & Hc & Ho).
  unfold xvip_graph_notify_complete, kbind at 1, kget.
  rewrite (kbind_done _ _ _ _ _ Hrun).
  destruct (build_entities_assembles P (length (asd_list (g_xdev k))) 0 k Hall eq_refl)
    as [(j & kj & r & k' & Hj & Hpre & Hfail & Hneg & Hrun')|(k2 & Hpre & Hrun')];
    rewrite Hrun in Hrun'; injection Hrun' as -> ->.
  - exists r, k'. split; [reflexivity|]. rewrite !Hx, Hc.
    split; [reflexivity|]. split; [reflexivity|]. split; [reflexivity|].
    left. exists j, kj. split; [lia|]. split; [exact Hpre|].
    split; [exact Hfail|]. split; [exact Hneg|]. split; reflexivity.
  - eexists _, _. split; [reflexivity|].
    split; [simpl; now rewrite Hx|]. split; [simpl; now rewrite Hx|].
    split; [exact Hc|].
    right. exists k2. split; [exact Hpre|]. split; reflexivity.
Qed.

(** ** Graph discovery: what the registry holds *)

Section Closure.

Variable P : platform.

(** Endpoints that all lead to the root or to registered nodes add
    nothing. *)
Lemma parse_endpoints_resolved eps : forall xdev,
  (forall ep, In ep eps ->
     exists n, remote_port_parent ep = Some n /\
               (n = dev_of_node xdev \/ In n (fwnodes xdev))) ->
  parse_endpoints P eps xdev = (0, xdev).
Proof.
  induction eps as [|ep eps IH]; intros xdev Hres; [reflexivity|].
  simpl. destruct (Hres ep (or_introl eq_refl)) as (n & Hn & Hor).
  rewrite Hn.
  assert (Hseen : (n =? dev_of_node xdev)%nat
                  || bool_decide (is_Some (xvip_graph_find_entity xdev n)) = true).
  { apply orb_true_iff. destruct Hor as [->|Hin].
    - left. apply Nat.eqb_refl.
    - right. apply bool_decide_eq_true. now apply find_entity_is_Some. }
  rewrite Hseen. apply IH. intros ep' Hin. apply Hres. now right.
Qed.

Lemma reaches_snoc p : forall a b c,
  reaches P a p b = true -> linked P b c = true ->
  reaches P a (p ++ [c]) c = true.
Proof.
  induction p as [|x p IH]; intros a b c Hab Hbc; simpl in *.
  - apply bool_decide_eq_true in Hab as ->. rewrite Hbc.
    now rewrite bool_decide_eq_true_2.
  - apply andb_true_iff in Hab as [Hax Hxb]. rewrite Hax. simpl.
    now apply (IH x b c).
Qed.

(** In a registry where the root and every entry are closed, a chain of
    links from the root ends at the root or in the registry. *)
Lemma reaches_registered xdev :
  closed_in P xdev (dev_of_node xdev) ->
  (forall j e, asd_list xdev !! j = Some e -> closed_in P xdev (asd_match_fwnode e)) ->
  forall p a n,
    a = dev_of_node xdev \/ In a (fwnodes xdev) ->
    reaches P a p n = true ->
    n = dev_of_node xdev \/ In n (fwnodes xdev).
Proof.
  intros Hroot Hall.
  assert (Hclosed : forall a, a = dev_of_node xdev \/ In a (fwnodes xdev) ->
                              closed_in P xdev a).
  { intros a [->|Hin]; [exact Hroot|].
    apply list_elem_of_In, list_elem_of_fmap in Hin as (e & -> & He).
    apply list_elem_of_lookup in He as [j Hj]. exact (Hall j e Hj). }
  induction p as [|b p IH]; intros a n Ha Hreach; simpl in Hreach.
  - now apply bool_decide_eq_true in Hreach as <-.
  - apply andb_true_iff in Hreach as [Hlink Hrest].
    apply (IH b n); [|exact Hrest].
    unfold linked in Hlink. apply existsb_exists in Hlink as (ep & Hep & Hb).
    apply bool_decide_eq_true in Hb.
    destruct (Hclosed a Ha ep Hep) as (r & Hr & Hor).
    rewrite Hb in Hr. now injection Hr as <-.
Qed.

(** The root is never registered. *)
Lemma parse_endpoints_skips_root eps : forall xdev r xdev',
  parse_endpoints P eps xdev = (r, xdev') ->
  ~ In (dev_of_node xdev) (fwnodes xdev) ->
  ~ In (dev_of_node xdev) (fwnodes xdev').
Proof.
  induction eps as [|ep eps IH]; intros xdev r xdev' H Hroot; simpl in H.
  - now injection H as <- <-.
  - destruct (remote_port_parent ep) as [remote|].
    2:{ injection H as <- <-. intros []. }
    destruct ((remote =? dev_of_node xdev)%nat) eqn:Hisroot; simpl in H.
    { exact (IH _ _ _ H Hroot). }
    destruct (bool_decide _); simpl in H.
    { exact (IH _ _ _ H Hroot). }
    destruct (IS_ERR _).
    { injection H as <- <-. intros []. }
    apply Nat.eqb_neq in Hisroot.
    apply (IH _ _ _ H). unfold fwnodes. simpl. rewrite fmap_app.
    intros Hin. apply in_app_or in Hin as [Hin|[Heq|[]]]; [now apply Hroot|].
    simpl in Heq. congruence.
Qed.

(** One pass over the endpoints of a node that a chain of links from the
    root reaches keeps the registry as discovery builds it. *)
Lemma parse_endpoints_discovered fw xdev r xdev' :
  parse_endpoints P (endpoints_of P fw) xdev = (r, xdev') ->
  (exists p, reaches P (dev_of_node xdev) p fw = true) ->
  discovered P (dev_of_node xdev) xdev ->
  discovered P (dev_of_node xdev) xdev'.
Proof.
  intros H [p Hp] (Hnd & Hroot & Hreach & Hnew).
  destruct (decide (r < 0)) as [Hneg|Hok].
  - destruct (parse_endpoints_failure _ _ _ _ _ H) as (_ & Hclean).
    rewrite (Hclean Hneg). split; [apply NoDup_nil_2|].
    split; [intros []|]. split; [intros n []|reflexivity].
  - pose proof (parse_endpoints_unique _ _ _ _ _ H Hnd) as Hnd'.
    destruct (parse_endpoints_success _ _ _ _ _ H Hok) as
      (_ & _ & (news & Hl & Hnews & Hfrom) & Hres).
    assert (Hfw : fwnodes xdev' = fwnodes xdev ++ news).
    { unfold fwnodes. rewrite Hl, fmap_app, <- list_fmap_compose.
      replace (asd_match_fwnode ∘ new_entity) with (@id nat) by reflexivity.
      now rewrite list_fmap_id. }
    split; [exact Hnd'|]. split; [|split].
    + exact (parse_endpoints_skips_root _ _ _ _ H Hroot).
    + rewrite Hfw. intros n Hin. apply in_app_or in Hin as [Hin|Hin]; [now apply Hreach|].
      destruct (Hfrom _ Hin) as (_ & ep & Hep & Hrem).
      exists (p ++ [n]). apply (reaches_snoc p _ fw n Hp).
      unfold linked. apply existsb_exists. exists ep. split; [exact Hep|].
      now apply bool_decide_eq_true.
    + rewrite Hl, Hfw, fmap_app. now rewrite <- Hnew.
Qed.

End Closure.

Section Registry.

Variable P : platform.

(** Discovery changes nothing of the device but the registry. *)
Lemma parse_endpoints_frame eps : forall xdev r xdev',
  parse_endpoints P eps xdev = (r, xdev') ->
  xdev' = set_asd_list (asd_list xdev') xdev.
Proof.
  induction eps as [|ep eps IH]; intros xdev r xdev' H; simpl in H.
  - injection H as <- <-. now destruct xdev.
  - destruct (remote_port_parent ep) as [remote|]; [|now injection H as <- <-].
    destruct (_ || _); [exact (IH _ _ _ H)|].
    destruct (IS_ERR _); [now injection H as <- <-|].
    exact (IH _ _ _ H).
Qed.

Lemma parse_entities_frame fuel : forall i r xdev ret xdev',
  parse_entities P fuel i r xdev = Some (ret, xdev') ->
  xdev' = set_asd_list (asd_list xdev') xdev.
Proof.
  induction fuel as [|fuel IH]; intros i r xdev ret xdev' H; [discriminate|].
  simpl in H. destruct (asd_list xdev !! i) as [e|].
  2:{ injection H as <- <-. now destruct xdev. }
  unfold xvip_graph_parse_one in H.
  destruct (parse_endpoints P _ xdev) as [r1 x1] eqn:Hone.
  apply parse_endpoints_frame in Hone.
  destruct (r1 <? 0).
  - injection H as <- <-. now rewrite Hone.
  - apply IH in H. rewrite H, Hone. reflexivity.
Qed.

Lemma parse_entities_nonpos fuel : forall i r xdev ret xdev',
  r <= 0 -> parse_entities P fuel i r xdev = Some (ret, xdev') -> ret <= 0.
Proof.
  induction fuel as [|fuel IH]; intros i r xdev ret xdev' Hr H; [discriminate|].
  simpl in H. destruct (asd_list xdev !! i) as [e|].
  2:{ now injection H as <- <-. }
  unfold xvip_graph_parse_one in H.
  destruct (parse_endpoints P _ xdev) as [r1 x1] eqn:Hone.
  destruct (parse_endpoints_failure _ _ _ _ _ Hone) as (Hle & _).
  destruct (r1 <? 0).
  - now injection H as <- <-.
  - exact (IH _ _ _ _ _ Hle H).
Qed.

Lemma parse_entities_discovered fuel : forall i r xdev ret xdev',
  discovered P (dev_of_node xdev) xdev ->
  parse_entities P fuel i r xdev = Some (ret, xdev') ->
  discovered P (dev_of_node xdev) xdev'.
Proof.
  induction fuel as [|fuel IH]; intros i r xdev ret xdev' Hd H; [discriminate|].
  simpl in H. destruct (asd_list xdev !! i) as [e|] eqn:He.
  2:{ now injection H as <- <-. }
  unfold xvip_graph_parse_one in H.
  destruct (parse_endpoints P _ xdev) as [r1 x1] eqn:Hone.
  assert (Hreach : exists p, reaches P (dev_of_node xdev) p (asd_match_fwnode e) = true).
  { destruct Hd as (_ & _ & Hreach & _). apply Hreach.
    apply list_elem_of_In, list_elem_of_fmap. exists e. split; [reflexivity|].
    apply list_elem_of_lookup. now exists i. }
  pose proof (parse_endpoints_discovered P _ _ _ _ Hone Hreach Hd) as Hd1.
  pose proof (parse_endpoints_frame _ _ _ _ Hone) as Hframe.
  assert (Hroot : dev_of_node x1 = dev_of_node xdev) by (now rewrite Hframe).
  destruct (r1 <? 0).
  - injection H as <- <-. split; [apply NoDup_nil_2|].
    split; [intros []|]. split; [intros n []|reflexivity].
  - rewrite <- Hroot. apply (IH _ _ _ _ _ (ltac:(now rewrite Hroot)) H).
Qed.

(** Without endpoint that leads nowhere and without allocation failure a
    pass does not fail. *)
Lemma parse_endpoints_ok eps : forall xdev,
  (forall n, IS_ERR (add_fwnode_subdev_result P n) = false) ->
  existsb (fun ep => bool_decide (remote_port_parent ep = None)) eps = false ->
  fst (parse_endpoints P eps xdev) = 0.
Proof.
  induction eps as [|ep eps IH]; intros xdev Halloc Hres; [reflexivity|].
  simpl in Hres. apply orb_false_iff in Hres as [Hep Hrest].
  apply bool_decide_eq_false in Hep. simpl.
  destruct (remote_port_parent ep) as [remote|]; [|congruence].
  destruct (_ || _); [now apply IH|].
  rewrite Halloc. now apply IH.
Qed.

Lemma parse_entities_ok fuel : forall i r xdev ret xdev',
  (forall n, IS_ERR (add_fwnode_subdev_result P n) = false) ->
  (forall p n, reaches P (dev_of_node xdev) p n = true -> has_dangling P n = false) ->
  discovered P (dev_of_node xdev) xdev -> ~ r < 0 ->
  parse_entities P fuel i r xdev = Some (ret, xdev') -> ~ ret < 0.
Proof.
  induction fuel as [|fuel IH]; intros i r xdev ret xdev' Halloc Hres Hd Hr H;
    [discriminate|].
  simpl in H. destruct (asd_list xdev !! i) as [e|] eqn:He.
  2:{ now injection H as <- <-. }
  unfold xvip_graph_parse_one in H.
  destruct (parse_endpoints P _ xdev) as [r1 x1] eqn:Hone.
  assert (Hreach : exists p, reaches P (dev_of_node xdev) p (asd_match_fwnode e) = true).
  { destruct Hd as (_ & _ & Hreach & _). apply Hreach.
    apply list_elem_of_In, list_elem_of_fmap. exists e. split; [reflexivity|].
    apply list_elem_of_lookup. now exists i. }
  pose proof (parse_endpoints_discovered P _ _ _ _ Hone Hreach Hd) as Hd1.
  pose proof (parse_endpoints_frame _ _ _ _ Hone) as Hframe.
  assert (Hroot : dev_of_node x1 = dev_of_node xdev) by (now rewrite Hframe).
  assert (Hr1 : r1 = 0).
  { destruct Hreach as [p Hp].
    pose proof (parse_endpoints_ok (endpoints_of P (asd_match_fwnode e)) xdev Halloc
                  (Hres p _ Hp)) as H0.
    now rewrite Hone in H0. }
  subst r1. change (0 <? 0) with false in H. cbv iota in H.
  apply (IH _ _ _ _ _ Halloc) in H; [exact H| | |lia].
  - now rewrite Hroot.
  - now rewrite Hroot.
Qed.

(** Over a registry whose entries are all closed the loop adds nothing. *)
Lemma parse_entities_closed fuel : forall i xdev,
  (forall j e, asd_list xdev !! j = Some e -> closed_in P xdev (asd_match_fwnode e)) ->
  (length (asd_list xdev) - i < fuel)%nat ->
  parse_entities P fuel i 0 xdev = Some (0, xdev).
Proof.
  induction fuel as [|fuel IH]; intros i xdev Hclosed Hfuel; [lia|].
  simpl. destruct (asd_list xdev !! i) as [e|] eqn:He; [|reflexivity].
  unfold xvip_graph_parse_one.
  rewrite (parse_endpoints_resolved P _ xdev (Hclosed i e He)).
  change (0 <? 0) with false. cbv iota.
  apply IH; [exact Hclosed|]. apply lookup_lt_Some in He. lia.
Qed.

(** The whole discovery on a fresh device, when no reachable node has an
    endpoint that leads nowhere and no allocation fails. *)
Lemma discovery_run xdev :
  asd_list xdev = [] ->
  (forall n, IS_ERR (add_fwnode_subdev_result P n) = false) ->
  (forall p n, reaches P (dev_of_node xdev) p n = true -> has_dangling P n = false) ->
  exists xdev',
    xvip_graph_parse P xdev = Some (0, xdev') /\
    xdev' = set_asd_list (asd_list xdev') xdev /\
    discovered P (dev_of_node xdev) xdev' /\
    closed_in P xdev' (dev_of_node xdev) /\
    (forall j e, asd_list xdev' !! j = Some e ->
       closed_in P xdev' (asd_match_fwnode e)).
Proof.
  intros Hfresh Halloc Hres.
  destruct (xvip_graph_parse_total P xdev) as [[ret x'] Hparse].
  pose proof Hparse as Hparse0.
  unfold xvip_graph_parse, xvip_graph_parse_fuel, xvip_graph_parse_one in Hparse.
  destruct (parse_endpoints P _ xdev) as [r0 x1] eqn:Hroot.
  assert (Hr0 : r0 = 0).
  { pose proof (parse_endpoints_ok (endpoints_of P (dev_of_node xdev)) xdev Halloc
                  (Hres [] _ (bool_decide_eq_true_2 _ eq_refl))) as H0.
    now rewrite Hroot in H0. }
  subst r0. change (0 <? 0) with false in Hparse. cbv iota in Hparse.
  assert (Hd0 : discovered P (dev_of_node xdev) xdev).
  { unfold discovered, fwnodes. rewrite Hfresh. simpl.
    split; [apply NoDup_nil_2|]. split; [intros []|].
    split; [intros n []|reflexivity]. }
  assert (Hd1 : discovered P (dev_of_node xdev) x1).
  { apply (parse_endpoints_discovered P _ _ _ _ Hroot); [|exact Hd0].
    exists []. simpl. now apply bool_decide_eq_true_2. }
  pose proof (parse_endpoints_frame _ _ _ _ Hroot) as Hframe1.
  assert (Hroot1 : dev_of_node x1 = dev_of_node xdev) by (now rewrite Hframe1).
  destruct (parse_endpoints_success _ _ _ _ _ Hroot (Z.lt_irrefl 0)) as
    (_ & _ & (news1 & Hl1 & _ & _) & Hres1).
  assert (Hok : ~ ret < 0).
  { apply (parse_entities_ok _ _ _ _ _ _ Halloc) in Hparse;
      [exact Hparse| | |lia]; now rewrite Hroot1. }
  assert (Hle : ret <= 0).
  { apply (parse_entities_nonpos _ _ _ _ _ _ (Z.le_refl 0) Hparse). }
  assert (ret = 0) by lia. subst ret.
  pose proof (parse_entities_frame _ _ _ _ _ _ Hparse) as Hframe.
  pose proof (parse_entities_discovered _ _ _ _ _ _
                (ltac:(now rewrite Hroot1)) Hparse) as Hd.
  rewrite Hroot1 in Hd.
  destruct (parse_entities_result P _ _ _ _ _ _ (Z.lt_irrefl 0) Hparse)
    as [(Hneg & _)|(_ & Hrootx & (news & Hl) & Hclosed)]; [lia|].
  exists x'. split; [exact Hparse0|]. split.
  { rewrite Hframe, Hframe1. reflexivity. }
  split; [exact Hd|]. split.
  - apply (closed_in_mono P x1 x' _ news Hrootx Hl).
    intros ep Hep. destruct (Hres1 ep Hep) as (m & Hm & Hor).
    exists m. split; [exact Hm|]. now rewrite Hroot1.
  - intros j e. apply Hclosed. lia.
Qed.

End Registry.

(** X17. Discovery is the transitive closure of the links.  On a fresh device,
    when no node that a chain of links from the root reaches has an
    endpoint without remote port parent and no allocation fails, the
    discovery returns 0 and the registry holds, once each, exactly the
    nodes other than the root that a chain of links from the root
    reaches; every entry is unbound and idle, and nothing else of the
    device has changed. *)
Theorem discovery_registers_reachable_nodes P xdev :
  asd_list xdev = [] ->
  (forall n, IS_ERR (add_fwnode_subdev_result P n) = false) ->
  (forall p n, reaches P (dev_of_node xdev) p n = true -> has_dangling P n = false) ->
  exists xdev',
    xvip_graph_parse P xdev = Some (0, xdev') /\
    (forall n, In n (fwnodes xdev') <->
               n <> dev_of_node xdev /\
               exists p, reaches P (dev_of_node xdev) p n = true) /\
    NoDup (fwnodes xdev') /\
    asd_list xdev' = new_entity <$> fwnodes xdev' /\
    xdev' = set_asd_list (asd_list xdev') xdev.
Proof.
  intros Hfresh Halloc Hres.
  destruct (discovery_run P xdev Hfresh Halloc Hres)
    as (x' & Hparse & Hframe & (Hnd & Hnroot & Hreach & Hnew) & Hrc & Hclosed).
  assert (Hroot : dev_of_node x' = dev_of_node xdev) by (now rewrite Hframe).
  exists x'. split; [exact Hparse|]. split; [|now repeat split].
  intros n. split.
  - intros Hin. split; [intros ->; now apply Hnroot|now apply Hreach].
  - intros (Hne & p & Hp).
    rewrite <- Hroot in Hrc, Hp.
    destruct (reaches_registered P x' Hrc Hclosed p _ n (or_introl eq_refl) Hp)
      as [->|Hin]; [now rewrite Hroot in Hne|exact Hin].
Qed.

(** X18. Discovery is idempotent: run again on the device it has filled, it
    returns 0 and leaves the registry as it is. *)
Theorem discovery_idempotent P xdev :
  asd_list xdev = [] ->
  (forall n, IS_ERR (add_fwnode_subdev_result P n) = false) ->
  (forall p n, reaches P (dev_of_node xdev) p n = true -> has_dangling P n = false) ->
  exists xdev',
    xvip_graph_parse P xdev = Some (0, xdev') /\
    xvip_graph_parse P xdev' = Some (0, xdev').
Proof.
  intros Hfresh Halloc Hres.
  destruct (discovery_run P xdev Hfresh Halloc Hres)
    as (x' & Hparse & Hframe & _ & Hrc & Hclosed).
  assert (Hroot : dev_of_node x' = dev_of_node xdev) by (now rewrite Hframe).
  exists x'. split; [exact Hparse|].
  unfold xvip_graph_parse, xvip_graph_parse_fuel, xvip_graph_parse_one.
  rewrite <- Hroot in Hrc.
  rewrite (parse_endpoints_resolved P _ x' Hrc).
  change (0 <? 0) with false. cbv iota.
  apply parse_entities_closed; [exact Hclosed|]. unfold parse_fuel. lia.
Qed.




(** X20. A root without peer.  When the root has no endpoint, or only endpoints
    that lead back to itself, the initialiser on a fresh device returns
    0 and leaves the device as it was: the registry stays empty and the
    notifier is not registered, whatever its registration would return. *)
Theorem empty_graph_is_not_an_error P xdev :
  asd_list xdev = [] ->
  only_self_links P (dev_of_node xdev) = true ->
  xvip_graph_init P xdev = Some (0, xdev).
Proof.
  intros Hfresh Hself.
  assert (Hroot : parse_endpoints P (endpoints_of P (dev_of_node xdev)) xdev = (0, xdev)).
  { apply parse_endpoints_resolved. intros ep Hep.
    unfold only_self_links in Hself. rewrite forallb_forall in Hself.
    specialize (Hself ep Hep). apply bool_decide_eq_true in Hself.
    exists (dev_of_node xdev). split; [exact Hself|now left]. }
  unfold xvip_graph_init, xvip_graph_parse, xvip_graph_parse_fuel,
    xvip_graph_parse_one.
  rewrite Hroot. change (0 <? 0) with false. cbv iota.
  unfold parse_fuel. simpl parse_entities. rewrite Hfresh. simpl.
  rewrite Hfresh. reflexivity.
Qed.

(** ** Probe and remove *)



Lemma graph_resolved_no_dangling P :
  graph_resolved P = true -> forall n, has_dangling P n = false.
Proof.
  unfold graph_resolved, has_dangling. rewrite forallb_forall. intros H n.
  destruct (existsb _ _) eqn:E; [|reflexivity].
  apply existsb_exists in E as (ep & Hep & Hnone).
  specialize (H ep (endpoint_in_graph P n ep Hep)).
  now rewrite Hnone in H.
Qed.

(** ** Nodes whose subdevice has not arrived *)

Lemma start_entities_null P n : forall i k,
  (forall e, In e (asd_list (g_xdev k)) -> entity e = None /\ streaming e = false) ->
  (i + n)%nat = length (asd_list (g_xdev k)) ->
  start_entities P i n k = Done tt k.
Proof.
  induction n as [|n IH]; intros i k Hnone Hlen; [reflexivity|].
  assert (Hi : (i < length (asd_list (g_xdev k)))%nat) by lia.
  destruct (lookup_lt_is_Some_2 _ _ Hi) as [e He].
  destruct (Hnone e) as (Hent & Hst).
  { apply list_elem_of_In, list_elem_of_lookup. now exists i. }
  simpl. unfold kbind at 1.
  rewrite (proj1 (start_stop_null P k i e He Hent) Hst).
  apply IH; [exact Hnone|lia].
Qed.

(** X23. A node whose subdevice has not arrived can be neither started nor
    stopped: every subdevice call on the null subdevice answers
    [- ENODEV], so that starting it when idle, and stopping it when
    streaming, returns [- ENODEV], issues no operation and leaves the
    whole state, the node's flag included, as it was. *)
Theorem unbound_node_start_stop P k i e :
  asd_list (g_xdev k) !! i = Some e -> entity e = None ->
  (streaming e = false -> xvip_entity_start_stop P i true k = Done (- ENODEV) k) /\
  (streaming e = true -> xvip_entity_start_stop P i false k = Done (- ENODEV) k).
Proof.
  intros He Hent.
  split; intros Hst; rewrite (start_stop_unfold _ _ _ _ _ He), Hst, Hent;
    cbn [media_entity_to_v4l2_subdev andb negb].
  - rewrite (start_subdev_null _ _ _ _ He).
    now rewrite (streaming_set_same _ _ _ _ He Hst).
  - rewrite (stop_subdev_null _ _ _ _ He).
    now rewrite (streaming_set_same _ _ _ _ He Hst).
Qed.

(** X24. The device flag says nothing of the nodes.  On a registry whose
    subdevices have not arrived, the whole-device activation issues no
    operation and leaves every node idle, and yet it sets the device flag:
    the state it returns differs from the initial one by that flag only. *)
Theorem start_stream_without_subdevices P k :
  (forall e, In e (asd_list (g_xdev k)) -> entity e = None /\ streaming e = false) ->
  xvip_start_stream P k =
    Done tt (set_g_xdev (set_is_streaming true (g_xdev k)) k).
Proof.
  intros Hnone. unfold xvip_start_stream, kbind at 1, kget.
  unfold kbind.
  now rewrite (start_entities_null P _ 0 k Hnone eq_refl).
Qed.

(** * The further properties on the scenarios *)

Lemma activate_starts_streaming_witness :
  xvip_entity_start_stop quiet_platform 0 true three_nodes =
    Done 0 (set_calls [(10%nat, s_power 1); (10%nat, s_stream 1)]
                      (streaming_set 0 true three_nodes)).
Proof.
  apply (activate_starts_streaming quiet_platform three_nodes 0
           (bound_entity 1 10 false) 10 (sample_subdev 1 "bridge"));
    [bound_here|reflexivity|discriminate|reflexivity|reflexivity].
Defined.

Lemma activate_without_ops_witness :
  xvip_entity_start_stop unimplemented_ops 0 true three_nodes =
    Done (- ENOIOCTLCMD)
         (set_calls [(10%nat, s_power 1); (10%nat, s_stream 1)]
                    (streaming_set 0 true three_nodes)) /\
  xvip_entity_start_stop unimplemented_ops 0 true one_sensor =
    Done (- ENOIOCTLCMD)
         (set_calls [(10%nat, s_power 1); (10%nat, s_frame_interval 1 60)]
                    one_sensor).
Proof.
  split.
  - apply (activate_without_ops unimplemented_ops three_nodes 0
             (bound_entity 1 10 false) 10 (sample_subdev 1 "bridge"));
      [bound_here|reflexivity|reflexivity].
  - apply (activate_without_ops unimplemented_ops one_sensor 0
             (bound_entity 1 10 false) 10 (sample_subdev 1 "IMX274"));
      [bound_here|reflexivity|reflexivity].
Defined.

Lemma power_on_failure_stops_activation_witness :
  xvip_entity_start_stop power_on_fails 0 true three_nodes =
    Done (-5) (set_calls [(10%nat, s_power 1)] three_nodes).
Proof.
  apply (power_on_failure_stops_activation power_on_fails three_nodes 0
           (bound_entity 1 10 false) 10 (sample_subdev 1 "bridge"));
    [bound_here|reflexivity|reflexivity].
Defined.

Lemma activate_sets_frame_interval_witness :
  xvip_entity_start_stop quiet_platform 0 true one_sensor =
    Done 0 (set_calls [(10%nat, s_power 1); (10%nat, s_frame_interval 1 60);
                       (10%nat, s_stream 1)]
                      (streaming_set 0 true one_sensor)).
Proof.
  apply (activate_sets_frame_interval quiet_platform one_sensor 0
           (bound_entity 1 10 false) 10 (sample_subdev 1 "IMX274"));
    [bound_here|reflexivity|reflexivity|reflexivity|discriminate|reflexivity].
Defined.

Lemma stream_on_failure_after_override_rollback_witness :
  xvip_entity_start_stop stream_on_fails 0 true one_sensor =
    Done (-5) (set_calls [(10%nat, s_power 1); (10%nat, s_frame_interval 1 60);
                          (10%nat, s_stream 1); (10%nat, s_power 0)] one_sensor).
Proof.
  apply (stream_on_failure_after_override_rollback stream_on_fails one_sensor 0
           (bound_entity 1 10 false) 10 (sample_subdev 1 "IMX274"));
    [bound_here|reflexivity|reflexivity|reflexivity|discriminate|reflexivity].
Defined.

(** Power-off fails here, and the node is idle all the same. *)
Lemma deactivate_stops_streaming_witness :
  xvip_entity_start_stop power_off_fails 0 false one_streaming =
    Done (-5) (set_calls [(10%nat, s_stream 0); (10%nat, s_power 0)]
                         (streaming_set 0 false one_streaming)).
Proof.
  apply (deactivate_stops_streaming power_off_fails one_streaming 0
           (bound_entity 1 10 true) 10 (sample_subdev 1 "bridge"));
    [bound_here|reflexivity|reflexivity].
Defined.

Lemma start_then_stop_round_trip_witness :
  (xvip_entity_start_stop quiet_platform 1 true;;
   xvip_entity_start_stop quiet_platform 1 false) three_nodes =
    Done 0 (set_calls [(20%nat, s_power 1); (20%nat, s_stream 1);
                       (20%nat, s_stream 0); (20%nat, s_power 0)] three_nodes).
Proof.
  apply (start_then_stop_round_trip quiet_platform three_nodes 1
           (bound_entity 2 20 false) 20 (sample_subdev 2 "scaler"));
    [bound_here|reflexivity|discriminate|reflexivity|reflexivity|reflexivity].
Defined.

Lemma start_stop_touches_one_node_witness :
  exists r k' b c,
    xvip_entity_start_stop second_stream_on_fails 1 true three_nodes = Done r k' /\
    calls k' = calls three_nodes ++ c /\
    Forall (fun o => fst o = 20%nat) c /\ (length c <= 4)%nat /\
    asd_list (g_xdev k') =
      <[1%nat := with_streaming b (bound_entity 2 20 false)]>
        (asd_list (g_xdev three_nodes)) /\
    is_streaming (g_xdev k') = is_streaming (g_xdev three_nodes) /\
    subdevs k' = subdevs three_nodes /\ links k' = links three_nodes /\
    indication k' = indication three_nodes.
Proof.
  apply (start_stop_touches_one_node second_stream_on_fails three_nodes 1 true
           (bound_entity 2 20 false) 20 (sample_subdev 2 "scaler")).
  bound_here.
Defined.

Lemma start_stream_twice_witness :
  exists k',
    xvip_start_stream quiet_platform three_nodes = Done tt k' /\
    (forall e, In e (asd_list (g_xdev k')) -> streaming e = true) /\
    xvip_start_stream quiet_platform k' = Done tt k'.
Proof.
  apply (start_stream_twice quiet_platform three_nodes);
    [reflexivity|intros; reflexivity|intros; discriminate].
Defined.

Ltac two_distinct :=
  simpl; apply NoDup_cons; split; [|apply NoDup_singleton];
  let H := fresh in
  intros H; apply list_elem_of_In in H; simpl in H; destruct H as [H|[]];
  discriminate H.

Lemma notify_bound_binds_witness :
  xvip_graph_notify_bound 20 one_unbound
    = Done 0 (entry_bound 1 20 (new_entity 2) one_unbound) /\
  asd_list (g_xdev (entry_bound 1 20 (new_entity 2) one_unbound)) !! 1%nat =
    Some (mk_graph_entity 2 (Some 20%nat) (Some 20%nat) false) /\
  (forall j, j <> 1%nat ->
     asd_list (g_xdev (entry_bound 1 20 (new_entity 2) one_unbound)) !! j
       = asd_list (g_xdev one_unbound) !! j).
Proof.
  apply (notify_bound_binds one_unbound 20 (sample_subdev 2 "scaler") 1 (new_entity 2));
    [reflexivity|unfold unique_identities; two_distinct|reflexivity|reflexivity
    |reflexivity].
Defined.

Lemma second_arrival_rejected_witness :
  (xvip_graph_notify_bound 20;; xvip_graph_notify_bound 20) one_unbound =
    Done (- EINVAL) (entry_bound 1 20 (new_entity 2) one_unbound).
Proof.
  apply (second_arrival_rejected one_unbound 20 (sample_subdev 2 "scaler") 1
           (new_entity 2) 20 (sample_subdev 2 "scaler"));
    [reflexivity|unfold unique_identities; two_distinct|reflexivity|reflexivity
    |reflexivity|reflexivity|reflexivity].
Defined.

Lemma lookups_after_bind_witness :
  exists k',
    xvip_graph_notify_bound 20 one_unbound = Done 0 k' /\
    xvip_graph_find_entity_from_media (g_xdev k') (Some 20%nat) = Some 1%nat /\
    xvip_graph_find_entity (g_xdev k') 2 = Some 1%nat.
Proof.
  apply (lookups_after_bind one_unbound 20 (sample_subdev 2 "scaler") 1 (new_entity 2));
    [reflexivity|unfold unique_identities; two_distinct|reflexivity|reflexivity
    |reflexivity|].
  intros e' [<-|[<-|[]]]; discriminate.
Defined.

(** The sensor gets its one link, from its pad 1 to pad 0 of the bridge. *)
Lemma build_one_links_witness :
  xvip_graph_build_one pipeline 1 pipeline_bound =
    Done 0 (set_links [mk_link 10 1 20 0 MEDIA_LNK_FL_ENABLED] pipeline_bound) /\
  exists r k' l' eps',
    xvip_graph_build_one pipeline 1 pipeline_bound = Done r k' /\
    links k' = links pipeline_bound ++ l' /\
    g_xdev k' = g_xdev pipeline_bound /\ calls k' = calls pipeline_bound /\
    sublist eps' (endpoints_of pipeline 1) /\
    Forall2 (link_of_endpoint k' 10) eps' l' /\
    (0 <= r -> forall ep, In ep (endpoints_of pipeline 1) ->
       skips_endpoint k' 10 ep = true \/ In ep eps').
Proof.
  split; [vm_compute; reflexivity|].
  apply (build_one_links pipeline pipeline_bound 1 (bound_entity 1 10 false) 10
           (sample_subdev 1 "sensor")); [bound_here|reflexivity].
Defined.

(** The bridge has a sink pad and a pad that leads to the root: no link;
    with a last endpoint that does not parse, its assembly returns -67. *)
Lemma build_one_without_links_witness :
  xvip_graph_build_one pipeline 0 pipeline_bound = Done 0 pipeline_bound /\
  xvip_graph_build_one trailing_unparsable 0 pipeline_bound = Done (-67) pipeline_bound.
Proof.
  split.
  - apply (build_one_without_links pipeline pipeline_bound 0
             (bound_entity 2 20 false) 20 (sample_subdev 2 "bridge"));
      [bound_here|discriminate|reflexivity].
  - apply (build_one_without_links trailing_unparsable pipeline_bound 0
             (bound_entity 2 20 false) 20 (sample_subdev 2 "bridge"));
      [bound_here|discriminate|reflexivity].
Defined.

Lemma notify_complete_outcome_witness :
  exists r k',
    xvip_graph_notify_complete pipeline pipeline_bound = Done r k' /\
    asd_list (g_xdev k') = asd_list (g_xdev pipeline_bound) /\
    is_streaming (g_xdev k') = is_streaming (g_xdev pipeline_bound) /\
    calls k' = calls pipeline_bound /\
    ((exists i k1,
        (i < length (asd_list (g_xdev pipeline_bound)))%nat /\
        assembles pipeline 0 i pipeline_bound k1 /\
        xvip_graph_build_one pipeline i k1 = Done r k' /\ r < 0 /\
        media_dev_registered (g_xdev k') = media_dev_registered (g_xdev pipeline_bound) /\
        subdev_nodes_registered (g_xdev k')
          = subdev_nodes_registered (g_xdev pipeline_bound)) \/
     (exists k1,
        assembles pipeline 0 (length (asd_list (g_xdev pipeline_bound)))
                  pipeline_bound k1 /\
        r = media_device_register_result pipeline /\
        k' = set_g_xdev
               (set_media_dev_registered (0 <=? media_device_register_result pipeline)
                  (set_subdev_nodes_registered
                     (0 <=? register_subdev_nodes_result pipeline)
                     (g_xdev k1))) k1)).
Proof.
  apply (notify_complete_outcome pipeline pipeline_bound). reflexivity.
Defined.

Lemma discovery_registers_reachable_nodes_witness :
  xvip_graph_parse pipeline fresh_device = Some (0, pipeline_discovered) /\
  exists xdev',
    xvip_graph_parse pipeline fresh_device = Some (0, xdev') /\
    (forall n, In n (fwnodes xdev') <->
               n <> dev_of_node fresh_device /\
               exists p, reaches pipeline (dev_of_node fresh_device) p n = true) /\
    NoDup (fwnodes xdev') /\
    asd_list xdev' = new_entity <$> fwnodes xdev' /\
    xdev' = set_asd_list (asd_list xdev') fresh_device.
Proof.
  split; [vm_compute; reflexivity|].
  apply (discovery_registers_reachable_nodes pipeline fresh_device eq_refl).
  - intros n. reflexivity.
  - intros p n _. apply graph_resolved_no_dangling. reflexivity.
Defined.

Lemma discovery_idempotent_witness :
  exists xdev',
    xvip_graph_parse pipeline fresh_device = Some (0, xdev') /\
    xvip_graph_parse pipeline xdev' = Some (0, xdev').
Proof.
  apply (discovery_idempotent pipeline fresh_device eq_refl).
  - intros n. reflexivity.
  - intros p n _. apply graph_resolved_no_dangling. reflexivity.
Defined.

Lemma empty_graph_is_not_an_error_witness :
  xvip_graph_init self_linked_root fresh_device = Some (0, fresh_device) /\
  xvip_graph_init quiet_platform fresh_device = Some (0, fresh_device).
Proof.
  split.
  - apply (empty_graph_is_not_an_error self_linked_root fresh_device eq_refl).
    reflexivity.
  - apply (empty_graph_is_not_an_error quiet_platform fresh_device eq_refl).
    reflexivity.
Defined.


(** ** Link assembly: the renaming of one entity *)

(** X15. The renaming goes by the counter, which nothing resets, and touches
    the name of the media entity only.  With every registered node bound,
    the assembly of an entity named IMX274 names it IMX274_0 when the
    counter is 0 and IMX274_1 otherwise, and steps the counter; an entity
    with another name is left alone, and so is the counter.  In both cases
    the name of the subdevice itself, which is what the activation tests,
    its firmware node and its pads are unchanged, and no other subdevice is
    touched. *)
Theorem build_one_rename P k i e sd s :
  bound_at k i e sd s -> all_bound k = true ->
  exists r k' s',
    xvip_graph_build_one P i k = Done r k' /\
    subdevs k' !! sd = Some s' /\
    sd_name s' = sd_name s /\ sd_fwnode s' = sd_fwnode s /\
    pads (sd_entity s') = pads (sd_entity s) /\
    (forall p, p <> sd -> subdevs k' !! p = subdevs k !! p) /\
    (name (sd_entity s) = IMX274 ->
       name (sd_entity s') = (if indication k =? 0 then IMX274_0 else IMX274_1) /\
       indication k' = wrap_int (indication k + 1)) /\
    (name (sd_entity s) <> IMX274 -> s' = s /\ indication k' = indication k).
Proof.
  intros Hb Hall. apply all_bound_everywhere in Hall.
  pose proof Hb as (He & Hent & Hs).
  destruct (build_one_run P k i e sd s Hb Hall) as (r & l' & Hrun).
  unfold rename_step in Hrun.
  destruct (String.eqb (name (sd_entity s)) IMX274) eqn:Hname.
  - eexists r, _, _. split; [exact Hrun|]. simpl.
    split; [apply lookup_insert_eq|]. split; [reflexivity|].
    split; [reflexivity|]. split; [reflexivity|].
    split; [intros p Hp; now apply lookup_insert_ne|].
    split; [now intros _|].
    intros Hne. apply String.eqb_neq in Hne. congruence.
  - exists r, (set_links (links k ++ l') k), s. split; [exact Hrun|]. simpl.
    split; [exact Hs|]. split; [reflexivity|]. split; [reflexivity|].
    split; [reflexivity|]. split; [now intros p _|].
    split; [|now intros _].
    intros Heq. apply String.eqb_eq in Heq. congruence.
Qed.

Lemma build_one_rename_witness :
  exists r k' s',
    xvip_graph_build_one quiet_platform 0 two_imx274 = Done r k' /\
    subdevs k' !! 10%nat = Some s' /\
    sd_name s' = sd_name (sample_subdev 1 "IMX274") /\
    sd_fwnode s' = sd_fwnode (sample_subdev 1 "IMX274") /\
    pads (sd_entity s') = pads (sd_entity (sample_subdev 1 "IMX274")) /\
    (forall p, p <> 10%nat -> subdevs k' !! p = subdevs two_imx274 !! p) /\
    (name (sd_entity (sample_subdev 1 "IMX274")) = IMX274 ->
       name (sd_entity s')
         = (if indication two_imx274 =? 0 then IMX274_0 else IMX274_1) /\
       indication k' = wrap_int (indication two_imx274 + 1)) /\
    (name (sd_entity (sample_subdev 1 "IMX274")) <> IMX274 ->
       s' = sample_subdev 1 "IMX274" /\ indication k' = indication two_imx274).
Proof.
  apply (build_one_rename quiet_platform two_imx274 0 (bound_entity 1 10 false) 10
           (sample_subdev 1 "IMX274")); [bound_here|reflexivity].
Defined.

Lemma unbound_node_start_stop_witness :
  xvip_entity_start_stop quiet_platform 1 true one_unbound
    = Done (- ENODEV) one_unbound /\
  xvip_entity_start_stop quiet_platform 0 false streaming_unbound
    = Done (- ENODEV) streaming_unbound.
Proof.
  split.
  - apply (proj1 (unbound_node_start_stop quiet_platform one_unbound 1
                    (new_entity 2) eq_refl eq_refl)).
    reflexivity.
  - apply (proj2 (unbound_node_start_stop quiet_platform streaming_unbound 0
                    (mk_graph_entity 1 None None true) eq_refl eq_refl)).
    reflexivity.
Defined.

Lemma start_stream_without_subdevices_witness :
  xvip_start_stream quiet_platform none_bound =
    Done tt (set_g_xdev (set_is_streaming true (g_xdev none_bound)) none_bound).
Proof.
  apply (start_stream_without_subdevices quiet_platform none_bound).
  intros e [<-|[<-|[]]]; split; reflexivity.
Defined.
